(** * skn-bpmn: the Sankhya collector, its preprocessing and the web layer

    A shallow embedding of the three Python modules of the repository

    - [sankhya_api_data_collector.py]: [SankhyaAPIDataCollector] with
      [authenticate], [execute_query], [collect_process_events] and
      [preprocess_data];
    - [app_sankhya_integrated.py]: the Flask routes, the fitness figures of
      [analyze_sankhya_processes], [generate_sankhya_suggestions] and
      [sankhya_config];
    - [process_analyzer.py]: the header [load_and_convert_log] accepts and
      the count of perfectly fitting traces.

    Conventions of the embedding.

    - A decoded JSON document and the Python value it becomes are one type,
      [json]; [JNull] is Python's [None].
    - A [try: ... except Exception] block is a computation in the error monad
      [result]; the handler is the [match] on its outcome.
    - A pandas DataFrame is a [frame]: the column labels in order and the rows
      in positional order, each row a list of [cell]s.  Cells are the values as
      pandas stores them, so a missing value of a datetime64 column is [CNaT]
      and a missing value of any other column is [CNull]; a column of numbers
      built from Python values holds floats as soon as an int stands beside a
      float or a missing value ([DataFrame]).  The index is not modelled, and
      the frames hold no booleans.  Under a label that occurs more than once
      a cell is read from the first column carrying it; the properties below
      are stated for frames whose labels are distinct.
    - A float is given by its exact value, a rational ([Q]).  What Python,
      numpy and pandas compute on floats (a sum, a quotient, the mean of a
      column, the seconds of a Timedelta) is rounded, and how depends on the
      release; that arithmetic is not part of the repository and enters as
      the parameters [py_sum], [py_truediv], [series_mean] and
      [seconds_of_ns] of the sections that need it.  The constants the code
      compares with (0.8, 0.95) are the floats these literals denote.  The
      examples instantiate the parameters with IEEE 754 binary64 arithmetic.
    - Python's [str] on a non-string cell, what [astype(str)] makes of a
      missing value, and pandas' date parser are not part of the repository
      either: they are the parameters [py_str], [astype_missing] and
      [parse_date]. *)

From Stdlib Require Import List String Ascii ZArith QArith Bool Lia.
From Stdlib Require Import Permutation Sorted OrderedTypeEx.
From Stdlib Require DecimalString.
Import ListNotations.

Local Open Scope string_scope.
Local Open Scope list_scope.
Local Open Scope Z_scope.

Local Abbreviation length := List.length.

(** ** Exceptions and the error monad *)

Inductive exn :=
| ConnectionError   (* requests.post failed *)
| JSONDecodeError   (* response.json() failed *)
| AttributeError
| KeyError
| TypeError
| ValueError
| OverflowError.

Inductive result (A : Type) :=
| Ok (a : A)
| Raise (e : exn).

Arguments Ok {A} a.
Arguments Raise {A} e.

Definition bind {A B : Type} (m : result A) (k : A -> result B) : result B :=
  match m with
  | Ok a => k a
  | Raise e => Raise e
  end.

Notation "x <- m ;; k" := (bind m (fun x => k))
  (at level 61, m at next level, right associativity).

Fixpoint mapM {A B : Type} (f : A -> result B) (l : list A) : result (list B) :=
  match l with
  | [] => Ok []
  | x :: xs => y <- f x ;; ys <- mapM f xs ;; Ok (y :: ys)
  end.

(** ** JSON documents and Python values *)

#[warnings="-register-all"]
Inductive json :=
| JNull
| JBool (b : bool)
| JInt (z : Z)
| JNum (q : Q)
| JStr (s : string)
| JArr (items : list json)
| JObj (entries : list (string * json)).

(** [d[key]] on the entries of a dict; [None] is the missing key. *)
Fixpoint dict_get (key : string) (entries : list (string * json)) : option json :=
  match entries with
  | [] => None
  | (k, v) :: rest => if String.eqb k key then Some v else dict_get key rest
  end.

(** [obj.get(key, default)]: only a dict has the method. *)
Definition py_get (obj : json) (key : string) (default : json) : result json :=
  match obj with
  | JObj entries =>
      match dict_get key entries with
      | Some v => Ok v
      | None => Ok default
      end
  | _ => Raise AttributeError
  end.

(** [value == "1"] *)
Definition is_status_ok (value : json) : bool :=
  match value with
  | JStr s => String.eqb s "1"
  | _ => false
  end.

(** Python truthiness, [bool(value)]. *)
Definition truthy (value : json) : bool :=
  match value with
  | JNull => false
  | JBool b => b
  | JInt z => negb (z =? 0)
  | JNum q => negb (Qeq_bool q 0)
  | JStr s => negb (String.eqb s "")
  | JArr items => match items with [] => false | _ => true end
  | JObj entries => match entries with [] => false | _ => true end
  end.

(** ** The HTTP exchange

    The request (URL, payload, headers) only feeds the remote service; the
    functions below take what [requests.post] produced: [None] when the call
    raised, otherwise the response with its status code and its body, [None]
    when [response.json()] raises. *)

Record response := {
  status_code : Z;
  json_body : option json
}.

Definition response_json (r : response) : result json :=
  match json_body r with
  | Some j => Ok j
  | None => Raise JSONDecodeError
  end.

Definition requests_post (net : option response) : result response :=
  match net with
  | Some r => Ok r
  | None => Raise ConnectionError
  end.

(** ** The collector *)

Record collector := {
  base_url : string;
  app_key : string;
  sankhya_id : string;
  password : string;
  token : option string;
  session_id : json
}.

Definition with_session (self : collector) (sid : json) : collector :=
  {| base_url := base_url self;
     app_key := app_key self;
     sankhya_id := sankhya_id self;
     password := password self;
     token := token self;
     session_id := sid |}.

(** The body of the [try] of [authenticate]: the value returned and the
    collector after it. *)
Definition authenticate_try (self : collector) (net : option response)
  : result (bool * collector) :=
  resp <- requests_post net ;;
  if status_code resp =? 200 then
    res <- response_json resp ;;
    status <- py_get res "status" JNull ;;
    if is_status_ok status then
      body <- py_get res "responseBody" (JObj []) ;;
      sid <- py_get body "jsessionid" JNull ;;
      Ok (true, with_session self sid)
    else Ok (false, self)
  else Ok (false, self).

Definition authenticate (self : collector) (net : option response) : bool * collector :=
  match authenticate_try self net with
  | Ok r => r
  | Raise _ => (false, self)
  end.

(** The body of the [try] of [execute_query]. *)
Definition execute_query_try (net : option response) : result json :=
  resp <- requests_post net ;;
  if status_code resp =? 200 then
    res <- response_json resp ;;
    status <- py_get res "status" JNull ;;
    if is_status_ok status then py_get res "responseBody" (JObj [])
    else Ok JNull
  else Ok JNull.

Definition execute_query (net : option response) : json :=
  match execute_query_try net with
  | Ok r => r
  | Raise _ => JNull
  end.

(** ** Cells and frames *)

Inductive cell :=
| CNull               (* None or NaN *)
| CNaT                (* the missing value of a datetime64 column *)
| CStr (s : string)
| CInt (z : Z)
| CNum (q : Q)        (* a float *)
| CTime (ns : Z).     (* a Timestamp, nanoseconds since the epoch *)

Record frame := {
  columns : list string;
  rows : list (list cell)
}.

(** [pd.DataFrame()] *)
Definition empty_frame : frame := {| columns := []; rows := [] |}.

(** [df.empty]: some axis has length 0. *)
Definition df_empty (df : frame) : bool :=
  match columns df, rows df with
  | [], _ => true
  | _, [] => true
  | _, _ => false
  end.

(** [label in df.columns] *)
Definition has_column (label : string) (df : frame) : bool :=
  existsb (String.eqb label) (columns df).

(** The cell of [row] under [label], by position of the label. *)
Fixpoint lookup (label : string) (labels : list string) (row : list cell) : option cell :=
  match labels, row with
  | l :: ls, c :: cs => if String.eqb l label then Some c else lookup label ls cs
  | _, _ => None
  end.

Definition cell_at (label : string) (labels : list string) (row : list cell) : cell :=
  match lookup label labels row with
  | Some c => c
  | None => CNull
  end.

(** [df[label]] as a Series; the missing label is a [KeyError]. *)
Definition column (label : string) (df : frame) : result (list cell) :=
  if has_column label df
  then Ok (map (cell_at label (columns df)) (rows df))
  else Raise KeyError.

Fixpoint zip_with {A B C : Type} (f : A -> B -> C) (xs : list A) (ys : list B) : list C :=
  match xs, ys with
  | x :: xs', y :: ys' => f x y :: zip_with f xs' ys'
  | _, _ => []
  end.

(** Apply [f] to the cells of [row] that stand under [label]. *)
Fixpoint map_labelled (f : cell -> cell) (label : string) (labels : list string)
    (row : list cell) : list cell :=
  match labels, row with
  | l :: ls, c :: cs =>
      (if String.eqb l label then f c else c) :: map_labelled f label ls cs
  | _, _ => row
  end.

(** The labels after an assignment to [label]: a new label goes last. *)
Definition set_label (label : string) (labels : list string) : list string :=
  if existsb (String.eqb label) labels then labels else labels ++ [label].

(** A row after an assignment of [v] to its cell under [label]. *)
Definition set_cell (label : string) (labels : list string) (row : list cell) (v : cell)
  : list cell :=
  if existsb (String.eqb label) labels
  then map_labelled (fun _ => v) label labels row
  else row ++ [v].

(** [df[label] = values]: an existing column is overwritten in place, a new
    one is appended.  The values assigned below are always computed from the
    frame they are assigned to, one per row, so they carry its index and the
    assignment is positional. *)
Definition setitem (label : string) (values : list cell) (df : frame) : frame :=
  {| columns := set_label label (columns df);
     rows := zip_with (set_cell label (columns df)) (rows df) values |}.

(** [df.rename(columns=mapping)] *)
Fixpoint rename_label (mapping : list (string * string)) (label : string) : string :=
  match mapping with
  | [] => label
  | (old, new) :: rest => if String.eqb old label then new else rename_label rest label
  end.

Definition rename (mapping : list (string * string)) (df : frame) : frame :=
  {| columns := map (rename_label mapping) (columns df); rows := rows df |}.

(** ** Ordering of cells, as [sort_values] uses it *)

Definition is_null (c : cell) : bool :=
  match c with
  | CNull | CNaT => true
  | _ => false
  end.

Inductive kind := KNum | KStr | KTime.

Definition kind_of (c : cell) : option kind :=
  match c with
  | CNull | CNaT => None
  | CStr _ => Some KStr
  | CInt _ | CNum _ => Some KNum
  | CTime _ => Some KTime
  end.

Definition kind_eqb (a b : kind) : bool :=
  match a, b with
  | KNum, KNum | KStr, KStr | KTime, KTime => true
  | _, _ => false
  end.

Fixpoint kinds (col : list cell) : list kind :=
  match col with
  | [] => []
  | c :: cs => match kind_of c with
               | Some k => k :: kinds cs
               | None => kinds cs
               end
  end.

(** The values of a column can be ordered when those present are all numbers,
    all strings or all timestamps; Python raises [TypeError] on a mix. *)
Definition comparable (col : list cell) : bool :=
  match kinds col with
  | [] => true
  | k :: ks => forallb (kind_eqb k) ks
  end.

Definition rank (c : cell) : Z :=
  match c with
  | CInt _ | CNum _ => 0
  | CStr _ => 1
  | CTime _ => 2
  | CNull | CNaT => 3
  end.

(** Ascending order with missing values last ([na_position='last']).  Cells
    of different kinds never meet in a comparable column; they are ranked by
    kind to keep the order total. *)
Definition cell_leb (a b : cell) : bool :=
  match a, b with
  | CStr s, CStr t => String.leb s t
  | CTime s, CTime t => s <=? t
  | CInt x, CInt y => x <=? y
  | CInt x, CNum y => Qle_bool (inject_Z x) y
  | CNum x, CInt y => Qle_bool x (inject_Z y)
  | CNum x, CNum y => Qle_bool x y
  | _, _ => rank a <=? rank b
  end.

(** Lexicographic order on the key cells of two rows. *)
Fixpoint keys_leb (a b : list cell) : bool :=
  match a, b with
  | x :: a', y :: b' =>
      if negb (cell_leb y x) then true
      else if negb (cell_leb x y) then false
      else keys_leb a' b'
  | _, _ => true
  end.

(** A stable sort: an element is placed before the later elements it does not
    exceed. *)
Section Sort.
Context {A : Type} (leb : A -> A -> bool).

Fixpoint insert (x : A) (l : list A) : list A :=
  match l with
  | [] => [x]
  | y :: l' => if leb x y then x :: l else y :: insert x l'
  end.

Definition sort (l : list A) : list A := fold_right insert [] l.
End Sort.

Definition count_label (label : string) (labels : list string) : nat :=
  count_occ string_dec labels label.

(** A sort key must name exactly one column. *)
Definition check_key (df : frame) (label : string) : result unit :=
  match count_label label (columns df) with
  | O => Raise KeyError
  | S O => Ok tt
  | _ => Raise ValueError
  end.

Definition check_comparable (df : frame) (label : string) : result unit :=
  if comparable (map (cell_at label (columns df)) (rows df)) then Ok tt
  else Raise TypeError.

Definition row_keys (by_ : list string) (labels : list string) (row : list cell) : list cell :=
  map (fun label => cell_at label labels row) by_.

(** [df.sort_values(by)]: with several keys pandas sorts the rows by a stable
    lexicographic sort of the key columns. *)
Definition sort_values (by_ : list string) (df : frame) : result frame :=
  _ <- mapM (check_key df) by_ ;;
  _ <- mapM (check_comparable df) by_ ;;
  Ok {| columns := columns df;
        rows := sort (fun r1 r2 => keys_leb (row_keys by_ (columns df) r1)
                                            (row_keys by_ (columns df) r2))
                  (rows df) |}.

(** ** Group-wise operations *)

(** Equality of group keys and of counted values.  A missing value equals
    nothing, itself included. *)
Definition cell_eqb (a b : cell) : bool :=
  match a, b with
  | CStr s, CStr t => String.eqb s t
  | CTime s, CTime t => s =? t
  | CInt x, CInt y => x =? y
  | CInt x, CNum y => Qeq_bool (inject_Z x) y
  | CNum x, CInt y => Qeq_bool x (inject_Z y)
  | CNum x, CNum y => Qeq_bool x y
  | _, _ => false
  end.

(** The value recorded with the nearest earlier row of the group of [key];
    [seen] lists the earlier rows, the most recent first. *)
Fixpoint find_key {A : Type} (key : cell) (seen : list (cell * A)) : option A :=
  match seen with
  | [] => None
  | (k, v) :: rest => if cell_eqb k key then Some v else find_key key rest
  end.

Fixpoint count_key (key : cell) (seen : list cell) : Z :=
  match seen with
  | [] => 0
  | k :: rest => (if cell_eqb k key then 1 else 0) + count_key key rest
  end.

(** For every row, the value of the previous row of its group. *)
Fixpoint group_prev {A : Type} (seen : list (cell * A)) (keys : list cell)
    (values : list A) : list (option A) :=
  match keys, values with
  | k :: ks, v :: vs => find_key k seen :: group_prev ((k, v) :: seen) ks vs
  | _, _ => []
  end.

(** For every row, how many rows of its group precede it. *)
Fixpoint group_counts (seen : list cell) (keys : list cell) : list Z :=
  match keys with
  | [] => []
  | k :: ks => count_key k seen :: group_counts (k :: seen) ks
  end.

(** [groupby(key).cumcount()]: [groupby] drops the rows whose key is missing
    ([dropna=True]), and they get no number. *)
Definition group_cumcount (seen : list cell) (keys : list cell) : list (option Z) :=
  zip_with (fun k n => if is_null k then None else Some n) keys (group_counts seen keys).

(** The values of a datetime64 column, [None] for [NaT].  On any other column
    either the subtraction of [diff] or the [.dt] accessor raises. *)
Definition as_datetime64 (col : list cell) : result (list (option Z)) :=
  mapM (fun c => match c with
                 | CTime t => Ok (Some t)
                 | CNaT => Ok None
                 | CInt _ | CNum _ => Raise AttributeError
                 | CStr _ | CNull => Raise TypeError
                 end) col.

(** The values of a timedelta64[ns] column are 64-bit integers, the least of
    them standing for [NaT]. *)
Definition fits_int64 (ns : Z) : bool :=
  (- 9223372036854775808 <? ns) && (ns <? 9223372036854775808).

(** The difference with the previous value of the group: [NaT] for the first
    row of a group and when either timestamp is missing.  The subtraction of
    two datetime64 values is checked: a difference that no timedelta64[ns]
    holds is an [OverflowError] (pandas 2 and later; earlier versions wrap
    around, and the properties below are stated where the difference fits). *)
Definition timedelta (current : option Z) (previous : option (option Z))
  : result (option Z) :=
  match current, previous with
  | Some t, Some (Some p) =>
      if fits_int64 (t - p) then Ok (Some (t - p)) else Raise OverflowError
  | _, _ => Ok None
  end.

(** [df.groupby(key)[value].diff()] on a datetime64 column. *)
Definition groupby_diff (key value : string) (df : frame) : result (list (option Z)) :=
  keys <- column key df ;;
  vals <- column value df ;;
  times <- as_datetime64 vals ;;
  mapM (fun pair => timedelta (fst pair) (snd pair))
       (combine times (group_prev [] keys times)).

(** [.fillna(0)] *)
Definition fillna0 (c : cell) : cell :=
  if is_null c then CNum 0 else c.

(** [df.groupby(key).cumcount()] *)
Definition groupby_cumcount (key : string) (df : frame) : result (list (option Z)) :=
  keys <- column key df ;;
  Ok (group_cumcount [] keys).

Definition is_some {A : Type} (o : option A) : bool :=
  match o with Some _ => true | None => false end.

(** [cumcount() + 1]: an int64 column, or a float64 column with NaN for the
    rows that were dropped when there are such rows. *)
Definition sequence_numbers (counts : list (option Z)) : list cell :=
  if forallb is_some counts
  then map (fun n => match n with Some n => CInt (n + 1) | None => CNull end) counts
  else map (fun n => match n with Some n => CNum (inject_Z (n + 1)) | None => CNull end)
           counts.

(** ** [SankhyaAPIDataCollector.preprocess_data] *)

Definition pm4py_names : list (string * string) :=
  [ ("case_id", "case:concept:name");
    ("activity", "concept:name");
    ("timestamp", "time:timestamp");
    ("resource", "org:resource") ].

Section Preprocess.
(** Python's [str] on a cell that is not a string. *)
Variable py_str : cell -> string.

(** What [.astype(str)] leaves for a missing value: the missing value itself
    from pandas 3 on, the string "None", "nan" or "NaT" before. *)
Variable astype_missing : cell -> cell.

(** The float that [.dt.total_seconds()] gives for a number of nanoseconds:
    a float64 quotient, whose rounding is pandas' and numpy's. *)
Variable seconds_of_ns : Z -> Q.

(** [.astype(str)] on one value. *)
Definition astype_str_cell (c : cell) : cell :=
  match c with
  | CStr s => CStr s
  | CNull | CNaT => astype_missing c
  | _ => CStr (py_str c)
  end.

(** [.dt.total_seconds()] *)
Definition total_seconds (delta : option Z) : cell :=
  match delta with
  | Some ns => CNum (seconds_of_ns ns)
  | None => CNull
  end.

(** [df[label] = df[label].astype(str)] *)
Definition astype_str (label : string) (df : frame) : result frame :=
  if has_column label df then
    Ok {| columns := columns df;
          rows := map (map_labelled astype_str_cell label (columns df)) (rows df) |}
  else Raise KeyError.

(** The body of the [try], after the guard on the empty frame. *)
Definition preprocess_data_try (df : frame) : result frame :=
  let df_processed := rename pm4py_names df in
  df_processed <- astype_str "case:concept:name" df_processed ;;
  df_processed <- astype_str "concept:name" df_processed ;;
  df_processed <- sort_values ["case:concept:name"; "time:timestamp"] df_processed ;;
  deltas <- groupby_diff "case:concept:name" "time:timestamp" df_processed ;;
  let df_processed :=
    setitem "duration_seconds"
      (map (fun d => fillna0 (total_seconds d)) deltas) df_processed in
  counts <- groupby_cumcount "case:concept:name" df_processed ;;
  Ok (setitem "activity_sequence" (sequence_numbers counts) df_processed).

Definition preprocess_data (df : frame) : frame :=
  if df_empty df then df
  else match preprocess_data_try df with
       | Ok df_processed => df_processed
       | Raise _ => df
       end.
End Preprocess.

(** ** [SankhyaAPIDataCollector.collect_process_events] *)

(** [key in obj] *)
Definition py_contains (key : string) (obj : json) : result bool :=
  match obj with
  | JObj entries => Ok (match dict_get key entries with Some _ => true | None => false end)
  | JArr items => Ok (existsb (fun item => match item with
                                           | JStr s => String.eqb s key
                                           | _ => false
                                           end) items)
  | JStr s => Ok (match String.index 0 key s with Some _ => true | None => false end)
  | _ => Raise TypeError
  end.

(** [obj[key]] for a string key. *)
Definition py_getitem (obj : json) (key : string) : result json :=
  match obj with
  | JObj entries =>
      match dict_get key entries with
      | Some v => Ok v
      | None => Raise KeyError
      end
  | _ => Raise TypeError
  end.

(** [for item in obj] *)
Definition py_iter (obj : json) : result (list json) :=
  match obj with
  | JArr items => Ok items
  | JObj entries => Ok (map (fun entry => JStr (fst entry)) entries)
  | JStr s => Ok (map (fun a => JStr (String a EmptyString)) (list_ascii_of_string s))
  | _ => Raise TypeError
  end.

(** The scalar values a cell can hold.  The frames of this model hold no
    booleans and no nested values: a reply that carries one in its rows is
    outside the model. *)
Definition cell_of_json (value : json) : option cell :=
  match value with
  | JNull => Some CNull
  | JInt z => Some (CInt z)
  | JNum q => Some (CNum q)
  | JStr s => Some (CStr s)
  | JBool _ | JArr _ | JObj _ => None
  end.

Fixpoint all_some {A : Type} (l : list (option A)) : option (list A) :=
  match l with
  | [] => Some []
  | Some x :: rest => option_map (cons x) (all_some rest)
  | None :: _ => None
  end.

Definition label_of_json (value : json) : option string :=
  match value with
  | JStr s => Some s
  | _ => None
  end.

Definition row_of_json (value : json) : option (list cell) :=
  match value with
  | JArr items => all_some (map cell_of_json items)
  | _ => None
  end.

Definition same_width (table : list (list cell)) : bool :=
  match table with
  | [] => true
  | first :: rest => forallb (fun row => Nat.eqb (length row) (length first)) rest
  end.

(** The data the frame model covers: an array of rows of equal width whose
    items are scalars.  Anything else (nested values, rows of dicts, ragged
    rows) is [None]. *)
Definition table_of_json (value : json) : option (list (list cell)) :=
  match value with
  | JArr items =>
      match all_some (map row_of_json items) with
      | Some table => if same_width table then Some table else None
      | None => None
      end
  | _ => None
  end.

(** The type pandas infers for a column of Python values: numbers make a
    float64 column as soon as an int stands beside a float or a missing
    value, and every int of the column is then the float of the same value.
    Columns of ints only, of strings, and mixed columns keep their values. *)
Definition is_int_cell (c : cell) : bool :=
  match c with
  | CInt _ => true
  | _ => false
  end.

Definition numeric_cell (c : cell) : bool :=
  match c with
  | CInt _ | CNum _ | CNull => true
  | _ => false
  end.

Definition float_or_missing (c : cell) : bool :=
  match c with
  | CNum _ | CNull => true
  | _ => false
  end.

Definition float_column (col : list cell) : bool :=
  forallb numeric_cell col && existsb is_int_cell col && existsb float_or_missing col.

(** [float(z)] for an int that a float holds exactly; an int beyond 2^53 in
    a float column is outside the model. *)
Definition to_float64 (c : cell) : option cell :=
  match c with
  | CInt z => if Z.abs z <=? 2 ^ 53 then Some (CNum (inject_Z z)) else None
  | _ => Some c
  end.

Definition column_of (j : nat) (table : list (list cell)) : list cell :=
  map (fun row => nth j row CNull) table.

(** The cells of a row, from column [j] on, with the types of their
    columns. *)
Fixpoint infer_row (table : list (list cell)) (j : nat) (row : list cell)
  : option (list cell) :=
  match row with
  | [] => Some []
  | c :: rest =>
      match (if float_column (column_of j table) then to_float64 c else Some c),
            infer_row table (S j) rest with
      | Some c', Some rest' => Some (c' :: rest')
      | _, _ => None
      end
  end.

Definition infer_dtypes (table : list (list cell)) : option (list (list cell)) :=
  all_some (map (infer_row table 0) table).

(** [pd.DataFrame(table, columns=labels)]: the number of labels must be the
    width of the data.  [None]: the data is outside the model. *)
Definition DataFrame (table : list (list cell)) (labels : list string)
  : option (result frame) :=
  match table with
  | [] => Some (Ok {| columns := labels; rows := [] |})
  | first :: _ =>
      if Nat.eqb (length first) (length labels)
      then option_map (fun data => Ok {| columns := labels; rows := data |})
                      (infer_dtypes table)
      else Some (Raise ValueError)
  end.

Definition is_datetime (c : cell) : bool :=
  match c with
  | CTime _ | CNaT => true
  | _ => false
  end.

Definition datetime_cell (t : option Z) : cell :=
  match t with
  | Some ns => CTime ns
  | None => CNaT
  end.

Section Collect.
(** pandas' date parser is not part of the repository.  [parse_date col c]
    is what it makes of the value [c] of the column [col], a column that is
    not datetime64 yet: nanoseconds since the epoch, [None] for [NaT], or the
    exception it raises.  It is given the column because the format it reads
    a value with can depend on the other values (pandas 2 and later infer it
    from the first value present). *)
Variable parse_date : list cell -> cell -> result (option Z).

(** [pd.to_datetime(series)]: a datetime64 column is returned as it is. *)
Definition to_datetime_column (col : list cell) : result (list cell) :=
  if forallb is_datetime col then Ok col
  else mapM (fun c => t <- parse_date col c ;; Ok (datetime_cell t)) col.

(** [pd.to_datetime(df[label])]; with the label repeated [df[label]] is a
    frame, which [to_datetime] cannot assemble into dates. *)
Definition to_datetime (label : string) (df : frame) : result (list cell) :=
  match count_label label (columns df) with
  | O => Raise KeyError
  | S O => to_datetime_column (map (cell_at label (columns df)) (rows df))
  | _ => Raise ValueError
  end.

(** [[field["name"] for field in result.get("fields", [])]] *)
Definition column_names (res : json) : result (list json) :=
  fields <- py_get res "fields" (JArr []) ;;
  fields <- py_iter fields ;;
  mapM (fun field => py_getitem field "name") fields.

(** The statements of the [try] that build the frame, once the result is
    known to hold rows.  [None]: the reply is outside what [frame] can
    hold. *)
Definition build_frame (res : json) : option (result frame) :=
  match (names <- column_names res ;;
         table <- py_getitem res "rows" ;;
         Ok (names, table)) with
  | Raise e => Some (Raise e)
  | Ok (names, table) =>
      match all_some (map label_of_json names), table_of_json table with
      | Some labels, Some table =>
          match DataFrame table labels with
          | Some built =>
              Some (df <- built ;;
                    if has_column "timestamp" df
                    then times <- to_datetime "timestamp" df ;;
                         Ok (setitem "timestamp" times df)
                    else Ok df)
          | None => None
          end
      | _, _ => None
      end
  end.

(** The frame is returned after the log line, which reads [df['case_id']]. *)
Definition frame_of_result (res : json) : option (result frame) :=
  match build_frame res with
  | Some built => Some (df <- built ;;
                        _ <- column "case_id" df ;;
                        Ok df)
  | None => None
  end.

Definition collect_process_events (net : option response) : option frame :=
  let res := execute_query net in
  match (if truthy res then py_contains "rows" res else Ok false) with
  | Ok true =>
      match frame_of_result res with
      | Some (Ok df) => Some df
      | Some (Raise _) => Some empty_frame
      | None => None
      end
  | Ok false => Some empty_frame
  | Raise _ => Some empty_frame
  end.
End Collect.

(** ** The fitness figures of [analyze_sankhya_processes]

    The aligned traces are what the alignment routine of the mining library
    returned: one Python value per trace, normally a dict with a "fitness"
    entry. *)

(** [trace["fitness"]] *)
Definition fitness_of (trace : json) : result json :=
  py_getitem trace "fitness".

(** [value == 1.0] *)
Definition equals_one (value : json) : bool :=
  match value with
  | JInt z => z =? 1
  | JNum q => Qeq_bool q 1
  | JBool b => b
  | _ => false
  end.

(** The number a value adds to a [sum]; anything but a number is a
    [TypeError]. *)
Definition as_number (value : json) : result Q :=
  match value with
  | JInt z => Ok (inject_Z z)
  | JNum q => Ok q
  | JBool b => Ok (if b then 1%Q else 0%Q)
  | _ => Raise TypeError
  end.

(** [sum(1 for trace in aligned_traces if trace["fitness"] == 1.0)] *)
Fixpoint count_perfect (aligned_traces : list json) (acc : Z) : result Z :=
  match aligned_traces with
  | [] => Ok acc
  | trace :: rest =>
      fitness <- fitness_of trace ;;
      count_perfect rest (if equals_one fitness then acc + 1 else acc)
  end.

Definition fitness_perfect (aligned_traces : list json) : result Z :=
  count_perfect aligned_traces 0.

Section Arithmetic.
(** Python's arithmetic on numbers is not part of the repository.  [py_sum]
    is the builtin [sum] on a list of numbers (ints, bools and floats) and
    [py_truediv] is [/] by a positive int: its result is a float, given here
    by its exact value, or an [OverflowError] for an int no float holds. *)
Variable py_sum : list json -> json.
Variable py_truediv : json -> Z -> result Q.

(** The values that [sum(trace["fitness"] for trace in aligned_traces)]
    adds: the generator is consumed by [sum], which reads a value and adds
    it before it reads the next; what is not a number cannot be added. *)
Definition fitness_values (aligned_traces : list json) : result (list json) :=
  mapM (fun trace => fitness <- fitness_of trace ;;
                     _ <- as_number fitness ;;
                     Ok fitness) aligned_traces.

(** [sum(...) / len(aligned_traces) if aligned_traces else 0] *)
Definition fitness_average (aligned_traces : list json) : result Q :=
  match aligned_traces with
  | [] => Ok 0%Q
  | _ => values <- fitness_values aligned_traces ;;
         py_truediv (py_sum values) (Z.of_nat (length aligned_traces))
  end.

(** The two entries of the response, in the order the dict literal evaluates
    them. *)
Definition fitness_figures (aligned_traces : list json) : result (Z * Q) :=
  perfect <- fitness_perfect aligned_traces ;;
  average <- fitness_average aligned_traces ;;
  Ok (perfect, average).
End Arithmetic.

(** ** An instance of the arithmetic

    IEEE 754 binary64 in the range of normal numbers, with CPython's [sum],
    which adds from left to right starting from the int 0 (releases before
    3.12), and a mean that adds in the same way. *)

(** The nearest integer to [n / d], ties to the even one. *)
Definition round_half_even (n d : Z) : Z :=
  let q := n / d in
  match (2 * (n mod d)) ?= d with
  | Lt => q
  | Gt => q + 1
  | Eq => if Z.even q then q else q + 1
  end.

(** [n / d] scaled by [2^-e], as a fraction. *)
Definition scaled (n d e : Z) : Z * Z :=
  if 0 <=? e then (n, d * 2 ^ e) else (n * 2 ^ (- e), d).

Definition in_binade (n d e : Z) : bool :=
  let (p, q) := scaled n d e in (2 ^ 52 * q <=? p) && (p <? 2 ^ 53 * q).

(** The float64 nearest to a rational, ties to even. *)
Definition round64 (x : Q) : Q :=
  let n := Z.abs (Qnum x) in
  let d := Z.pos (Qden x) in
  if n =? 0 then 0%Q
  else
    let e0 := Z.log2 n - Z.log2 d - 52 in
    let e := if in_binade n d e0 then e0
             else if in_binade n d (e0 - 1) then e0 - 1 else e0 + 1 in
    let (p, q) := scaled n d e in
    let m := Z.sgn (Qnum x) * round_half_even p q in
    if 0 <=? e then inject_Z (m * 2 ^ e) else Qred (Qmake m (Z.to_pos (2 ^ (- e)))).

Definition number_value (value : json) : Q :=
  match as_number value with
  | Ok number => number
  | Raise _ => 0%Q
  end.

Definition is_float (value : json) : bool :=
  match value with
  | JNum _ => true
  | _ => false
  end.

(** [a + b]: exact on ints, rounded as soon as a float takes part. *)
Definition ieee_add (a b : json) : json :=
  if is_float a || is_float b
  then JNum (round64 (round64 (number_value a) + round64 (number_value b)))
  else JInt (Qnum (number_value a) + Qnum (number_value b)).

Definition ieee_sum (values : list json) : json :=
  fold_left ieee_add values (JInt 0).

(** [x / n]: the quotient of two ints is rounded once. *)
Definition ieee_truediv (x : json) (n : Z) : result Q :=
  if is_float x then Ok (round64 (number_value x / round64 (inject_Z n)))
  else Ok (round64 (number_value x / inject_Z n)).

Definition cell_value (c : cell) : Q :=
  match c with
  | CInt z => inject_Z z
  | CNum q => q
  | _ => 0%Q
  end.

Definition ieee_mean (xs : list cell) : Q :=
  round64 (fold_left (fun acc c => round64 (acc + round64 (cell_value c))) xs 0%Q
           / round64 (inject_Z (Z.of_nat (length xs)))).

(** ** [generate_sankhya_suggestions] *)

(** A suggestion is one formatted string; it is identified here by the
    f-string that builds it and the values it interpolates. *)
Inductive suggestion :=
| NoDataMessage
| MostFrequentActivity (activity : cell) (occurrences : nat)
| DelaySuggestion (avg_duration : Q)
| LowConformance (avg_fitness : Q)
| HighConformance (avg_fitness : Q)
| CategoryFocus (category : cell) (count total : nat)
| BusiestResource (resource : cell) (activities : nat)
| PeakHour (hour : cell)
| DefaultMonitoring
| DefaultDashboards
| DefaultTargets
| ErrorMessage (e : exn).

Definition default_suggestions : list suggestion :=
  [DefaultMonitoring; DefaultDashboards; DefaultTargets].

(** How many cells of [col] equal [value]. *)
Definition occurrences_of (value : cell) (col : list cell) : nat :=
  List.length (filter (cell_eqb value) col).

(** The distinct values present in a column, in order of first appearance;
    missing values are left out. *)
Fixpoint distinct (col : list cell) : list cell :=
  match col with
  | [] => []
  | c :: rest =>
      if is_null c then distinct rest
      else c :: filter (fun d => negb (cell_eqb c d)) (distinct rest)
  end.

(** [series.value_counts()]: most frequent first; values with equal counts
    are kept in order of first appearance. *)
Definition value_counts (col : list cell) : list (cell * nat) :=
  sort (fun a b => Nat.leb (snd b) (snd a))
       (map (fun value => (value, occurrences_of value col)) (distinct col)).

(** [.sort_index()] *)
Definition sort_index (counts : list (cell * nat)) : list (cell * nat) :=
  sort (fun a b => cell_leb (fst a) (fst b)) counts.

(** [.idxmax()]: the first label with the largest count; an empty Series is a
    [ValueError]. *)
Fixpoint first_max (counts : list (cell * nat)) : option (cell * nat) :=
  match counts with
  | [] => None
  | x :: rest =>
      match first_max rest with
      | Some y => if Nat.ltb (snd x) (snd y) then Some y else Some x
      | None => Some x
      end
  end.

Definition idxmax (counts : list (cell * nat)) : result cell :=
  match first_max counts with
  | Some (label, _) => Ok label
  | None => Raise ValueError
  end.

(** [if value:] on a value taken from the index of [value_counts]. *)
Definition cell_truthy (c : cell) : bool :=
  match c with
  | CStr s => negb (String.eqb s "")
  | CInt z => negb (z =? 0)
  | CNum q => negb (Qeq_bool q 0)
  | CTime _ => true
  | CNull | CNaT => false
  end.

(** The number a cell contributes to [mean]: missing values are skipped, a
    string or a timestamp has no mean that compares with a number. *)
Definition numeric (c : cell) : result (option cell) :=
  match c with
  | CNull => Ok None
  | CInt _ | CNum _ => Ok (Some c)
  | CStr _ | CTime _ | CNaT => Raise TypeError
  end.

Fixpoint present {A : Type} (l : list (option A)) : list A :=
  match l with
  | [] => []
  | Some x :: rest => x :: present rest
  | None :: rest => present rest
  end.

(** The hour of one timestamp. *)
Definition hour_of (c : cell) : cell :=
  match c with
  | CTime ns => CInt ((ns / 3600000000000) mod 24)
  | _ => CNull
  end.

(** [.dt.hour] on a datetime64 column: an integer column, or, when a
    timestamp is missing, a float64 column with NaN in its place. *)
Definition dt_hour (times : list cell) : list cell :=
  if existsb is_null times
  then map (fun c => match hour_of c with
                     | CInt h => CNum (inject_Z h)
                     | other => other
                     end) times
  else map hour_of times.

(** The float64 constants [0.8] and [0.95], by their exact values. *)
Definition float_0_8 : Q := 3602879701896397 # 4503599627370496.
Definition float_0_95 : Q := 4278419646001971 # 4503599627370496.

(** Every cell of a row that stands under [label]. *)
Fixpoint cells_under (label : string) (labels : list string) (row : list cell)
  : list cell :=
  match labels, row with
  | l :: ls, c :: cs =>
      if String.eqb l label then c :: cells_under label ls cs
      else cells_under label ls cs
  | _, _ => []
  end.

Section Suggestions.
Variable parse_date : list cell -> cell -> result (option Z).
Variable py_sum : list json -> json.
Variable py_truediv : json -> Z -> result Q.

(** The float that [series.mean()] gives for the numbers of a column that
    are present; how pandas and numpy add them is theirs. *)
Variable series_mean : list cell -> Q.

(** [series.mean()]; [None] is NaN, the mean of no value. *)
Definition mean (col : list cell) : result (option Q) :=
  values <- mapM numeric col ;;
  match present values with
  | [] => Ok None
  | xs => Ok (Some (series_mean xs))
  end.

Definition activity_suggestion (df : frame) : result (list suggestion) :=
  if has_column "concept:name" df then
    col <- column "concept:name" df ;;
    match value_counts col with
    | (most_frequent, n) :: _ =>
        if cell_truthy most_frequent
        then Ok [MostFrequentActivity most_frequent n]
        else Ok []
    | [] => Ok []
    end
  else Ok [].

(** Under a label that occurs once [df[label]] is a Series.  Under a
    repeated label it is a frame: its mean is a Series (a [TypeError] when a
    column does not hold numbers), the comparison with 3600 is a Series too,
    and a Series of several values has no truth value. *)
Definition duration_suggestion (df : frame) : result (list suggestion) :=
  if has_column "duration_seconds" df then
    match count_label "duration_seconds" (columns df) with
    | S O =>
        col <- column "duration_seconds" df ;;
        avg_duration <- mean col ;;
        match avg_duration with
        | Some avg => if Qlt_le_dec 3600 avg then Ok [DelaySuggestion avg] else Ok []
        | None => Ok []
        end
    | _ =>
        _ <- mapM numeric
               (List.concat (map (cells_under "duration_seconds" (columns df)) (rows df))) ;;
        Raise ValueError
    end
  else Ok [].

(** The list comprehension reads every fitness before [sum] adds any. *)
Definition conformance_suggestion (aligned_traces : list json) : result (list suggestion) :=
  match aligned_traces with
  | [] => Ok []
  | _ =>
      fitness_scores <- mapM fitness_of aligned_traces ;;
      _ <- mapM as_number fitness_scores ;;
      avg_fitness <- py_truediv (py_sum fitness_scores)
                       (Z.of_nat (length fitness_scores)) ;;
      if Qlt_le_dec avg_fitness float_0_8 then Ok [LowConformance avg_fitness]
      else if Qlt_le_dec float_0_95 avg_fitness then Ok [HighConformance avg_fitness]
      else Ok []
  end.

(** [count > len(df) * 0.5] *)
Definition over_half (count total : nat) : bool :=
  Nat.ltb total (2 * count).

Definition category_suggestions (df : frame) : result (list suggestion) :=
  if has_column "process_category" df then
    col <- column "process_category" df ;;
    Ok (map (fun entry => CategoryFocus (fst entry) (snd entry) (length (rows df)))
            (filter (fun entry => over_half (snd entry) (length (rows df)))
                    (value_counts col)))
  else Ok [].

Definition resource_suggestion (df : frame) : result (list suggestion) :=
  if has_column "org:resource" df then
    col <- column "org:resource" df ;;
    match value_counts col with
    | (busiest_resource, n) :: _ => Ok [BusiestResource busiest_resource n]
    | [] => Ok []
    end
  else Ok [].

Definition peak_hour_suggestion (df : frame) : result (list suggestion) :=
  if has_column "time:timestamp" df then
    times <- to_datetime parse_date "time:timestamp" df ;;
    peak_hour <- idxmax (sort_index (value_counts (dt_hour times))) ;;
    Ok [PeakHour peak_hour]
  else Ok [].

(** The statements of the [try] after the guard on the empty frame: the
    list built by the successive [append]s. *)
Definition heuristics (df : frame) (aligned_traces : list json) : result (list suggestion) :=
  s1 <- activity_suggestion df ;;
  s2 <- duration_suggestion df ;;
  s3 <- conformance_suggestion aligned_traces ;;
  s4 <- category_suggestions df ;;
  s5 <- resource_suggestion df ;;
  s6 <- peak_hour_suggestion df ;;
  Ok (s1 ++ s2 ++ s3 ++ s4 ++ s5 ++ s6).

Definition generate_sankhya_suggestions (df : frame) (aligned_traces : list json)
  : list suggestion :=
  if df_empty df then [NoDataMessage]
  else match heuristics df aligned_traces with
       | Ok [] => default_suggestions
       | Ok suggestions => suggestions
       | Raise e => [ErrorMessage e]
       end.
End Suggestions.

(** ** The Flask application: its URL map *)

















(** ** [sankhya_config], the GET branch

    [SANKHYA_CONFIG] always has its five keys.  Its values start as strings
    of the environment; the POST branch stores whatever JSON value the
    request carries. *)

Record config := {
  cfg_base_url : json;
  cfg_app_key : json;
  cfg_sankhya_id : json;
  cfg_password : json;
  cfg_token : json
}.

Definition sankhya_config_get (cfg : config) : json :=
  JObj [ ("base_url", cfg_base_url cfg);
         ("has_app_key", JBool (truthy (cfg_app_key cfg)));
         ("has_sankhya_id", JBool (truthy (cfg_sankhya_id cfg)));
         ("has_password", JBool (truthy (cfg_password cfg)));
         ("has_token", JBool (truthy (cfg_token cfg))) ].

(** ** [SankhyaAPIDataCollector.__init__] and the URLs of the two services *)

(** [s.rstrip(c)] for a single character [c]. *)
Fixpoint rstrip (c : ascii) (s : string) : string :=
  match s with
  | EmptyString => EmptyString
  | String a rest =>
      match rstrip c rest with
      | EmptyString => if Ascii.eqb a c then EmptyString else String a EmptyString
      | kept => String a kept
      end
  end.

Definition new_collector (url key user secret : string) (access_token : option string)
  : collector :=
  {| base_url := rstrip "/" url;
     app_key := key;
     sankhya_id := user;
     password := secret;
     token := access_token;
     session_id := JNull |}.

(** [auth_url] of [authenticate] and [query_url] of [execute_query]. *)
Definition auth_url (self : collector) : string :=
  (base_url self ++ "/mge/service.sbr?serviceName=MobileLoginSP.login")%string.

Definition query_url (self : collector) : string :=
  (base_url self ++ "/mge/service.sbr?serviceName=DbExplorerSP.executeQuery")%string.

(** ** [sankhya_config], the POST branch

    The view has no [try]: an exception leaves it in the middle of the loop,
    and [SANKHYA_CONFIG] is a global, so what was assigned before stays
    assigned.  The update returns the configuration after it together with
    the exception, if any, that ended it. *)

Inductive config_key := KBaseUrl | KAppKey | KSankhyaId | KPassword | KToken.

Definition key_name (k : config_key) : string :=
  match k with
  | KBaseUrl => "base_url"
  | KAppKey => "app_key"
  | KSankhyaId => "sankhya_id"
  | KPassword => "password"
  | KToken => "token"
  end.

(** [SANKHYA_CONFIG[key]] *)
Definition config_get (k : config_key) (cfg : config) : json :=
  match k with
  | KBaseUrl => cfg_base_url cfg
  | KAppKey => cfg_app_key cfg
  | KSankhyaId => cfg_sankhya_id cfg
  | KPassword => cfg_password cfg
  | KToken => cfg_token cfg
  end.

(** [SANKHYA_CONFIG[key] = value] *)
Definition config_set (k : config_key) (v : json) (cfg : config) : config :=
  {| cfg_base_url := match k with KBaseUrl => v | _ => cfg_base_url cfg end;
     cfg_app_key := match k with KAppKey => v | _ => cfg_app_key cfg end;
     cfg_sankhya_id := match k with KSankhyaId => v | _ => cfg_sankhya_id cfg end;
     cfg_password := match k with KPassword => v | _ => cfg_password cfg end;
     cfg_token := match k with KToken => v | _ => cfg_token cfg end |}.

(** The keys, in the order of the loop. *)
Definition config_keys : list config_key :=
  [KBaseUrl; KAppKey; KSankhyaId; KPassword; KToken].

(** [for key in keys: if key in config_data: SANKHYA_CONFIG[key] = config_data[key]] *)
Fixpoint update_config (keys : list config_key) (config_data : json) (cfg : config)
  : config * option exn :=
  match keys with
  | [] => (cfg, None)
  | k :: rest =>
      match py_contains (key_name k) config_data with
      | Raise e => (cfg, Some e)
      | Ok false => update_config rest config_data cfg
      | Ok true =>
          match py_getitem config_data (key_name k) with
          | Raise e => (cfg, Some e)
          | Ok v => update_config rest config_data (config_set k v cfg)
          end
      end
  end.

(** The POST branch on the decoded body of the request. *)
Definition sankhya_config_post (cfg : config) (config_data : json) : config * option exn :=
  if truthy config_data then update_config config_keys config_data cfg
  else (cfg, None).

(** ** [ProcessAnalyzer.load_and_convert_log], on the header of the file

    [save_to_csv] writes the frame with [index=False], so the header of the
    file is the list of its labels.  [read_csv] is called with
    [parse_dates=["timestamp"]]: pandas (1.1 and later) raises [ValueError]
    when the header has no such column; the [dtype] entries of absent
    columns are ignored.  The labels are then renamed, and the frame is
    handed to the mining library's [convert_to_event_log], which is not
    modelled: [Ok labels] gives the labels of the frame it receives. *)

Definition csv_header (df : frame) : list string := columns df.

Definition analyzer_names : list (string * string) :=
  [ ("case_id", "case:concept:name");
    ("activity", "concept:name");
    ("timestamp", "time:timestamp") ].

Definition load_and_convert_header (header : list string) : result (list string) :=
  if existsb (String.eqb "timestamp") header
  then Ok (map (rename_label analyzer_names) header)
  else Raise ValueError.

(** * Properties *)

(** ** Authentication *)

Lemma bind_ok {A B : Type} (m : result A) (k : A -> result B) (b : B) :
  bind m k = Ok b -> exists a, m = Ok a /\ k a = Ok b.
Proof.
  destruct m as [a | e]; simpl; intros H; [eauto | discriminate].
Qed.

Lemma is_status_ok_true (value : json) :
  is_status_ok value = true <-> value = JStr "1".
Proof.
  destruct value; simpl; split; intros H; try discriminate; try congruence.
  - apply String.eqb_eq in H. congruence.
  - injection H as ->. reflexivity.
Qed.

Lemma py_get_ok (obj : json) (key : string) (default v : json) :
  py_get obj key default = Ok v ->
  exists entries, obj = JObj entries /\
    v = match dict_get key entries with Some x => x | None => default end.
Proof.
  destruct obj; simpl; try discriminate.
  intros H. exists entries. split; [reflexivity |].
  destruct (dict_get key entries); congruence.
Qed.

(** The reply that logs the collector in, and the session id it carries: status
    code 200, a JSON object whose "status" is the string "1" and whose
    "responseBody" is absent or an object. *)
Definition login_accepted (net : option response) (sid : json) : Prop :=
  exists resp entries,
    net = Some resp /\ status_code resp = 200 /\
    json_body resp = Some (JObj entries) /\
    dict_get "status" entries = Some (JStr "1") /\
    (dict_get "responseBody" entries = None /\ sid = JNull \/
     exists body,
       dict_get "responseBody" entries = Some (JObj body) /\
       sid = match dict_get "jsessionid" body with Some v => v | None => JNull end).

(** The condition as the specification words it: status code 200 and a JSON
    body whose "status" field is the string "1". *)
Definition login_status_ok (net : option response) : Prop :=
  exists resp entries,
    net = Some resp /\ status_code resp = 200 /\
    json_body resp = Some (JObj entries) /\
    dict_get "status" entries = Some (JStr "1").

Lemma authenticate_accepted (self : collector) (net : option response) (sid : json) :
  login_accepted net sid -> authenticate self net = (true, with_session self sid).
Proof.
  intros (resp & entries & -> & Hcode & Hbody & Hstatus & Hsid).
  unfold authenticate, authenticate_try, requests_post, response_json; simpl.
  rewrite Hcode, Hbody; simpl. rewrite Hstatus; simpl.
  destruct Hsid as [[Hnone ->] | (body & Hsome & ->)].
  - rewrite Hnone; reflexivity.
  - rewrite Hsome; simpl. destruct (dict_get "jsessionid" body); reflexivity.
Qed.

Lemma authenticate_true_inv (self : collector) (net : option response) :
  fst (authenticate self net) = true -> exists sid, login_accepted net sid.
Proof.
  unfold authenticate.
  destruct (authenticate_try self net) as [[b c] | e] eqn:Htry; simpl;
    [intros -> | discriminate].
  unfold authenticate_try in Htry.
  apply bind_ok in Htry as (resp & Hpost & Htry).
  destruct net as [r |]; simpl in Hpost; [injection Hpost as -> | discriminate].
  destruct (status_code resp =? 200) eqn:Hcode; [| discriminate].
  apply Z.eqb_eq in Hcode.
  apply bind_ok in Htry as (res & Hjson & Htry).
  apply bind_ok in Htry as (status & Hstatus & Htry).
  destruct (is_status_ok status) eqn:Hok; [| discriminate].
  apply is_status_ok_true in Hok; subst status.
  apply bind_ok in Htry as (body & Hbody & Htry).
  apply bind_ok in Htry as (sid & Hsid & _).
  unfold response_json in Hjson.
  destruct (json_body resp) as [j |] eqn:Hj; [injection Hjson as -> | discriminate].
  apply py_get_ok in Hstatus as (entries & -> & Hstatus).
  apply py_get_ok in Hbody as (entries' & Heq & Hbody). injection Heq as <-.
  apply py_get_ok in Hsid as (inner & -> & Hsid).
  exists sid, resp, entries. repeat split; try assumption.
  - destruct (dict_get "status" entries); congruence.
  - destruct (dict_get "responseBody" entries) as [b |] eqn:Hb.
    + right. exists inner. subst b. split; [reflexivity | assumption].
    + left. injection Hbody as ->. simpl in Hsid. split; [reflexivity | assumption].
Qed.

Lemma authenticate_false (self : collector) (net : option response) :
  fst (authenticate self net) = false -> authenticate self net = (false, self).
Proof.
  unfold authenticate, authenticate_try.
  destruct net as [resp |]; simpl; [| reflexivity].
  destruct (status_code resp =? 200); simpl; [| reflexivity].
  destruct (response_json resp) as [res | e]; simpl; [| reflexivity].
  destruct (py_get res "status" JNull) as [status | e]; simpl; [| reflexivity].
  destruct (is_status_ok status); simpl; [| reflexivity].
  destruct (py_get res "responseBody" (JObj [])) as [body | e]; simpl; [| reflexivity].
  destruct (py_get body "jsessionid" JNull) as [sid | e]; simpl;
    [discriminate | reflexivity].
Qed.

(** C4 (as amended): [authenticate] returns True exactly on an accepted login
    reply (status code 200, a JSON object with "status" equal to "1", and a
    "responseBody" that is absent or an object), and it then stores the
    "jsessionid" of the response body as the session id ([None] when there is
    none); on every other outcome of the request, exceptions included, it
    returns False and leaves the collector as it was. *)
Theorem authenticate_spec (self : collector) (net : option response) :
  (fst (authenticate self net) = true <-> exists sid, login_accepted net sid) /\
  (forall sid, login_accepted net sid ->
     authenticate self net = (true, with_session self sid)) /\
  ((forall sid, ~ login_accepted net sid) -> authenticate self net = (false, self)).
Proof.
  split; [split |]; [apply authenticate_true_inv | | split].
  - intros (sid & H). rewrite (authenticate_accepted self net sid H). reflexivity.
  - apply authenticate_accepted.
  - intros Hno. apply authenticate_false.
    destruct (fst (authenticate self net)) eqn:Hfst; [| reflexivity].
    apply authenticate_true_inv in Hfst as (sid & H). destruct (Hno sid H).
Qed.

Definition sample_collector : collector :=
  {| base_url := "https://api.sankhya.com.br"; app_key := "key";
     sankhya_id := "user@example.com"; password := "secret";
     token := None; session_id := JNull |}.

(** A reply with status code 200 and "status" equal to "1" whose
    "responseBody" is null: [None.get] raises inside the [try]. *)
Definition null_body_reply : option response :=
  Some {| status_code := 200;
          json_body := Some (JObj [("status", JStr "1"); ("responseBody", JNull)]) |}.

(** C4 as stated fails: this reply has status code 200 and "status" equal to
    "1", and [authenticate] returns False. *)
Lemma authenticate_null_body_rejected :
  login_status_ok null_body_reply /\
  authenticate sample_collector null_body_reply = (false, sample_collector).
Proof.
  split; [| reflexivity].
  eexists _, _. repeat split; reflexivity.
Qed.

(** ** The configuration endpoint *)

(** C9: the reply to GET /api/sankhya-config is the same for two
    configurations that agree on the base URL and whose four credentials are
    all set; it carries the base URL and, for every credential, only the
    boolean that tells whether it is set. *)
Theorem sankhya_config_hides_credentials (c1 c2 : config) :
  cfg_base_url c1 = cfg_base_url c2 ->
  truthy (cfg_app_key c1) = true -> truthy (cfg_app_key c2) = true ->
  truthy (cfg_sankhya_id c1) = true -> truthy (cfg_sankhya_id c2) = true ->
  truthy (cfg_password c1) = true -> truthy (cfg_password c2) = true ->
  truthy (cfg_token c1) = true -> truthy (cfg_token c2) = true ->
  sankhya_config_get c1 = sankhya_config_get c2 /\
  sankhya_config_get c1 =
    JObj [ ("base_url", cfg_base_url c1); ("has_app_key", JBool true);
           ("has_sankhya_id", JBool true); ("has_password", JBool true);
           ("has_token", JBool true) ].
Proof.
  intros Hurl H1 H2 H3 H4 H5 H6 H7 H8. unfold sankhya_config_get.
  rewrite H1, H2, H3, H4, H5, H6, H7, H8, Hurl. split; reflexivity.
Qed.

Definition config_a : config :=
  {| cfg_base_url := JStr "https://api.sankhya.com.br"; cfg_app_key := JStr "key-a";
     cfg_sankhya_id := JStr "a@example.com"; cfg_password := JStr "pa";
     cfg_token := JStr "ta" |}.

Definition config_b : config :=
  {| cfg_base_url := JStr "https://api.sankhya.com.br"; cfg_app_key := JStr "key-b";
     cfg_sankhya_id := JStr "b@example.com"; cfg_password := JStr "pb";
     cfg_token := JStr "tb" |}.

Lemma sankhya_config_hides_credentials_witness :
  sankhya_config_get config_a = sankhya_config_get config_b /\
  sankhya_config_get config_a =
    JObj [ ("base_url", cfg_base_url config_a); ("has_app_key", JBool true);
           ("has_sankhya_id", JBool true); ("has_password", JBool true);
           ("has_token", JBool true) ].
Proof.
  apply (sankhya_config_hides_credentials config_a config_b); reflexivity.
Defined.

(** ** The routes *)









(** ** The fitness figures *)

Lemma mapM_ok_Forall2 {A B : Type} (f : A -> result B) (l : list A) (l' : list B) :
  mapM f l = Ok l' <-> Forall2 (fun x y => f x = Ok y) l l'.
Proof.
  revert l'. induction l as [| x l IH]; intros l'; simpl.
  - split; [intros [= <-]; constructor | intros H; inversion H; reflexivity].
  - split.
    + intros H. apply bind_ok in H as (y & Hy & H).
      apply bind_ok in H as (ys & Hys & [= <-]).
      constructor; [assumption | apply IH; assumption].
    + intros H. inversion H as [| ? y ? ys Hy Hys]; subst.
      rewrite Hy. simpl. apply IH in Hys. rewrite Hys. reflexivity.
Qed.

(** The fitness of a trace: the trace is a dict whose "fitness" entry is a
    number. *)
Definition has_fitness (trace : json) (value : json) : Prop :=
  exists entries number,
    trace = JObj entries /\ dict_get "fitness" entries = Some value /\
    as_number value = Ok number.

(** A fitness that equals 1. *)
Definition perfect_value (value : json) : bool :=
  match as_number value with
  | Ok number => Qeq_bool number 1
  | Raise _ => false
  end.

Lemma fitness_value_ok (trace value : json) :
  (fitness <- fitness_of trace ;; _ <- as_number fitness ;; Ok fitness) = Ok value <->
  has_fitness trace value.
Proof.
  unfold has_fitness, fitness_of, py_getitem. split.
  - intros H. apply bind_ok in H as (v & Hv & H).
    apply bind_ok in H as (number & Hnum & [= <-]).
    destruct trace; try discriminate.
    destruct (dict_get "fitness" entries) as [w |] eqn:Hw; [| discriminate].
    injection Hv as ->. eauto.
  - intros (entries & number & -> & Hget & Hnum). rewrite Hget. simpl.
    rewrite Hnum. reflexivity.
Qed.

Lemma fitness_values_ok (aligned_traces values : list json) :
  fitness_values aligned_traces = Ok values <-> Forall2 has_fitness aligned_traces values.
Proof.
  unfold fitness_values. rewrite mapM_ok_Forall2. split; intros H;
    (eapply Forall2_impl; [| exact H]); intros t v; apply fitness_value_ok.
Qed.

Lemma equals_one_number (value : json) (number : Q) :
  as_number value = Ok number -> equals_one value = perfect_value value.
Proof.
  unfold perfect_value. destruct value; simpl; intros H; try discriminate.
  - destruct b; reflexivity.
  - unfold Qeq_bool, inject_Z; simpl. rewrite Z.mul_1_r. reflexivity.
  - reflexivity.
Qed.

Lemma count_perfect_values (traces values : list json) (acc : Z) :
  Forall2 has_fitness traces values ->
  count_perfect traces acc = Ok (acc + Z.of_nat (length (filter perfect_value values))).
Proof.
  intros H. revert acc. induction H as [| t v ts vs Ht _ IH]; intros acc; simpl.
  - f_equal. lia.
  - destruct Ht as (entries & number & -> & Hget & Hnum).
    unfold fitness_of, py_getitem. rewrite Hget. simpl.
    rewrite (equals_one_number v number Hnum), IH.
    destruct (perfect_value v); simpl length; f_equal; lia.
Qed.

Lemma has_fitness_unique (traces v1 v2 : list json) :
  Forall2 has_fitness traces v1 -> Forall2 has_fitness traces v2 -> v1 = v2.
Proof.
  intros H1. revert v2. induction H1 as [| t s ts ss Ht _ IH]; intros v2 H2;
    inversion H2 as [| ? s' ? ss' Ht' Hts']; subst; [reflexivity |].
  f_equal; [| apply IH; assumption].
  destruct Ht as (e1 & n1 & He1 & Hg1 & Hn1), Ht' as (e2 & n2 & He2 & Hg2 & Hn2).
  congruence.
Qed.

Section FitnessFigures.
Variable py_sum : list json -> json.
Variable py_truediv : json -> Z -> result Q.

Lemma fitness_figures_inv (aligned_traces : list json) (perfect : Z) (average : Q) :
  fitness_figures py_sum py_truediv aligned_traces = Ok (perfect, average) <->
  exists values,
    Forall2 has_fitness aligned_traces values /\
    perfect = Z.of_nat (length (filter perfect_value values)) /\
    match aligned_traces with
    | [] => average = 0%Q
    | _ => py_truediv (py_sum values) (Z.of_nat (length aligned_traces)) = Ok average
    end.
Proof.
  unfold fitness_figures, fitness_perfect. split.
  - intros H. apply bind_ok in H as (p & Hp & H).
    apply bind_ok in H as (a & Ha & [= <- <-]).
    destruct aligned_traces as [| t ts].
    + exists []. simpl in *. injection Hp as <-. injection Ha as <-.
      repeat split. constructor.
    + cbn [fitness_average] in Ha. apply bind_ok in Ha as (values & Hvalues & Ha).
      apply fitness_values_ok in Hvalues. exists values.
      rewrite (count_perfect_values _ _ 0 Hvalues) in Hp. injection Hp as <-.
      repeat split; assumption.
  - intros (values & Hvalues & -> & Ha).
    rewrite (count_perfect_values _ _ 0 Hvalues). cbn [bind].
    destruct aligned_traces as [| t ts].
    + subst average. inversion Hvalues. reflexivity.
    + cbn [fitness_average]. rewrite (proj2 (fitness_values_ok _ _) Hvalues).
      cbn [bind]. rewrite Ha. reflexivity.
Qed.

(** C8 (as amended): the analysis yields its two fitness figures exactly
    when every aligned trace carries a numeric fitness (none to carry when
    the list is empty) and the division raises nothing; [fitness_perfect] is
    then the number of traces whose fitness equals 1 and [fitness_average]
    is the float that Python's [/] gives for Python's [sum] of the fitness
    values and their number, or 0, without any sum or division, when there
    is no trace. *)
Theorem fitness_figures_spec (aligned_traces : list json) (perfect : Z) (average : Q) :
  (fitness_figures py_sum py_truediv aligned_traces = Ok (perfect, average) <->
     exists values,
       Forall2 has_fitness aligned_traces values /\
       perfect = Z.of_nat (length (filter perfect_value values)) /\
       match aligned_traces with
       | [] => average = 0%Q
       | _ => py_truediv (py_sum values) (Z.of_nat (length aligned_traces)) = Ok average
       end) /\
  fitness_figures py_sum py_truediv [] = Ok (0, 0%Q).
Proof.
  split; [apply fitness_figures_inv | reflexivity].
Qed.
End FitnessFigures.

(** The theorem at two traces of fitness 1.0 and 0.5: one perfect trace, and
    the average 0.75, which these floats give exactly. *)
Lemma fitness_figures_spec_witness :
  let traces := [JObj [("fitness", JNum 1)]; JObj [("fitness", JNum (1 # 2))]] in
  Forall2 has_fitness traces [JNum 1; JNum (1 # 2)] /\
  fitness_figures ieee_sum ieee_truediv traces = Ok (1, 3 # 4).
Proof.
  intros traces.
  assert (Hfit : Forall2 has_fitness traces [JNum 1; JNum (1 # 2)]).
  { repeat constructor; eexists _, _; repeat split; reflexivity. }
  split; [exact Hfit |].
  apply (proj1 (fitness_figures_spec ieee_sum ieee_truediv traces 1 (3 # 4))).
  exists [JNum 1; JNum (1 # 2)]. split; [exact Hfit |].
  split; [reflexivity | vm_compute; reflexivity].
Defined.

(** The arithmetic mean of a list of numbers. *)
Definition arithmetic_mean (numbers : list Q) : Q :=
  (fold_right Qplus 0 numbers / inject_Z (Z.of_nat (length numbers)))%Q.

(** The floats 0.1, 0.2 and 0.3, and 0.20000000000000004. *)
Definition float_0_1 : Q := 3602879701896397 # 36028797018963968.
Definition float_0_2 : Q := 3602879701896397 # 18014398509481984.
Definition float_0_3 : Q := 5404319552844595 # 18014398509481984.
Definition float_above_0_2 : Q := 7205759403792795 # 36028797018963968.

(** C8 as stated fails: for three traces of fitness 0.1, 0.2 and 0.3 the
    average computed is the float 0.20000000000000004, which is not the
    arithmetic mean of the three fitness values: the float 0.2 lies between
    the two. *)
Lemma fitness_average_is_rounded :
  let traces := [ JObj [("fitness", JNum float_0_1)];
                  JObj [("fitness", JNum float_0_2)];
                  JObj [("fitness", JNum float_0_3)] ] in
  fitness_figures ieee_sum ieee_truediv traces = Ok (0, float_above_0_2) /\
  ~ (float_above_0_2 == arithmetic_mean [float_0_1; float_0_2; float_0_3])%Q /\
  (arithmetic_mean [float_0_1; float_0_2; float_0_3] < float_0_2)%Q /\
  (float_0_2 < float_above_0_2)%Q.
Proof.
  split; [vm_compute; reflexivity |].
  split; [intros H; vm_compute in H; discriminate |].
  split; vm_compute; reflexivity.
Qed.

(** ** Labels and cells *)

Lemma has_column_In (label : string) (df : frame) :
  has_column label df = true <-> In label (columns df).
Proof.
  unfold has_column. rewrite existsb_exists. split.
  - intros (x & Hin & Heq). apply String.eqb_eq in Heq. congruence.
  - intros Hin. exists label. split; [assumption | apply String.eqb_refl].
Qed.

Lemma has_column_false (label : string) (df : frame) :
  has_column label df = false <-> ~ In label (columns df).
Proof.
  rewrite <- has_column_In. destruct (has_column label df); split; congruence.
Qed.

Lemma count_label_In (label : string) (labels : list string) :
  (0 < count_label label labels)%nat <-> In label labels.
Proof. unfold count_label. symmetry. apply count_occ_In. Qed.

Lemma map_labelled_absent (f : cell -> cell) (label : string) (labels : list string)
    (row : list cell) :
  ~ In label labels -> map_labelled f label labels row = row.
Proof.
  revert row. induction labels as [| l ls IH]; intros row Hnot; [destruct row; reflexivity |].
  destruct row as [| c cs]; [reflexivity |]. simpl.
  destruct (String.eqb_spec l label) as [-> | Hne].
  - exfalso. apply Hnot. left. reflexivity.
  - rewrite IH; [reflexivity |]. intros Hin. apply Hnot. right. assumption.
Qed.

Lemma map_labelled_length (f : cell -> cell) (label : string) (labels : list string)
    (row : list cell) :
  length (map_labelled f label labels row) = length row.
Proof.
  revert row. induction labels as [| l ls IH]; intros [| c cs]; simpl; try reflexivity.
  rewrite IH. reflexivity.
Qed.

Lemma zip_with_length {A B C : Type} (f : A -> B -> C) (xs : list A) (ys : list B) :
  length xs = length ys -> length (zip_with f xs ys) = length xs.
Proof.
  revert ys. induction xs as [| x xs IH]; intros [| y ys] H; simpl in *;
    try discriminate; [reflexivity |]. rewrite IH; [reflexivity | lia].
Qed.

(** ** Collecting the events *)

(** The result of the query is a table: a dict with a "rows" entry the frame
    model covers and a list of fields that all carry a string "name". *)
Definition query_table (res : json) (labels : list string) (table : list (list cell))
  : Prop :=
  exists entries data fields,
    res = JObj entries /\
    dict_get "rows" entries = Some data /\ table_of_json data = Some table /\
    match dict_get "fields" entries with Some v => v | None => JArr [] end = JArr fields /\
    Forall2 (fun field label =>
               exists e, field = JObj e /\ dict_get "name" e = Some (JStr label))
            fields labels.

(** A parser that knows three texts. *)
Definition sample_parser (c : cell) : option (option Z) :=
  match c with
  | CStr "2024-01-01 00:00:00" => Some (Some 1704067200000000000)
  | CStr "2024-01-01 03:00:00" => Some (Some 1704078000000000000)
  | CStr "" => Some None
  | _ => None
  end.

Definition sample_dates (col : list cell) (c : cell) : result (option Z) :=
  match sample_parser c with
  | Some t => Ok t
  | None => Raise ValueError
  end.

Definition reply_with (fields rows : list json) : option response :=
  Some {| status_code := 200;
          json_body := Some (JObj [ ("status", JStr "1");
                                    ("responseBody",
                                     JObj [ ("fields", JArr fields);
                                            ("rows", JArr rows) ]) ]) |}.

Definition field (name : string) : json := JObj [("name", JStr name)].

Definition sample_reply : option response :=
  reply_with
    [field "case_id"; field "activity"; field "timestamp"]
    [ JArr [JInt 7; JStr "Pedido"; JStr "2024-01-01 00:00:00"];
      JArr [JInt 7; JStr "Faturamento"; JStr "2024-01-01 03:00:00"] ].

(** The reply of a database that reports its column names in upper case. *)
Definition upper_case_reply : option response :=
  reply_with
    [field "CASE_ID"; field "ACTIVITY"; field "TIMESTAMP"]
    [ JArr [JInt 7; JStr "Pedido"; JStr "2024-01-01 00:00:00"] ].

(** C5: where the claim and the code part.  The query succeeds and its
    result is a table with a "rows" key, three field names and one row.  The
    statements that build the frame yield the frame the claim describes: the
    field names as its columns, in order, holding the row of the result
    (there is no column named "timestamp" to parse).  The log line then
    reads the column "case_id", which this frame does not have; the
    [KeyError] is caught and the frame returned is the empty one. *)
Lemma collect_upper_case_is_empty :
  query_table (execute_query upper_case_reply)
    ["CASE_ID"; "ACTIVITY"; "TIMESTAMP"]
    [ [CInt 7; CStr "Pedido"; CStr "2024-01-01 00:00:00"] ] /\
  build_frame sample_dates (execute_query upper_case_reply) =
    Some (Ok {| columns := ["CASE_ID"; "ACTIVITY"; "TIMESTAMP"];
                rows := [ [CInt 7; CStr "Pedido"; CStr "2024-01-01 00:00:00"] ] |}) /\
  column "case_id" {| columns := ["CASE_ID"; "ACTIVITY"; "TIMESTAMP"];
                      rows := [ [CInt 7; CStr "Pedido"; CStr "2024-01-01 00:00:00"] ] |} =
    Raise KeyError /\
  collect_process_events sample_dates upper_case_reply = Some empty_frame /\
  columns empty_frame <> ["CASE_ID"; "ACTIVITY"; "TIMESTAMP"].
Proof.
  split; [| repeat split; try reflexivity; discriminate].
  eexists _, _, _. repeat split; try reflexivity.
  repeat constructor; eexists; split; reflexivity.
Qed.

(** With the names in lower case the same statements return the frame: the
    case ids stay ints and the timestamps are datetimes. *)
Lemma collect_sample_reply :
  collect_process_events sample_dates sample_reply =
    Some {| columns := ["case_id"; "activity"; "timestamp"];
            rows := [ [CInt 7; CStr "Pedido"; CTime 1704067200000000000];
                      [CInt 7; CStr "Faturamento"; CTime 1704078000000000000] ] |}.
Proof. reflexivity. Qed.

(** A case id that is missing makes the column a float column: 7 is then
    the float 7.0. *)
Lemma collect_missing_case_id :
  collect_process_events sample_dates
    (reply_with
       [field "case_id"; field "activity"; field "timestamp"]
       [ JArr [JInt 7; JStr "Pedido"; JStr "2024-01-01 00:00:00"];
         JArr [JNull; JStr "Faturamento"; JStr "2024-01-01 03:00:00"] ]) =
    Some {| columns := ["case_id"; "activity"; "timestamp"];
            rows := [ [CNum 7; CStr "Pedido"; CTime 1704067200000000000];
                      [CNull; CStr "Faturamento"; CTime 1704078000000000000] ] |}.
Proof. reflexivity. Qed.

(** ** Sorting *)

Section SortProperties.
Context {A : Type} (leb : A -> A -> bool).

Lemma insert_perm (x : A) (l : list A) : Permutation (insert leb x l) (x :: l).
Proof.
  induction l as [| y l IH]; simpl; [reflexivity |].
  destruct (leb x y); [reflexivity |].
  rewrite IH. apply perm_swap.
Qed.

Lemma sort_perm (l : list A) : Permutation (sort leb l) l.
Proof.
  induction l as [| x l IH]; simpl; [reflexivity |].
  rewrite insert_perm, IH. reflexivity.
Qed.

Lemma sort_length (l : list A) : length (sort leb l) = length l.
Proof. apply Permutation_length, sort_perm. Qed.

Lemma sort_In (x : A) (l : list A) : In x (sort leb l) <-> In x l.
Proof.
  split; apply Permutation_in; [| symmetry]; apply sort_perm.
Qed.

Hypothesis leb_total : forall a b, leb a b = true \/ leb b a = true.
Hypothesis leb_trans : forall a b c, leb a b = true -> leb b c = true -> leb a c = true.

Lemma insert_sorted (x : A) (l : list A) :
  StronglySorted (fun a b => leb a b = true) l ->
  StronglySorted (fun a b => leb a b = true) (insert leb x l).
Proof.
  induction 1 as [| y l Hs IH Hy]; simpl; [repeat constructor |].
  destruct (leb x y) eqn:Hxy.
  - constructor; [constructor; assumption |].
    constructor; [assumption |].
    eapply Forall_impl; [| exact Hy]. intros z Hz. eapply leb_trans; eassumption.
  - constructor; [assumption |].
    assert (Hyx : leb y x = true) by (destruct (leb_total x y); congruence).
    apply Forall_forall. intros z Hz.
    apply (Permutation_in _ (insert_perm x l)) in Hz. destruct Hz as [<- | Hz];
      [assumption |].
    rewrite Forall_forall in Hy. apply Hy. assumption.
Qed.

Lemma sort_sorted (l : list A) : StronglySorted (fun a b => leb a b = true) (sort leb l).
Proof.
  induction l as [| x l IH]; simpl; [constructor | apply insert_sorted; assumption].
Qed.
End SortProperties.

(** ** Counting values *)

Lemma cell_eqb_str_l (s : string) (c : cell) :
  cell_eqb (CStr s) c = true <-> c = CStr s.
Proof.
  destruct c; simpl; split; intros H; try discriminate.
  - apply String.eqb_eq in H. congruence.
  - injection H as ->. apply String.eqb_refl.
Qed.

Lemma cell_eqb_str_r (s : string) (c : cell) :
  cell_eqb c (CStr s) = true <-> c = CStr s.
Proof.
  destruct c; simpl; split; intros H; try discriminate.
  - apply String.eqb_eq in H. congruence.
  - injection H as ->. apply String.eqb_refl.
Qed.

Lemma distinct_In (c : cell) (col : list cell) :
  In c (distinct col) -> In c col /\ is_null c = false.
Proof.
  induction col as [| d col IH]; simpl; [tauto |].
  destruct (is_null d) eqn:Hd.
  - intros H. apply IH in H. tauto.
  - intros [<- | H]; [tauto |].
    apply filter_In in H as [H _]. apply IH in H. tauto.
Qed.


Lemma value_counts_In (c : cell) (n : nat) (col : list cell) :
  In (c, n) (value_counts col) <-> In c (distinct col) /\ n = occurrences_of c col.
Proof.
  unfold value_counts. rewrite sort_In, in_map_iff. split.
  - intros (v & [= <- <-] & Hin). tauto.
  - intros (Hin & ->). exists c. tauto.
Qed.

Lemma occurrences_positive (c : cell) (col : list cell) :
  (0 < occurrences_of c col)%nat -> exists d, In d col /\ cell_eqb c d = true.
Proof.
  unfold occurrences_of. destruct (filter (cell_eqb c) col) as [| d rest] eqn:Hf;
    simpl; [lia |].
  intros _. exists d. apply filter_In. rewrite Hf. left. reflexivity.
Qed.

(** ** The suggestions *)

Definition is_activity (x : suggestion) : bool :=
  match x with MostFrequentActivity _ _ => true | _ => false end.
Definition is_delay (x : suggestion) : bool :=
  match x with DelaySuggestion _ => true | _ => false end.
Definition is_conformance (x : suggestion) : bool :=
  match x with LowConformance _ | HighConformance _ => true | _ => false end.
Definition is_category (x : suggestion) : bool :=
  match x with CategoryFocus _ _ _ => true | _ => false end.
Definition is_resource (x : suggestion) : bool :=
  match x with BusiestResource _ _ => true | _ => false end.
Definition is_peak (x : suggestion) : bool :=
  match x with PeakHour _ => true | _ => false end.

Section SuggestionProperties.
Variable parse_date : list cell -> cell -> result (option Z).
Variable py_sum : list json -> json.
Variable py_truediv : json -> Z -> result Q.
Variable series_mean : list cell -> Q.

(** The mean fitness of the aligned traces: every trace has a fitness, every
    fitness is a number, and [avg] is the float [sum(...) / len(...)]. *)
Definition mean_fitness (aligned_traces : list json) (avg : Q) : Prop :=
  aligned_traces <> [] /\
  exists scores,
    mapM fitness_of aligned_traces = Ok scores /\
    (exists numbers, mapM as_number scores = Ok numbers) /\
    py_truediv (py_sum scores) (Z.of_nat (length scores)) = Ok avg.

(** The mean of the "duration_seconds" column. *)
Definition mean_duration (df : frame) (avg : Q) : Prop :=
  count_label "duration_seconds" (columns df) = 1%nat /\
  mean series_mean (map (cell_at "duration_seconds" (columns df)) (rows df)) =
    Ok (Some avg).


Lemma activity_kind (df : frame) (s : list suggestion) :
  activity_suggestion df = Ok s -> Forall (fun x => is_activity x = true) s.
Proof.
  unfold activity_suggestion, column.
  destruct (has_column "concept:name" df); simpl; [| intros [= <-]; constructor].
  destruct (value_counts _) as [| [v n] rest]; [intros [= <-]; constructor |].
  destruct (cell_truthy v); intros [= <-]; repeat constructor.
Qed.

Lemma resource_kind (df : frame) (s : list suggestion) :
  resource_suggestion df = Ok s -> Forall (fun x => is_resource x = true) s.
Proof.
  unfold resource_suggestion, column.
  destruct (has_column "org:resource" df); simpl; [| intros [= <-]; constructor].
  destruct (value_counts _) as [| [v n] rest]; intros [= <-]; repeat constructor.
Qed.

Lemma peak_kind (df : frame) (s : list suggestion) :
  peak_hour_suggestion parse_date df = Ok s -> Forall (fun x => is_peak x = true) s.
Proof.
  unfold peak_hour_suggestion.
  destruct (has_column "time:timestamp" df); [| intros [= <-]; constructor].
  intros H. apply bind_ok in H as (times & _ & H).
  apply bind_ok in H as (peak & _ & [= <-]). repeat constructor.
Qed.

Lemma duration_spec (df : frame) (s : list suggestion) :
  duration_suggestion series_mean df = Ok s ->
  forall x, In x s <->
    exists avg, x = DelaySuggestion avg /\ mean_duration df avg /\ (3600 < avg)%Q.
Proof.
  unfold duration_suggestion, mean_duration, column.
  destruct (has_column "duration_seconds" df) eqn:Hcol.
  - destruct (count_label "duration_seconds" (columns df)) as [| [| k]] eqn:Hcount.
    + apply has_column_In, count_label_In in Hcol. lia.
    + cbn [bind].
      destruct (mean _ _) as [[avg |] | e]; simpl; try discriminate.
      * destruct (Qlt_le_dec 3600 avg) as [Hlt | Hle]; intros [= <-] x; simpl.
        -- split.
           ++ intros [<- | []]. exists avg. tauto.
           ++ intros (a & -> & (_ & [= <-]) & _). left. reflexivity.
        -- split; [tauto |].
           intros (a & -> & (_ & [= <-]) & Hlt).
           exact (Qlt_not_le _ _ Hlt Hle).
      * intros [= <-] x. simpl. split; [tauto |].
        intros (a & _ & (_ & H) & _). discriminate.
    + intros H. apply bind_ok in H as (u & _ & H). discriminate.
  - intros [= <-] x. simpl. split; [tauto |].
    intros (a & _ & (H & _) & _).
    apply has_column_false in Hcol. apply Hcol, count_label_In. lia.
Qed.

Lemma conformance_spec (aligned_traces : list json) (s : list suggestion) :
  conformance_suggestion py_sum py_truediv aligned_traces = Ok s ->
  forall x, In x s <->
    exists avg, mean_fitness aligned_traces avg /\
      ((x = LowConformance avg /\ (avg < float_0_8)%Q) \/
       (x = HighConformance avg /\ (float_0_95 < avg)%Q)).
Proof.
  unfold conformance_suggestion, mean_fitness.
  destruct aligned_traces as [| t ts].
  - intros [= <-] x. simpl. split; [tauto |]. intros (avg & (H & _) & _). congruence.
  - intros H. apply bind_ok in H as (scores & Hscores & H).
    apply bind_ok in H as (numbers & Hnumbers & H).
    apply bind_ok in H as (avg & Havg & H).
    assert (Hmean : t :: ts <> [] /\
              exists scores0,
                mapM fitness_of (t :: ts) = Ok scores0 /\
                (exists numbers0, mapM as_number scores0 = Ok numbers0) /\
                py_truediv (py_sum scores0) (Z.of_nat (length scores0)) = Ok avg).
    { split; [discriminate |]. exists scores. eauto. }
    assert (Hsame : forall a,
              (t :: ts <> [] /\
               exists scores0,
                 mapM fitness_of (t :: ts) = Ok scores0 /\
                 (exists numbers0, mapM as_number scores0 = Ok numbers0) /\
                 py_truediv (py_sum scores0) (Z.of_nat (length scores0)) = Ok a) ->
              a = avg).
    { intros a (_ & scores0 & Hs0 & _ & Ha). congruence. }
    assert (Hgap : (float_0_8 < float_0_95)%Q) by reflexivity.
    destruct (Qlt_le_dec avg float_0_8) as [Hlow | Hnot_low].
    + injection H as <-. intros x. simpl. split.
      * intros [<- | []]. exists avg. tauto.
      * intros (a & Ha & Hx). apply Hsame in Ha. subst a.
        destruct Hx as [[-> _] | [_ Hhigh]]; [left; reflexivity |].
        exfalso. apply (Qlt_irrefl avg). eapply Qlt_trans; [exact Hlow |].
        eapply Qlt_trans; eassumption.
    + destruct (Qlt_le_dec float_0_95 avg) as [Hhigh | Hnot_high].
      * injection H as <-. intros x. simpl. split.
        -- intros [<- | []]. exists avg. tauto.
        -- intros (a & Ha & Hx). apply Hsame in Ha. subst a.
           destruct Hx as [[_ Hlow] | [-> _]]; [| left; reflexivity].
           exfalso. exact (Qlt_not_le _ _ Hlow Hnot_low).
      * injection H as <-. intros x. simpl. split; [tauto |].
        intros (a & Ha & Hx). apply Hsame in Ha. subst a.
        destruct Hx as [[_ Hx] | [_ Hx]].
        -- exact (Qlt_not_le _ _ Hx Hnot_low).
        -- exact (Qlt_not_le _ _ Hx Hnot_high).
Qed.

Lemma conformance_kind (aligned_traces : list json) (s : list suggestion) :
  conformance_suggestion py_sum py_truediv aligned_traces = Ok s ->
  Forall (fun x => is_conformance x = true) s.
Proof.
  intros H. apply Forall_forall. intros x Hx.
  apply (conformance_spec _ _ H) in Hx as (avg & _ & [[-> _] | [-> _]]); reflexivity.
Qed.

Lemma duration_kind (df : frame) (s : list suggestion) :
  duration_suggestion series_mean df = Ok s -> Forall (fun x => is_delay x = true) s.
Proof.
  intros H. apply Forall_forall. intros x Hx.
  apply (duration_spec _ _ H) in Hx as (avg & -> & _). reflexivity.
Qed.

Lemma category_spec (df : frame) (s : list suggestion) :
  category_suggestions df = Ok s ->
  forall x, In x s <->
    exists c n,
      x = CategoryFocus c n (length (rows df)) /\
      has_column "process_category" df = true /\
      In (c, n) (value_counts
                   (map (cell_at "process_category" (columns df)) (rows df))) /\
      (length (rows df) < 2 * n)%nat.
Proof.
  unfold category_suggestions, column.
  destruct (has_column "process_category" df); simpl.
  - intros [= <-] x. rewrite in_map_iff. split.
    + intros ([c n] & <- & Hin). apply filter_In in Hin as [Hin Hhalf].
      exists c, n. simpl. repeat split; try assumption.
      unfold over_half in Hhalf. simpl in Hhalf. apply Nat.ltb_lt in Hhalf. exact Hhalf.
    + intros (c & n & -> & _ & Hin & Hhalf). exists (c, n). split; [reflexivity |].
      apply filter_In. split; [assumption |].
      unfold over_half. simpl. apply Nat.ltb_lt. exact Hhalf.
  - intros [= <-] x. simpl. split; [tauto |].
    intros (c & n & _ & H & _). discriminate.
Qed.

Lemma category_kind (df : frame) (s : list suggestion) :
  category_suggestions df = Ok s -> Forall (fun x => is_category x = true) s.
Proof.
  intros H. apply Forall_forall. intros x Hx.
  apply (category_spec _ _ H) in Hx as (c & n & -> & _). reflexivity.
Qed.

Lemma heuristics_ok (df : frame) (aligned_traces : list json) (fired : list suggestion) :
  heuristics parse_date py_sum py_truediv series_mean df aligned_traces = Ok fired ->
  exists s1 s2 s3 s4 s5 s6,
    activity_suggestion df = Ok s1 /\ duration_suggestion series_mean df = Ok s2 /\
    conformance_suggestion py_sum py_truediv aligned_traces = Ok s3 /\
    category_suggestions df = Ok s4 /\ resource_suggestion df = Ok s5 /\
    peak_hour_suggestion parse_date df = Ok s6 /\
    fired = s1 ++ s2 ++ s3 ++ s4 ++ s5 ++ s6.
Proof.
  unfold heuristics. intros H.
  apply bind_ok in H as (s1 & H1 & H). apply bind_ok in H as (s2 & H2 & H).
  apply bind_ok in H as (s3 & H3 & H). apply bind_ok in H as (s4 & H4 & H).
  apply bind_ok in H as (s5 & H5 & H). apply bind_ok in H as (s6 & H6 & [= <-]).
  exists s1, s2, s3, s4, s5, s6. tauto.
Qed.


End SuggestionProperties.






(** ** The order of cells and of sort keys *)

Lemma string_leb_le (a b : string) :
  String.leb a b = true <-> a = b \/ String_as_OT.lt a b.
Proof.
  unfold String.leb. rewrite <- String_as_OT.cmp_lt, <- String_as_OT.cmp_eq.
  unfold String_as_OT.cmp. destruct (String.compare a b); split; intros H;
    try tauto; try discriminate; destruct H; discriminate.
Qed.

Lemma string_leb_trans (a b c : string) :
  String.leb a b = true -> String.leb b c = true -> String.leb a c = true.
Proof.
  rewrite !string_leb_le. intros [-> | Hab] [-> | Hbc]; auto.
  right. eapply String_as_OT.lt_trans; eassumption.
Qed.

Lemma string_ltb_leb (a b : string) :
  String.ltb a b = negb (String.leb b a).
Proof.
  unfold String.ltb, String.leb. rewrite (String.compare_antisym a b).
  destruct (String.compare b a); reflexivity.
Qed.

Lemma Zleb_Qle_bool (x y : Z) : (x <=? y) = Qle_bool (inject_Z x) (inject_Z y).
Proof. unfold Qle_bool, inject_Z. simpl. rewrite !Z.mul_1_r. reflexivity. Qed.

Lemma Qle_bool_total (x y : Q) : Qle_bool x y = true \/ Qle_bool y x = true.
Proof.
  rewrite !Qle_bool_iff. destruct (Qlt_le_dec x y) as [H | H]; [left | right];
    [apply Qlt_le_weak |]; assumption.
Qed.

Lemma Qle_bool_trans (x y z : Q) :
  Qle_bool x y = true -> Qle_bool y z = true -> Qle_bool x z = true.
Proof. rewrite !Qle_bool_iff. apply Qle_trans. Qed.

Lemma cell_leb_total (a b : cell) : cell_leb a b = true \/ cell_leb b a = true.
Proof.
  destruct a, b; simpl; auto using String.leb_total, Qle_bool_total;
    rewrite ?Zleb_Qle_bool; auto using Qle_bool_total.
Qed.

Lemma cell_leb_trans (a b c : cell) :
  cell_leb a b = true -> cell_leb b c = true -> cell_leb a c = true.
Proof.
  destruct a, b, c; simpl; try reflexivity; try discriminate;
    rewrite ?Zleb_Qle_bool;
    eauto using string_leb_trans, Qle_bool_trans.
Qed.

Lemma keys_leb_total (a b : list cell) : keys_leb a b = true \/ keys_leb b a = true.
Proof.
  revert b. induction a as [| x a IH]; intros [| y b]; simpl; auto.
  destruct (cell_leb y x) eqn:Hyx, (cell_leb x y) eqn:Hxy; simpl; auto.
Qed.

Lemma keys_leb_trans (a b c : list cell) :
  length a = length b -> length b = length c ->
  keys_leb a b = true -> keys_leb b c = true -> keys_leb a c = true.
Proof.
  revert b c. induction a as [| x a IH]; intros [| y b] [| z c]; simpl;
    try discriminate; try reflexivity.
  intros Hab Hbc.
  destruct (cell_leb y x) eqn:Hyx, (cell_leb x y) eqn:Hxy; simpl; try discriminate;
    destruct (cell_leb z y) eqn:Hzy, (cell_leb y z) eqn:Hyz; simpl; try discriminate;
    destruct (cell_leb z x) eqn:Hzx, (cell_leb x z) eqn:Hxz; simpl;
    try reflexivity; intros H1 H2;
    try (apply (IH b c); congruence || lia);
    try (rewrite (cell_leb_trans _ _ _ Hxy Hyz) in Hxz; discriminate);
    try (rewrite (cell_leb_trans _ _ _ Hzy Hyx) in Hzx; discriminate);
    try (rewrite (cell_leb_trans _ _ _ Hyz Hzx) in Hyx; discriminate);
    try (rewrite (cell_leb_trans _ _ _ Hzx Hxy) in Hzy; discriminate);
    try (rewrite (cell_leb_trans _ _ _ Hxz Hzy) in Hxy; discriminate);
    try (rewrite (cell_leb_trans _ _ _ Hyx Hxz) in Hyz; discriminate);
    try (destruct (cell_leb_total x z); congruence);
    try (destruct (cell_leb_total x y); congruence);
    try (destruct (cell_leb_total y z); congruence).
Qed.

Definition rows_leb (by_ labels : list string) (r1 r2 : list cell) : bool :=
  keys_leb (row_keys by_ labels r1) (row_keys by_ labels r2).

Lemma rows_leb_total (by_ labels : list string) (r1 r2 : list cell) :
  rows_leb by_ labels r1 r2 = true \/ rows_leb by_ labels r2 r1 = true.
Proof. apply keys_leb_total. Qed.

Lemma rows_leb_trans (by_ labels : list string) (r1 r2 r3 : list cell) :
  rows_leb by_ labels r1 r2 = true -> rows_leb by_ labels r2 r3 = true ->
  rows_leb by_ labels r1 r3 = true.
Proof.
  apply keys_leb_trans; unfold row_keys; rewrite !length_map; reflexivity.
Qed.

(** ** Reading a row after an update *)

Lemma lookup_some (label : string) (labels : list string) (row : list cell) :
  In label labels -> length row = length labels ->
  exists c, lookup label labels row = Some c.
Proof.
  revert row. induction labels as [| l ls IH]; intros row Hin Hlen; [destruct Hin |].
  destruct row as [| c cs]; [discriminate |]. simpl.
  destruct (String.eqb_spec l label) as [-> | Hne]; [eauto |].
  apply IH; [destruct Hin; congruence | simpl in Hlen; lia].
Qed.

Lemma lookup_absent (label : string) (labels : list string) (row : list cell) :
  ~ In label labels -> lookup label labels row = None.
Proof.
  revert row. induction labels as [| l ls IH]; intros row Hnot; [destruct row; reflexivity |].
  destruct row as [| c cs]; [reflexivity |]. simpl.
  destruct (String.eqb_spec l label) as [-> | Hne].
  - exfalso. apply Hnot. left. reflexivity.
  - apply IH. intros Hin. apply Hnot. right. assumption.
Qed.

Lemma lookup_map_labelled (f : cell -> cell) (label l : string) (labels : list string)
    (row : list cell) :
  lookup l labels (map_labelled f label labels row) =
    if String.eqb l label then option_map f (lookup l labels row)
    else lookup l labels row.
Proof.
  revert row. induction labels as [| k ks IH]; intros row.
  - destruct row; simpl; destruct (String.eqb l label); reflexivity.
  - destruct row as [| c cs]; [simpl; destruct (String.eqb l label); reflexivity |].
    simpl. destruct (String.eqb_spec k l) as [-> | Hkl].
    + destruct (String.eqb_spec l label) as [-> | Hne]; reflexivity.
    + apply IH.
Qed.

(** Renaming the labels does not move the cells: under labels that stay
    distinct, a cell is found under the new name of its label. *)
Lemma lookup_renamed (f : string -> string) (label : string) (labels : list string)
    (row : list cell) :
  NoDup (map f labels) -> In label labels ->
  lookup (f label) (map f labels) row = lookup label labels row.
Proof.
  revert row. induction labels as [| l ls IH]; intros row Hnd Hin; [destruct Hin |].
  destruct row as [| c cs]; [reflexivity |]. simpl in *.
  inversion Hnd as [| ? ? Hnot Hnd']; subst.
  destruct Hin as [-> | Hin].
  - rewrite !String.eqb_refl. reflexivity.
  - destruct (String.eqb_spec (f l) (f label)) as [Heq | Hne].
    + exfalso. apply Hnot. rewrite Heq. apply in_map. assumption.
    + destruct (String.eqb_spec l label) as [-> | _]; [congruence |].
      apply IH; assumption.
Qed.

Lemma lookup_app_new (label l : string) (labels : list string) (row : list cell)
    (v : cell) :
  length row = length labels ->
  lookup l (labels ++ [label]) (row ++ [v]) =
    match lookup l labels row with
    | Some c => Some c
    | None => if String.eqb label l then Some v else None
    end.
Proof.
  revert row. induction labels as [| k ks IH]; intros [| c cs] Hlen; try discriminate.
  - simpl. destruct (String.eqb label l); reflexivity.
  - simpl. destruct (String.eqb k l); [reflexivity |]. apply IH. simpl in Hlen. lia.
Qed.

Lemma existsb_eqb_In (label : string) (labels : list string) :
  existsb (String.eqb label) labels = true <-> In label labels.
Proof.
  rewrite existsb_exists. split.
  - intros (x & Hin & Heq). apply String.eqb_eq in Heq. congruence.
  - intros Hin. exists label. split; [assumption | apply String.eqb_refl].
Qed.

Lemma set_cell_length (label : string) (labels : list string) (row : list cell) (v : cell) :
  length row = length labels ->
  length (set_cell label labels row v) = length (set_label label labels).
Proof.
  intros Hlen. unfold set_cell, set_label.
  destruct (existsb (String.eqb label) labels).
  - rewrite map_labelled_length. assumption.
  - rewrite !length_app. simpl. lia.
Qed.

Lemma lookup_set_cell_other (label l : string) (labels : list string) (row : list cell)
    (v : cell) :
  l <> label -> length row = length labels ->
  lookup l (set_label label labels) (set_cell label labels row v) = lookup l labels row.
Proof.
  intros Hne Hlen. unfold set_cell, set_label.
  destruct (existsb (String.eqb label) labels) eqn:Hex.
  - rewrite lookup_map_labelled.
    destruct (String.eqb_spec l label); [contradiction | reflexivity].
  - rewrite lookup_app_new by assumption.
    destruct (lookup l labels row); [reflexivity |].
    destruct (String.eqb_spec label l); [congruence | reflexivity].
Qed.

Lemma lookup_set_cell_same (label : string) (labels : list string) (row : list cell)
    (v : cell) :
  length row = length labels ->
  lookup label (set_label label labels) (set_cell label labels row v) = Some v.
Proof.
  intros Hlen. unfold set_cell, set_label.
  destruct (existsb (String.eqb label) labels) eqn:Hex.
  - rewrite lookup_map_labelled, String.eqb_refl.
    apply existsb_eqb_In in Hex.
    destruct (lookup_some label labels row Hex Hlen) as (c & ->). reflexivity.
  - rewrite lookup_app_new by assumption. rewrite String.eqb_refl.
    rewrite lookup_absent; [reflexivity |].
    intros Hin. apply existsb_eqb_In in Hin. congruence.
Qed.

Lemma In_set_label (label l : string) (labels : list string) :
  In l labels -> In l (set_label label labels).
Proof.
  unfold set_label. destruct (existsb (String.eqb label) labels); [auto |].
  intros H. apply in_or_app. left. assumption.
Qed.

Lemma set_label_prefix (label : string) (labels : list string) :
  exists extra, set_label label labels = labels ++ extra.
Proof.
  unfold set_label. destruct (existsb (String.eqb label) labels).
  - exists []. rewrite app_nil_r. reflexivity.
  - eauto.
Qed.

(** ** Preprocessing: the shape of the result *)

Local Abbreviation CASE := "case:concept:name" (only parsing).
Local Abbreviation ACTIVITY := "concept:name" (only parsing).
Local Abbreviation TIME := "time:timestamp" (only parsing).
Local Abbreviation DURATION := "duration_seconds" (only parsing).
Local Abbreviation SEQUENCE := "activity_sequence" (only parsing).

(** Every row has one cell per column. *)
Definition rectangular (df : frame) : Prop :=
  Forall (fun row => length row = length (columns df)) (rows df).

(** Two timestamps whose difference a timedelta64[ns] holds: they are less
    than 2^63 ns (some 292 years) apart. *)
Definition close (a b : cell) : Prop :=
  match a, b with
  | CTime s, CTime t => fits_int64 (t - s) = true
  | _, _ => True
  end.

Definition within_span (col : list cell) : Prop :=
  forall a b, In a col -> In b col -> close a b.

Definition closeb (a b : cell) : bool :=
  match a, b with
  | CTime s, CTime t => fits_int64 (t - s)
  | _, _ => true
  end.

Definition within_spanb (col : list cell) : bool :=
  forallb (fun a => forallb (closeb a) col) col.

Lemma within_spanb_ok (col : list cell) : within_spanb col = true -> within_span col.
Proof.
  unfold within_spanb, within_span. intros H a b Ha Hb.
  rewrite forallb_forall in H. specialize (H a Ha).
  rewrite forallb_forall in H. specialize (H b Hb).
  destruct a, b; simpl in *; auto.
Qed.

(** The frames [preprocess_data] is written for: not empty, with a "case_id",
    an "activity" and a "timestamp" column, the labels still distinct once
    renamed, no case or activity missing, and the timestamp column a
    datetime64 column, as [collect_process_events] leaves it, whose values
    lie within 2^63 ns of each other. *)
Record event_frame (df : frame) : Prop := {
  ef_rectangular : rectangular df;
  ef_not_empty : df_empty df = false;
  ef_distinct : NoDup (map (rename_label pm4py_names) (columns df));
  ef_case : In "case_id" (columns df);
  ef_activity : In "activity" (columns df);
  ef_timestamp : In "timestamp" (columns df);
  ef_datetime :
    Forall (fun row => is_datetime (cell_at "timestamp" (columns df) row) = true) (rows df);
  ef_keys :
    Forall (fun row => is_null (cell_at "case_id" (columns df) row) = false /\
                       is_null (cell_at "activity" (columns df) row) = false) (rows df);
  ef_span : within_span (map (cell_at "timestamp" (columns df)) (rows df))
}.

Section PreprocessProperties.
Variable py_str : cell -> string.
Variable astype_missing : cell -> cell.
Variable seconds_of_ns : Z -> Q.

(** The nanoseconds since the previous event of the case, [None] for the
    first event of a case and when either timestamp is missing. *)
Definition elapsed_ns (current : option Z) (previous : option (option Z)) : option Z :=
  match current, previous with
  | Some t, Some (Some p) => Some (t - p)
  | _, _ => None
  end.

(** The value of a timestamp cell, [None] for a missing one. *)
Definition time_val (labels : list string) (row : list cell) : option Z :=
  match cell_at TIME labels row with
  | CTime t => Some t
  | _ => None
  end.

Definition case_key (labels : list string) (row : list cell) : cell :=
  cell_at CASE labels row.

(** A sorted row with its two new cells. *)
Definition finish (labels : list string) (row : list cell) (d n : cell) : list cell :=
  set_cell SEQUENCE (set_label DURATION labels) (set_cell DURATION labels row d) n.

(** The rows of the result, read off the sorted rows in one pass; [seen] holds
    the rows already passed, the most recent first. *)
Fixpoint annotate (labels : list string) (seen rest : list (list cell))
  : list (list cell) :=
  match rest with
  | [] => []
  | row :: rest' =>
      finish labels row
        (fillna0 (total_seconds seconds_of_ns
           (elapsed_ns (time_val labels row)
              (find_key (case_key labels row)
                 (map (fun p => (case_key labels p, time_val labels p)) seen)))))
        (CInt (count_key (case_key labels row) (map (case_key labels) seen) + 1))
      :: annotate labels (row :: seen) rest'
  end.

Definition good_row (labels : list string) (row : list cell) : Prop :=
  length row = length labels /\
  (exists c, lookup CASE labels row = Some (CStr c)) /\
  (exists a, lookup ACTIVITY labels row = Some (CStr a)) /\
  is_datetime (cell_at TIME labels row) = true.

Lemma annotate_fusion (labels : list string) (seen rest : list (list cell)) :
  zip_with (set_cell SEQUENCE (set_label DURATION labels))
    (zip_with (set_cell DURATION labels) rest
       (map (fun d => fillna0 (total_seconds seconds_of_ns d))
          (zip_with elapsed_ns (map (time_val labels) rest)
             (group_prev (map (fun p => (case_key labels p, time_val labels p)) seen)
                (map (case_key labels) rest) (map (time_val labels) rest)))))
    (map (fun n => CInt (n + 1))
       (group_counts (map (case_key labels) seen) (map (case_key labels) rest)))
  = annotate labels seen rest.
Proof.
  revert seen. induction rest as [| row rest IH]; intros seen; [reflexivity |].
  simpl. f_equal. apply (IH (row :: seen)).
Qed.

Lemma as_datetime64_ok (labels : list string) (table : list (list cell)) :
  Forall (fun row => is_datetime (cell_at TIME labels row) = true) table ->
  as_datetime64 (map (cell_at TIME labels) table) = Ok (map (time_val labels) table).
Proof.
  unfold as_datetime64, time_val. induction 1 as [| row table Hrow _ IH]; [reflexivity |].
  cbn [map mapM]. rewrite IH.
  destruct (cell_at TIME labels row); try discriminate; reflexivity.
Qed.

Lemma kinds_uniform (k : kind) (col : list cell) :
  Forall (fun c => kind_of c = None \/ kind_of c = Some k) col ->
  Forall (fun k' => k' = k) (kinds col).
Proof.
  induction 1 as [| c col [Hc | Hc] _ IH]; simpl; [constructor | |]; rewrite Hc;
    [assumption | constructor; [reflexivity | assumption]].
Qed.

Lemma comparable_uniform (k : kind) (col : list cell) :
  Forall (fun c => kind_of c = None \/ kind_of c = Some k) col -> comparable col = true.
Proof.
  intros H. apply kinds_uniform in H. unfold comparable.
  destruct (kinds col) as [| k0 ks]; [reflexivity |].
  inversion H as [| ? ? Hk0 Hks]; subst. apply forallb_forall. intros k' Hin.
  rewrite Forall_forall in Hks. rewrite (Hks k' Hin).
  match goal with |- kind_eqb ?x ?x = true => destruct x; reflexivity end.
Qed.

Lemma count_label_unique (label : string) (labels : list string) :
  NoDup labels -> In label labels -> count_label label labels = 1%nat.
Proof.
  intros Hnd Hin. unfold count_label. apply NoDup_count_occ'; assumption.
Qed.

Section PreprocessShape.

Definition renamed (df : frame) : list string :=
  map (rename_label pm4py_names) (columns df).

(** A row after the two casts. *)
Definition cast (labels : list string) (row : list cell) : list cell :=
  map_labelled (astype_str_cell py_str astype_missing) ACTIVITY labels
    (map_labelled (astype_str_cell py_str astype_missing) CASE labels row).

Definition sorted_rows (df : frame) : list (list cell) :=
  sort (rows_leb [CASE; TIME] (renamed df)) (map (cast (renamed df)) (rows df)).

Lemma astype_is_str (c : cell) :
  is_null c = false -> exists s, astype_str_cell py_str astype_missing c = CStr s.
Proof. destruct c; simpl; try discriminate; eauto. Qed.

Lemma cast_time (df : frame) (row : list cell) :
  event_frame df ->
  cell_at TIME (renamed df) (cast (renamed df) row) =
    cell_at "timestamp" (columns df) row.
Proof.
  intros H. unfold cell_at, cast. rewrite !lookup_map_labelled.
  rewrite (proj2 (String.eqb_neq TIME ACTIVITY)) by discriminate.
  rewrite (proj2 (String.eqb_neq TIME CASE)) by discriminate.
  change TIME with (rename_label pm4py_names "timestamp").
  unfold renamed.
  rewrite (lookup_renamed _ _ _ _ (ef_distinct df H) (ef_timestamp df H)). reflexivity.
Qed.

Lemma renamed_labels (df : frame) :
  event_frame df ->
  In CASE (renamed df) /\ In ACTIVITY (renamed df) /\ In TIME (renamed df).
Proof.
  intros H. unfold renamed. repeat split.
  - apply (in_map (rename_label pm4py_names) _ _ (ef_case df H)).
  - apply (in_map (rename_label pm4py_names) _ _ (ef_activity df H)).
  - apply (in_map (rename_label pm4py_names) _ _ (ef_timestamp df H)).
Qed.

Lemma cast_lookup (labels : list string) (row : list cell) (l : string) :
  lookup l labels (cast labels row) =
    if String.eqb l CASE || String.eqb l ACTIVITY
    then option_map (astype_str_cell py_str astype_missing) (lookup l labels row)
    else lookup l labels row.
Proof.
  unfold cast. rewrite !lookup_map_labelled.
  destruct (String.eqb_spec l ACTIVITY) as [-> | Ha].
  - rewrite (proj2 (String.eqb_neq ACTIVITY CASE)) by discriminate. reflexivity.
  - rewrite orb_false_r. destruct (String.eqb l CASE); reflexivity.
Qed.

(** A key that is present is cast to a string. *)
Lemma cast_key (df : frame) (row : list cell) (old : string) :
  event_frame df -> In old (columns df) -> length row = length (columns df) ->
  is_null (cell_at old (columns df) row) = false ->
  String.eqb (rename_label pm4py_names old) CASE
  || String.eqb (rename_label pm4py_names old) ACTIVITY = true ->
  exists s,
    lookup (rename_label pm4py_names old) (renamed df) (cast (renamed df) row) =
      Some (CStr s).
Proof.
  intros H Hin Hlen Hnull Hkey. rewrite cast_lookup, Hkey. unfold renamed.
  rewrite (lookup_renamed _ _ _ _ (ef_distinct df H) Hin).
  unfold cell_at in Hnull.
  destruct (lookup_some old _ row Hin Hlen) as (c & Hc). rewrite Hc in Hnull |- *.
  destruct (astype_is_str c Hnull) as (s & Hs). exists s. simpl. rewrite Hs. reflexivity.
Qed.

Lemma cast_good (df : frame) :
  event_frame df -> Forall (good_row (renamed df)) (map (cast (renamed df)) (rows df)).
Proof.
  intros H. apply Forall_map. apply Forall_forall. intros row Hrow.
  pose proof (ef_rectangular df H) as Hrect. unfold rectangular in Hrect.
  rewrite Forall_forall in Hrect. specialize (Hrect row Hrow).
  pose proof (ef_keys df H) as Hkeys. rewrite Forall_forall in Hkeys.
  destruct (Hkeys row Hrow) as (Hcase & Hact).
  unfold good_row. repeat split.
  - unfold cast, renamed. rewrite !map_labelled_length, length_map. exact Hrect.
  - exact (cast_key df row "case_id" H (ef_case df H) Hrect Hcase eq_refl).
  - exact (cast_key df row "activity" H (ef_activity df H) Hrect Hact eq_refl).
  - rewrite (cast_time df row H).
    pose proof (ef_datetime df H) as Hdt. rewrite Forall_forall in Hdt.
    exact (Hdt row Hrow).
Qed.

Lemma sorted_good (df : frame) :
  event_frame df -> Forall (good_row (renamed df)) (sorted_rows df).
Proof.
  intros H. eapply Permutation_Forall; [| exact (cast_good df H)].
  symmetry. apply sort_perm.
Qed.

Lemma good_case_column (labels : list string) (table : list (list cell)) :
  Forall (good_row labels) table ->
  Forall (fun c => kind_of c = None \/ kind_of c = Some KStr)
         (map (cell_at CASE labels) table).
Proof.
  intros H. apply Forall_map. eapply Forall_impl; [| exact H].
  intros row (_ & (c & Hc) & _). unfold cell_at. rewrite Hc. right. reflexivity.
Qed.

Lemma good_time_column (labels : list string) (table : list (list cell)) :
  Forall (good_row labels) table ->
  Forall (fun c => kind_of c = None \/ kind_of c = Some KTime)
         (map (cell_at TIME labels) table).
Proof.
  intros H. apply Forall_map. eapply Forall_impl; [| exact H].
  intros row (_ & _ & _ & Hdt). destruct (cell_at TIME labels row); try discriminate;
    [left | right]; reflexivity.
Qed.

Lemma good_datetime (labels : list string) (table : list (list cell)) :
  Forall (good_row labels) table ->
  Forall (fun row => is_datetime (cell_at TIME labels row) = true) table.
Proof. apply Forall_impl. intros row H. apply H. Qed.

(** The frame after the sort and the first assignment keeps the keys of the
    sorted rows. *)
Lemma case_column_kept (labels : list string) (table : list (list cell))
    (values : list cell) :
  Forall (good_row labels) table -> length values = length table ->
  map (cell_at CASE (set_label DURATION labels))
      (zip_with (set_cell DURATION labels) table values) =
  map (cell_at CASE labels) table.
Proof.
  intros H. revert values. induction H as [| row table Hrow _ IH];
    intros [| v values] Hlen; try discriminate; [reflexivity |].
  simpl. f_equal; [| apply IH; simpl in Hlen; lia].
  unfold cell_at. rewrite lookup_set_cell_other; [reflexivity | discriminate |].
  apply Hrow.
Qed.

Lemma group_prev_length {A : Type} (seen : list (cell * A)) (keys : list cell)
    (values : list A) :
  length keys = length values -> length (group_prev seen keys values) = length keys.
Proof.
  revert seen values. induction keys as [| k ks IH]; intros seen [| v vs] H;
    simpl in *; try discriminate; [reflexivity |].
  rewrite IH; [reflexivity | lia].
Qed.

Lemma find_key_In {A : Type} (key : cell) (seen : list (cell * A)) (v : A) :
  find_key key seen = Some v -> In v (map snd seen).
Proof.
  induction seen as [| [k w] seen IH]; simpl; [discriminate |].
  destruct (cell_eqb k key); [intros [= ->]; left; reflexivity | auto].
Qed.

(** Where the timestamps lie within the span, no subtraction overflows. *)
Lemma checked_diffs (seen : list (cell * option Z)) (keys : list cell)
    (times : list (option Z)) :
  length keys = length times ->
  (forall s t, In (Some s) (map snd seen ++ times) -> In (Some t) times ->
               fits_int64 (t - s) = true) ->
  mapM (fun pair => timedelta (fst pair) (snd pair))
       (combine times (group_prev seen keys times)) =
  Ok (zip_with elapsed_ns times (group_prev seen keys times)).
Proof.
  revert seen times. induction keys as [| k ks IH]; intros seen [| v vs] Hlen Hfit;
    try discriminate; [reflexivity |].
  cbn [group_prev combine mapM zip_with fst snd].
  assert (Hhead : timedelta v (find_key k seen) = Ok (elapsed_ns v (find_key k seen))).
  { destruct v as [t |]; [| reflexivity].
    destruct (find_key k seen) as [[p0 |] |] eqn:Hfind; try reflexivity.
    simpl. rewrite Hfit; [reflexivity | | left; reflexivity].
    apply in_or_app. left. exact (find_key_In _ _ _ Hfind). }
  rewrite Hhead. cbn [bind]. rewrite IH; [reflexivity | simpl in Hlen; lia |].
  intros s t Hs Ht. apply Hfit; [| right; exact Ht].
  simpl in Hs. destruct Hs as [Hs | Hs].
  - apply in_or_app. right. left. exact Hs.
  - apply in_app_or in Hs as [Hs | Hs]; apply in_or_app; [left | right; right]; exact Hs.
Qed.

Lemma group_cumcount_present (seen keys : list cell) :
  Forall (fun k => is_null k = false) keys ->
  group_cumcount seen keys = map Some (group_counts seen keys).
Proof.
  unfold group_cumcount. intros H. revert seen.
  induction H as [| k ks Hk _ IH]; intros seen; [reflexivity |].
  cbn [group_counts zip_with map]. rewrite Hk, IH. reflexivity.
Qed.

Lemma sequence_numbers_present (counts : list Z) :
  sequence_numbers (map Some counts) = map (fun n => CInt (n + 1)) counts.
Proof.
  unfold sequence_numbers.
  assert (H : forallb is_some (map Some counts) = true).
  { apply forallb_forall. intros o Ho. apply in_map_iff in Ho as (n & <- & _). reflexivity. }
  rewrite H, map_map. reflexivity.
Qed.

Lemma sorted_timestamp (df : frame) (t : Z) :
  event_frame df ->
  In (Some t) (map (time_val (renamed df)) (sorted_rows df)) ->
  In (CTime t) (map (cell_at "timestamp" (columns df)) (rows df)).
Proof.
  intros H Hin. apply in_map_iff in Hin as (r & Hr & Hin).
  apply sort_In, in_map_iff in Hin as (row & <- & Hrow).
  unfold time_val in Hr. rewrite (cast_time df row H) in Hr.
  apply in_map_iff. exists row. split; [| exact Hrow].
  destruct (cell_at "timestamp" (columns df) row); congruence.
Qed.

Lemma sorted_span (df : frame) (s t : Z) :
  event_frame df ->
  In (Some s) (map (time_val (renamed df)) (sorted_rows df)) ->
  In (Some t) (map (time_val (renamed df)) (sorted_rows df)) ->
  fits_int64 (t - s) = true.
Proof.
  intros H Hs Ht.
  exact (ef_span df H _ _ (sorted_timestamp df s H Hs) (sorted_timestamp df t H Ht)).
Qed.

Lemma good_keys_present (labels : list string) (table : list (list cell)) :
  Forall (good_row labels) table ->
  Forall (fun k => is_null k = false) (map (cell_at CASE labels) table).
Proof.
  intros H. apply Forall_map. eapply Forall_impl; [| exact H].
  intros row (_ & (c & Hc) & _). unfold cell_at. rewrite Hc. reflexivity.
Qed.

(** On an event frame no step raises, and the result is the sorted rows, each
    with its duration and its sequence number. *)
Lemma preprocess_shape (df : frame) :
  event_frame df ->
  preprocess_data_try py_str astype_missing seconds_of_ns df =
    Ok {| columns := set_label SEQUENCE (set_label DURATION (renamed df));
          rows := annotate (renamed df) [] (sorted_rows df) |}.
Proof.
  intros H. destruct (renamed_labels df H) as (Hcase & Hact & Htime).
  pose proof (sorted_good df H) as Hgood.
  pose proof (cast_good df H) as Hcast.
  unfold preprocess_data_try, astype_str, rename.
  fold (renamed df).
  rewrite (proj2 (has_column_In CASE {| columns := renamed df; rows := rows df |}))
    by exact Hcase.
  cbn [bind columns rows].
  rewrite (proj2 (has_column_In ACTIVITY
             {| columns := renamed df;
                rows := map (map_labelled (astype_str_cell py_str astype_missing) CASE
                               (renamed df))
                          (rows df) |})) by exact Hact.
  cbn [bind columns rows]. rewrite map_map. fold (cast (renamed df)).
  unfold sort_values. cbn [mapM columns rows].
  unfold check_key. cbn [columns].
  rewrite !(count_label_unique _ _ (ef_distinct df H)) by assumption.
  cbn [bind]. unfold check_comparable. cbn [columns rows].
  rewrite (comparable_uniform KStr) by (apply good_case_column; exact Hcast).
  rewrite (comparable_uniform KTime) by (apply good_time_column; exact Hcast).
  cbn [bind]. fold (rows_leb [CASE; TIME] (renamed df)).
  fold (sorted_rows df).
  unfold groupby_diff, column.
  rewrite (proj2 (has_column_In CASE {| columns := renamed df; rows := sorted_rows df |}))
    by exact Hcase.
  rewrite (proj2 (has_column_In TIME {| columns := renamed df; rows := sorted_rows df |}))
    by exact Htime.
  cbn [bind columns rows].
  rewrite (as_datetime64_ok _ _ (good_datetime _ _ Hgood)). cbn [bind].
  rewrite checked_diffs;
    [| rewrite !length_map; reflexivity
     | intros s t Hs Ht; exact (sorted_span df s t H Hs Ht)].
  cbn [bind].
  unfold groupby_cumcount, column.
  rewrite (proj2 (has_column_In CASE _)) by (apply In_set_label; exact Hcase).
  cbn [bind]. unfold setitem. cbn [columns rows].
  rewrite case_column_kept.
  - rewrite group_cumcount_present by (apply good_keys_present; exact Hgood).
    rewrite sequence_numbers_present.
    f_equal. f_equal.
    apply (annotate_fusion (renamed df) [] (sorted_rows df)).
  - exact Hgood.
  - rewrite length_map, zip_with_length; rewrite !length_map;
      [reflexivity | rewrite group_prev_length; rewrite !length_map; reflexivity].
Qed.
End PreprocessShape.

(** ** Preprocessing: the rows of the result *)

Lemma finish_length (labels : list string) (row : list cell) (d n : cell) :
  length row = length labels ->
  length (finish labels row d n) = length (set_label SEQUENCE (set_label DURATION labels)).
Proof.
  intros H. unfold finish. apply set_cell_length, set_cell_length. exact H.
Qed.

Lemma finish_lookup_other (labels : list string) (row : list cell) (d n : cell)
    (l : string) :
  length row = length labels -> l <> DURATION -> l <> SEQUENCE ->
  lookup l (set_label SEQUENCE (set_label DURATION labels)) (finish labels row d n) =
    lookup l labels row.
Proof.
  intros Hlen Hd Hs. unfold finish.
  rewrite lookup_set_cell_other; [| assumption | apply set_cell_length; assumption].
  apply lookup_set_cell_other; assumption.
Qed.

Lemma finish_duration (labels : list string) (row : list cell) (d n : cell) :
  length row = length labels ->
  lookup DURATION (set_label SEQUENCE (set_label DURATION labels)) (finish labels row d n)
    = Some d.
Proof.
  intros Hlen. unfold finish.
  rewrite lookup_set_cell_other; [| discriminate | apply set_cell_length; assumption].
  apply lookup_set_cell_same. assumption.
Qed.

Lemma finish_sequence (labels : list string) (row : list cell) (d n : cell) :
  length row = length labels ->
  lookup SEQUENCE (set_label SEQUENCE (set_label DURATION labels)) (finish labels row d n)
    = Some n.
Proof.
  intros Hlen. unfold finish. apply lookup_set_cell_same, set_cell_length. assumption.
Qed.

(** Row by row, the result is a sorted row with two cells set. *)
Lemma annotate_Forall2 (labels : list string) (seen rest : list (list cell)) :
  Forall2 (fun row out => exists d n, out = finish labels row d n)
          rest (annotate labels seen rest).
Proof.
  revert seen. induction rest as [| row rest IH]; intros seen; simpl; constructor; eauto.
Qed.

Lemma annotate_In (labels : list string) (seen rest : list (list cell)) (out : list cell) :
  In out (annotate labels seen rest) ->
  exists row d n, In row rest /\ out = finish labels row d n.
Proof.
  revert seen. induction rest as [| row rest IH]; intros seen; simpl; [tauto |].
  intros [<- | Hin].
  - eexists _, _, _. split; [left; reflexivity | reflexivity].
  - destruct (IH _ Hin) as (r & d & n & Hr & ->). eexists _, _, _. split; [right |]; eauto.
Qed.

Lemma annotate_length (labels : list string) (seen rest : list (list cell)) :
  length (annotate labels seen rest) = length rest.
Proof.
  revert seen. induction rest as [| row rest IH]; intros seen; simpl; [| rewrite IH];
    reflexivity.
Qed.

(** The row found at a position of the result, and the rows before it. *)
Lemma annotate_split (labels : list string) (seen rest : list (list cell))
    (pre post : list (list cell)) (out : list cell) :
  annotate labels seen rest = pre ++ out :: post ->
  exists before row after,
    rest = before ++ row :: after /\
    pre = annotate labels seen before /\
    post = annotate labels (row :: rev before ++ seen) after /\
    out = finish labels row
            (fillna0 (total_seconds seconds_of_ns
               (elapsed_ns (time_val labels row)
                  (find_key (case_key labels row)
                     (map (fun p => (case_key labels p, time_val labels p))
                          (rev before ++ seen))))))
            (CInt (count_key (case_key labels row)
                     (map (case_key labels) (rev before ++ seen)) + 1)).
Proof.
  revert seen rest. induction pre as [| p pre IH]; intros seen rest Heq.
  - destruct rest as [| row rest]; [discriminate |]. simpl in Heq.
    injection Heq as <- <-. exists [], row, rest. repeat split.
  - destruct rest as [| row rest]; [discriminate |]. simpl in Heq.
    injection Heq as <- Heq.
    destruct (IH _ _ Heq) as (before & r & after & -> & -> & -> & ->).
    exists (row :: before), r, after. simpl. rewrite <- !app_assoc. repeat split.
Qed.

(** The order of the events of a log: by case, and by time within a case, a
    missing timestamp after all others. *)
Definition time_le (a b : cell) : Prop :=
  match a, b with
  | CTime s, CTime t => s <= t
  | CTime _, CNaT | CNaT, CNaT => True
  | _, _ => False
  end.

Definition event_le (labels : list string) (r1 r2 : list cell) : Prop :=
  exists c1 c2,
    cell_at CASE labels r1 = CStr c1 /\ cell_at CASE labels r2 = CStr c2 /\
    (String.ltb c1 c2 = true \/
     (c1 = c2 /\ time_le (cell_at TIME labels r1) (cell_at TIME labels r2))).

Lemma cell_leb_time_le (a b : cell) :
  is_datetime a = true -> is_datetime b = true -> cell_leb a b = true -> time_le a b.
Proof.
  destruct a, b; simpl; try discriminate; intros _ _ H; try exact I.
  apply Z.leb_le. exact H.
Qed.

Lemma rows_leb_event (labels : list string) (r1 r2 : list cell) :
  good_row labels r1 -> good_row labels r2 ->
  rows_leb [CASE; TIME] labels r1 r2 = true -> event_le labels r1 r2.
Proof.
  intros (_ & (c1 & H1) & _ & T1) (_ & (c2 & H2) & _ & T2).
  unfold rows_leb, row_keys, event_le. cbn [map keys_leb].
  assert (E1 : cell_at CASE labels r1 = CStr c1) by (unfold cell_at; rewrite H1; reflexivity).
  assert (E2 : cell_at CASE labels r2 = CStr c2) by (unfold cell_at; rewrite H2; reflexivity).
  rewrite E1, E2. cbn [cell_leb]. intros H. exists c1, c2. repeat split.
  rewrite string_ltb_leb.
  destruct (String.leb c2 c1) eqn:L21; cbn [negb] in *; [| auto].
  destruct (String.leb c1 c2) eqn:L12; cbn [negb] in H; [| discriminate].
  right. split; [apply String.leb_antisym; assumption |].
  apply cell_leb_time_le; try assumption.
  destruct (cell_leb_total (cell_at TIME labels r1) (cell_at TIME labels r2)) as [Hle | Hle];
    [assumption |].
  rewrite Hle in H. cbn [negb] in H.
  destruct (cell_leb (cell_at TIME labels r1) (cell_at TIME labels r2));
    [reflexivity | discriminate].
Qed.

Lemma finish_event_le (labels : list string) (r1 r2 : list cell) (d1 n1 d2 n2 : cell) :
  good_row labels r1 -> good_row labels r2 -> event_le labels r1 r2 ->
  event_le (set_label SEQUENCE (set_label DURATION labels))
    (finish labels r1 d1 n1) (finish labels r2 d2 n2).
Proof.
  intros (L1 & _) (L2 & _). unfold event_le, cell_at.
  rewrite !finish_lookup_other by (assumption || discriminate). tauto.
Qed.

Lemma annotate_sorted (labels : list string) (seen rest : list (list cell)) :
  Forall (good_row labels) rest ->
  StronglySorted (fun a b => rows_leb [CASE; TIME] labels a b = true) rest ->
  StronglySorted (event_le (set_label SEQUENCE (set_label DURATION labels)))
    (annotate labels seen rest).
Proof.
  intros Hgood Hsorted. revert seen.
  induction Hsorted as [| row rest Hs IH Hrow]; intros seen; simpl; [constructor |].
  inversion Hgood as [| ? ? Grow Grest]; subst.
  constructor; [apply IH; assumption |].
  apply Forall_forall. intros out Hout.
  apply annotate_In in Hout as (r & d & n & Hr & ->).
  rewrite Forall_forall in Hrow, Grest.
  apply finish_event_le; auto. apply rows_leb_event; auto.
Qed.

Definition case_of (df : frame) (row : list cell) : cell := cell_at CASE (columns df) row.
Definition time_of (df : frame) (row : list cell) : cell := cell_at TIME (columns df) row.
Definition duration_of (df : frame) (row : list cell) : option cell :=
  lookup DURATION (columns df) row.
Definition sequence_of (df : frame) (row : list cell) : option cell :=
  lookup SEQUENCE (columns df) row.

Section PreprocessTheorems.

Lemma preprocess_data_event_frame (df : frame) :
  event_frame df ->
  preprocess_data py_str astype_missing seconds_of_ns df =
    {| columns := set_label SEQUENCE (set_label DURATION (renamed df));
       rows := annotate (renamed df) [] (sorted_rows df) |}.
Proof.
  intros H. unfold preprocess_data.
  rewrite (ef_not_empty df H), (preprocess_shape df H). reflexivity.
Qed.

Lemma sorted_rows_sorted (df : frame) :
  StronglySorted (fun a b => rows_leb [CASE; TIME] (renamed df) a b = true)
    (sorted_rows df).
Proof.
  apply sort_sorted; [apply rows_leb_total | apply rows_leb_trans].
Qed.

(** C1 (as amended): on an event frame (not empty, columns "case_id",
    "activity" and "timestamp", labels distinct once renamed, no case or
    activity missing, the timestamp column a datetime column whose values
    lie within 2^63 ns of each other) [preprocess_data] renames "case_id" to
    "case:concept:name", "activity" to "concept:name", "timestamp" to
    "time:timestamp" and "resource" to "org:resource" and no other label,
    leaves a string in the case and activity cells of every row, and returns
    the rows sorted by case and, within a case, by timestamp; the rows
    returned are the rows given, in that order, with the two casts applied
    and nothing but the duration and sequence cells set. *)
Theorem preprocess_data_renames_casts_sorts (df : frame) :
  event_frame df ->
  let out := preprocess_data py_str astype_missing seconds_of_ns df in
  let labels := map (rename_label pm4py_names) (columns df) in
  (exists extra, columns out = map (rename_label pm4py_names) (columns df) ++ extra) /\
  rename_label pm4py_names "case_id" = CASE /\
  rename_label pm4py_names "activity" = ACTIVITY /\
  rename_label pm4py_names "timestamp" = TIME /\
  rename_label pm4py_names "resource" = "org:resource" /\
  (forall l, ~ In l ["case_id"; "activity"; "timestamp"; "resource"] ->
     rename_label pm4py_names l = l) /\
  Forall (fun row => exists c a,
            lookup CASE (columns out) row = Some (CStr c) /\
            lookup ACTIVITY (columns out) row = Some (CStr a)) (rows out) /\
  StronglySorted (event_le (columns out)) (rows out) /\
  (exists sorted,
     Permutation sorted (map (cast labels) (rows df)) /\
     Forall2 (fun row o => forall l, l <> DURATION -> l <> SEQUENCE ->
                lookup l (columns out) o = lookup l labels row)
             sorted (rows out)).
Proof.
  intros H out labels. subst out labels.
  rewrite (preprocess_data_event_frame df H). cbn [columns rows].
  pose proof (sorted_good df H) as Hgood.
  assert (Hrows : exists sorted,
     Permutation sorted (map (cast (renamed df)) (rows df)) /\
     Forall2 (fun row o => forall l, l <> DURATION -> l <> SEQUENCE ->
                lookup l (set_label SEQUENCE (set_label DURATION (renamed df))) o =
                lookup l (renamed df) row)
             sorted (annotate (renamed df) [] (sorted_rows df))).
  { exists (sorted_rows df). split; [unfold sorted_rows; apply sort_perm |].
    pose proof (annotate_Forall2 (renamed df) [] (sorted_rows df)) as Hall.
    revert Hgood Hall. generalize (annotate (renamed df) [] (sorted_rows df)).
    generalize (sorted_rows df). intros rs os Hgood Hall.
    induction Hall as [| r o rs os (d & n & ->) _ IH]; constructor.
    - intros l Hd Hs. apply finish_lookup_other; [apply (Forall_inv Hgood) | |];
        assumption.
    - apply IH. exact (Forall_inv_tail Hgood). }
  split; [| repeat split]; try exact Hrows.
  - destruct (set_label_prefix DURATION (renamed df)) as (e1 & ->).
    destruct (set_label_prefix SEQUENCE (renamed df ++ e1)) as (e2 & ->).
    exists (e1 ++ e2). rewrite app_assoc. reflexivity.
  - intros l Hl. simpl in Hl. unfold rename_label, pm4py_names.
    repeat match goal with
           | |- context [String.eqb ?a l] => destruct (String.eqb_spec a l); [tauto |]
           end.
    reflexivity.
  - apply Forall_forall. intros out Hout.
    apply annotate_In in Hout as (r & d & n & Hr & ->).
    rewrite Forall_forall in Hgood. destruct (Hgood r Hr) as (Hlen & (c & Hc) & (a & Ha) & _).
    exists c, a. rewrite !finish_lookup_other by (assumption || discriminate). tauto.
  - apply annotate_sorted; [exact Hgood | apply sorted_rows_sorted].
Qed.
End PreprocessTheorems.

(** ** Preprocessing: durations *)

(** The seconds from one timestamp to the next, as [diff], [total_seconds]
    and [fillna(0)] leave them: the float [total_seconds] gives for the
    nanoseconds between the two, 0 when either timestamp is missing. *)
Definition elapsed_seconds (previous current : cell) : cell :=
  match previous, current with
  | CTime p, CTime t => CNum (seconds_of_ns (t - p))
  | _, _ => CNum 0
  end.

Lemma find_key_absent (labels : list string) (c : string) (seen : list (list cell))
    (rest : list (cell * option Z)) :
  Forall (fun p => case_key labels p <> CStr c) seen ->
  find_key (CStr c)
    (map (fun p => (case_key labels p, time_val labels p)) seen ++ rest) =
  find_key (CStr c) rest.
Proof.
  induction 1 as [| p seen Hp _ IH]; simpl; [reflexivity |].
  destruct (cell_eqb (case_key labels p) (CStr c)) eqn:Heq; [| exact IH].
  apply cell_eqb_str_r in Heq. contradiction.
Qed.

Lemma StronglySorted_app_r {A : Type} (R : A -> A -> Prop) (l1 l2 : list A) :
  StronglySorted R (l1 ++ l2) -> StronglySorted R l2.
Proof.
  induction l1 as [| x l1 IH]; simpl; [auto |].
  intros H. apply StronglySorted_inv in H as [H _]. auto.
Qed.

Lemma string_ltb_irrefl (c : string) : String.ltb c c = false.
Proof.
  rewrite string_ltb_leb. destruct (String.leb_total c c) as [-> | ->]; reflexivity.
Qed.

Lemma string_ltb_asym (a b : string) :
  String.ltb a b = true -> String.ltb b a = true -> False.
Proof.
  rewrite !string_ltb_leb. destruct (String.leb_total a b) as [-> | ->]; simpl;
    discriminate || (intros; discriminate).
Qed.

(** Between two rows of one case a sorted log holds only rows of that case. *)
Lemma same_case_between (labels : list string) (x m y : list cell) (c : string) :
  event_le labels x m -> event_le labels m y ->
  cell_at CASE labels x = CStr c -> cell_at CASE labels y = CStr c ->
  cell_at CASE labels m = CStr c.
Proof.
  intros (c1 & c2 & Hx & Hm & Hxm) (c2' & c3 & Hm' & Hy & Hmy) Ex Ey.
  rewrite Hx in Ex. injection Ex as ->. rewrite Hy in Ey. injection Ey as ->.
  rewrite Hm in Hm'. injection Hm' as <-. rewrite Hm. f_equal.
  destruct Hxm as [Hlt | [-> _]]; [| reflexivity].
  destruct Hmy as [Hlt' | [-> _]]; [| reflexivity].
  destruct (string_ltb_asym _ _ Hlt Hlt').
Qed.

Lemma good_case_key (labels : list string) (row : list cell) (d n : cell) :
  good_row labels row ->
  cell_at CASE (set_label SEQUENCE (set_label DURATION labels)) (finish labels row d n) =
    case_key labels row /\
  cell_at TIME (set_label SEQUENCE (set_label DURATION labels)) (finish labels row d n) =
    cell_at TIME labels row.
Proof.
  intros (Hlen & _). unfold case_key, cell_at.
  rewrite !finish_lookup_other by (assumption || discriminate). tauto.
Qed.

(** Rows of the result that are not of a given case come from sorted rows
    that are not of that case. *)
Lemma annotate_other_case (labels : list string) (seen rest : list (list cell))
    (key : cell) :
  Forall (good_row labels) rest ->
  Forall (fun p => cell_at CASE (set_label SEQUENCE (set_label DURATION labels)) p <> key)
         (annotate labels seen rest) ->
  Forall (fun p => case_key labels p <> key) rest.
Proof.
  intros Hgood. revert seen. induction Hgood as [| row rest Hrow _ IH]; intros seen;
    simpl; [constructor |].
  intros H. inversion H as [| ? ? Hhead Htail]; subst.
  constructor; [| eapply IH; exact Htail].
  rewrite (proj1 (good_case_key _ _ _ _ Hrow)) in Hhead. exact Hhead.
Qed.

Lemma elapsed_of_timedelta (labels : list string) (prev row : list cell) :
  fillna0 (total_seconds seconds_of_ns (elapsed_ns (time_val labels row) (Some (time_val labels prev)))) =
  elapsed_seconds (cell_at TIME labels prev) (cell_at TIME labels row).
Proof.
  unfold time_val, elapsed_seconds.
  destruct (cell_at TIME labels row), (cell_at TIME labels prev); reflexivity.
Qed.

Lemma annotate_durations (L : list string) (S pre post : list (list cell))
    (row : list cell) :
  Forall (good_row L) S ->
  StronglySorted (fun a b => rows_leb [CASE; TIME] L a b = true) S ->
  annotate L [] S = pre ++ row :: post ->
  let LO := set_label SEQUENCE (set_label DURATION L) in
  (Forall (fun p => cell_at CASE LO p <> cell_at CASE LO row) pre ->
   lookup DURATION LO row = Some (CNum 0)) /\
  (forall earlier prev mid,
     pre = earlier ++ prev :: mid ->
     cell_at CASE LO prev = cell_at CASE LO row ->
     Forall (fun p => cell_at CASE LO p <> cell_at CASE LO row) mid ->
     mid = [] /\
     lookup DURATION LO row =
       Some (elapsed_seconds (cell_at TIME LO prev) (cell_at TIME LO row))).
Proof.
  intros Hgood Hsorted Hsplit LO. subst LO.
  apply annotate_split in Hsplit as (before & r & after & HS & Hpre & _ & Hrow).
  rewrite app_nil_r in Hrow.
  assert (Gall : Forall (good_row L) (before ++ r :: after)) by (rewrite <- HS; exact Hgood).
  apply Forall_app in Gall as [Gbefore Gr].
  apply Forall_inv in Gr as Grow.
  destruct (Grow) as (Hlen & (c & Hc) & _).
  assert (Hkey : case_key L r = CStr c) by (unfold case_key, cell_at; rewrite Hc; reflexivity).
  assert (Hcase : cell_at CASE (set_label SEQUENCE (set_label DURATION L)) row = CStr c).
  { rewrite Hrow, (proj1 (good_case_key _ _ _ _ Grow)). exact Hkey. }
  assert (Htime : cell_at TIME (set_label SEQUENCE (set_label DURATION L)) row =
                  cell_at TIME L r).
  { rewrite Hrow. apply good_case_key. exact Grow. }
  rewrite Hcase, Htime. split.
  - intros Hfirst. rewrite Hpre in Hfirst.
    apply annotate_other_case in Hfirst; [| exact Gbefore].
    rewrite Hrow, finish_duration by exact Hlen. rewrite Hkey.
    rewrite <- (app_nil_r (map _ (rev before))).
    rewrite find_key_absent by (apply Forall_rev; exact Hfirst).
    cbn [find_key]. destruct (time_val L r); reflexivity.
  - intros earlier prev mid Hpre' Hsame Hmid.
    rewrite Hpre' in Hpre. symmetry in Hpre.
    apply annotate_split in Hpre as (b1 & sp & b2 & Hb & _ & Hmid' & Hprev).
    rewrite Hb in Gbefore.
    apply Forall_app in Gbefore as [Gb1 Gsp].
    apply Forall_inv in Gsp as Gprev. apply Forall_inv_tail in Gsp as Gb2.
    assert (Hpkey : case_key L sp = CStr c).
    { rewrite <- Hsame, Hprev. symmetry. apply good_case_key. exact Gprev. }
    rewrite Hmid' in Hmid.
    apply annotate_other_case in Hmid; [| exact Gb2].
    assert (Hb2 : b2 = []).
    { destruct b2 as [| m b2]; [reflexivity | exfalso].
      apply Forall_inv in Hmid as Hm. apply Hm.
      apply Forall_inv in Gb2 as Gm.
      rewrite HS, Hb in Hsorted.
      rewrite <- app_assoc in Hsorted. apply StronglySorted_app_r in Hsorted.
      simpl in Hsorted.
      apply StronglySorted_inv in Hsorted as [Hsorted' Hsp].
      apply StronglySorted_inv in Hsorted' as [_ Hm'].
      apply Forall_inv in Hsp as Hspm.
      rewrite Forall_forall in Hm'.
      assert (Hmr : rows_leb [CASE; TIME] L m r = true).
      { apply Hm'. apply in_or_app. right. left. reflexivity. }
      apply (same_case_between L sp m r c); try assumption;
        apply rows_leb_event; assumption. }
    rewrite Hmid', Hb2. split; [reflexivity |].
    rewrite Hprev, (proj2 (good_case_key _ _ _ _ Gprev)).
    rewrite Hrow, finish_duration by exact Hlen. rewrite Hkey.
    rewrite Hb, Hb2, rev_app_distr. cbn [rev app map find_key].
    rewrite Hpkey, (proj2 (cell_eqb_str_l c (CStr c)) eq_refl).
    rewrite elapsed_of_timedelta. reflexivity.
Qed.

Section DurationTheorem.

(** C2 (as amended): in the frame returned for an event frame, the first
    event of every case has [duration_seconds] 0, and every other event
    stands right after the previous event of its case and has as
    [duration_seconds] the seconds elapsed since the timestamp of that
    event, as the float [total_seconds] gives for the nanoseconds between
    the two (0 when one of the two timestamps is missing). *)
Theorem preprocess_data_durations (df : frame) :
  event_frame df ->
  let out := preprocess_data py_str astype_missing seconds_of_ns df in
  forall pre row post,
    rows out = pre ++ row :: post ->
    (Forall (fun p => case_of out p <> case_of out row) pre ->
     duration_of out row = Some (CNum 0)) /\
    (forall earlier prev mid,
       pre = earlier ++ prev :: mid ->
       case_of out prev = case_of out row ->
       Forall (fun p => case_of out p <> case_of out row) mid ->
       mid = [] /\
       duration_of out row =
         Some (elapsed_seconds (time_of out prev) (time_of out row))).
Proof.
  intros H out pre row post. subst out.
  rewrite (preprocess_data_event_frame df H).
  unfold case_of, time_of, duration_of. cbn [columns rows].
  intros Hsplit.
  apply (annotate_durations (renamed df) (sorted_rows df) pre post row
           (sorted_good df H) (sorted_rows_sorted df) Hsplit).
Qed.
End DurationTheorem.

(** ** Preprocessing: sequence numbers *)

(** The rows of case [c]. *)
Definition in_case (labels : list string) (c : string) (row : list cell) : bool :=
  cell_eqb (cell_at CASE labels row) (CStr c).

Lemma in_case_finish (labels : list string) (c : string) (row : list cell) (d n : cell) :
  good_row labels row ->
  in_case (set_label SEQUENCE (set_label DURATION labels)) c (finish labels row d n) =
  in_case labels c row.
Proof.
  intros Hrow. unfold in_case. rewrite (proj1 (good_case_key _ _ _ _ Hrow)). reflexivity.
Qed.

Lemma annotate_in_case (labels : list string) (seen rest : list (list cell)) (c : string) :
  Forall (good_row labels) rest ->
  length (filter (in_case (set_label SEQUENCE (set_label DURATION labels)) c)
            (annotate labels seen rest)) =
  length (filter (in_case labels c) rest).
Proof.
  intros Hgood. revert seen. induction Hgood as [| row rest Hrow _ IH]; intros seen;
    [reflexivity |].
  cbn [annotate filter]. rewrite (in_case_finish _ _ _ _ _ Hrow).
  destruct (in_case labels c row); cbn [length]; rewrite IH; reflexivity.
Qed.

Lemma annotate_sequences (labels : list string) (seen rest : list (list cell)) (c : string) :
  Forall (good_row labels) rest ->
  map (lookup SEQUENCE (set_label SEQUENCE (set_label DURATION labels)))
      (filter (in_case (set_label SEQUENCE (set_label DURATION labels)) c)
         (annotate labels seen rest)) =
  map (fun i => Some (CInt (count_key (CStr c) (map (case_key labels) seen) + Z.of_nat i)))
      (seq 1 (length (filter (in_case labels c) rest))).
Proof.
  intros Hgood. revert seen. induction Hgood as [| row rest Hrow _ IH]; intros seen;
    [reflexivity |].
  cbn [annotate filter]. rewrite (in_case_finish _ _ _ _ _ Hrow).
  specialize (IH (row :: seen)). cbn [map count_key] in IH.
  destruct (in_case labels c row) eqn:Heq; unfold in_case in Heq;
    fold (case_key labels row) in Heq; rewrite Heq in IH.
  - apply cell_eqb_str_r in Heq. cbn [length seq map].
    rewrite finish_sequence by apply Hrow. rewrite Heq. f_equal.
    rewrite IH. rewrite <- (seq_shift _ 1), map_map. apply map_ext. intros i.
    do 2 f_equal. lia.
  - rewrite IH. apply map_ext. intros i. do 2 f_equal.
Qed.

Section SequenceTheorem.

(** C3 (as amended): in the frame returned for an event frame, the
    [activity_sequence] values of the events of a case, in the order of the
    frame, are 1, 2, ..., n, n being the number of events of the case. *)
Theorem preprocess_data_sequences (df : frame) :
  event_frame df ->
  let out := preprocess_data py_str astype_missing seconds_of_ns df in
  forall c,
    let events := filter (in_case (columns out) c) (rows out) in
    map (sequence_of out) events =
      map (fun i => Some (CInt (Z.of_nat i))) (seq 1 (length events)).
Proof.
  intros H out c events. subst events out.
  rewrite (preprocess_data_event_frame df H).
  unfold sequence_of. cbn [columns rows].
  pose proof (sorted_good df H) as Hgood.
  rewrite (annotate_in_case _ [] _ c Hgood).
  exact (annotate_sequences _ [] _ c Hgood).
Qed.
End SequenceTheorem.

(** ** Preprocessing: what is kept *)

Lemma rename_label_fixed (l x : string) :
  rename_label pm4py_names l = x ->
  ~ In x [CASE; ACTIVITY; TIME; "org:resource"] -> l = x.
Proof.
  unfold rename_label, pm4py_names. simpl In.
  repeat match goal with
         | |- context [String.eqb ?a l] => destruct (String.eqb_spec a l)
         end; intros <-; tauto.
Qed.

Lemma finish_new_columns (labels : list string) (row : list cell) (d n : cell) :
  ~ In DURATION labels -> ~ In SEQUENCE labels ->
  set_label SEQUENCE (set_label DURATION labels) = labels ++ [DURATION; SEQUENCE] /\
  finish labels row d n = row ++ [d; n].
Proof.
  intros Hd Hs. unfold finish, set_cell, set_label.
  assert (E1 : existsb (String.eqb DURATION) labels = false).
  { destruct (existsb (String.eqb DURATION) labels) eqn:E; [| reflexivity].
    apply existsb_eqb_In in E. contradiction. }
  rewrite E1.
  assert (E2 : existsb (String.eqb SEQUENCE) (labels ++ [DURATION]) = false).
  { destruct (existsb (String.eqb SEQUENCE) (labels ++ [DURATION])) eqn:E; [| reflexivity].
    apply existsb_eqb_In in E. apply in_app_or in E as [E | [E | []]];
      [contradiction | discriminate]. }
  rewrite E2, <- !app_assoc. split; reflexivity.
Qed.

Lemma annotate_keeps_rows (labels : list string) (seen rest : list (list cell)) :
  ~ In DURATION labels -> ~ In SEQUENCE labels ->
  Forall (good_row labels) rest ->
  map (firstn (length labels)) (annotate labels seen rest) = rest.
Proof.
  intros Hd Hs Hgood. revert seen. induction Hgood as [| row rest Hrow _ IH];
    intros seen; [reflexivity |].
  cbn [annotate map]. rewrite IH. f_equal.
  rewrite (proj2 (finish_new_columns labels row _ _ Hd Hs)).
  destruct Hrow as (Hlen & _). rewrite <- Hlen, firstn_app, Nat.sub_diag, firstn_all.
  simpl. apply app_nil_r.
Qed.

Section FrameTheorem.

(** C10 (as amended): for an event frame that has no "duration_seconds" and
    no "activity_sequence" column yet, the result has the renamed columns
    followed by these two, as many rows as the input, and its rows, cut to
    the width of the input, are the input rows in another order with the
    case and activity cells replaced by their string form; a cell that
    already holds a string, and every cell of any other column, is
    unchanged. *)
Theorem preprocess_data_keeps_rows (df : frame) :
  event_frame df ->
  ~ In DURATION (columns df) -> ~ In SEQUENCE (columns df) ->
  let out := preprocess_data py_str astype_missing seconds_of_ns df in
  let labels := map (rename_label pm4py_names) (columns df) in
  columns out = labels ++ [DURATION; SEQUENCE] /\
  length (rows out) = length (rows df) /\
  Permutation (map (firstn (length (columns df))) (rows out))
              (map (cast labels) (rows df)) /\
  (forall row l,
     lookup l labels (cast labels row) =
       if String.eqb l CASE || String.eqb l ACTIVITY
       then option_map (astype_str_cell py_str astype_missing) (lookup l labels row)
       else lookup l labels row) /\
  (forall s, astype_str_cell py_str astype_missing (CStr s) = CStr s).
Proof.
  intros H Hd Hs out labels. subst out labels.
  rewrite (preprocess_data_event_frame df H). cbn [columns rows].
  fold (renamed df).
  assert (Hd' : ~ In DURATION (renamed df)).
  { unfold renamed. rewrite in_map_iff. intros (l & Hl & Hin).
    apply rename_label_fixed in Hl.
    - subst l. contradiction.
    - simpl. intros [E | [E | [E | [E | []]]]]; discriminate. }
  assert (Hs' : ~ In SEQUENCE (renamed df)).
  { unfold renamed. rewrite in_map_iff. intros (l & Hl & Hin).
    apply rename_label_fixed in Hl.
    - subst l. contradiction.
    - simpl. intros [E | [E | [E | [E | []]]]]; discriminate. }
  destruct (finish_new_columns (renamed df) [] CNull CNull Hd' Hs') as [Hcols _].
  rewrite Hcols.
  split; [reflexivity |]. split; [| split; [| split]].
  - rewrite annotate_length. unfold sorted_rows. rewrite sort_length, length_map.
    reflexivity.
  - replace (length (columns df)) with (length (renamed df))
      by (unfold renamed; apply length_map).
    rewrite (annotate_keeps_rows _ _ _ Hd' Hs' (sorted_good df H)).
    unfold sorted_rows. apply sort_perm.
  - intros row l. apply cast_lookup.
  - reflexivity.
Qed.
End FrameTheorem.
End PreprocessProperties.

(** ** Examples *)

(** An instance of [py_str]: exact on integers and on missing values, which
    is all that the examples below hold, besides strings, in the columns that
    are cast. *)
Definition sample_str (c : cell) : string :=
  match c with
  | CStr s => s
  | CInt z => DecimalString.NilZero.string_of_int (Z.to_int z)
  | CNull => "None"
  | CNaT => "NaT"
  | CNum q =>
      (DecimalString.NilZero.string_of_int (Z.to_int (Qnum q)) ++ "/" ++
       DecimalString.NilZero.string_of_int (Z.to_int (Z.pos (Qden q))))%string
  | CTime ns => DecimalString.NilZero.string_of_int (Z.to_int ns)
  end.

(** An instance of [astype_missing]: pandas 3 leaves a missing value as it
    is. *)
Definition sample_missing (c : cell) : cell := c.

(** An instance of [seconds_of_ns]: the float64 quotient of the nanoseconds,
    as a float, by 1e9 (pandas 2 and later divide the int64 values by
    10^9). *)
Definition sample_seconds (ns : Z) : Q :=
  round64 (round64 (inject_Z ns) / 1000000000)%Q.

(** Five events of two orders, as [collect_process_events] returns them. *)
Definition sample_events : frame :=
  {| columns := ["case_id"; "activity"; "timestamp"; "resource"; "order_value"];
     rows := [ [CInt 7; CStr "Faturamento"; CTime 5000000000; CStr "ana"; CInt 120];
               [CInt 10; CStr "Pedido"; CNaT; CStr "rui"; CInt 80];
               [CInt 7; CStr "Pedido"; CTime 2000000000; CStr "ana"; CInt 120];
               [CInt 10; CStr "Aprovacao"; CTime 2000000000; CStr "rui"; CInt 80];
               [CInt 7; CStr "Aprovacao"; CTime 2000000000; CStr "ana"; CInt 120] ] |}.

Lemma sample_events_ok : event_frame sample_events.
Proof.
  constructor.
  - repeat constructor.
  - reflexivity.
  - repeat constructor; simpl; intuition discriminate.
  - simpl; auto.
  - simpl; auto.
  - simpl; auto.
  - repeat constructor.
  - repeat constructor.
  - apply within_spanb_ok. reflexivity.
Qed.

Lemma preprocess_data_renames_casts_sorts_witness :
  event_frame sample_events /\
  let out := preprocess_data sample_str sample_missing sample_seconds sample_events in
  (exists extra,
     columns out = map (rename_label pm4py_names) (columns sample_events) ++ extra) /\
  rename_label pm4py_names "case_id" = CASE /\
  rename_label pm4py_names "activity" = ACTIVITY /\
  rename_label pm4py_names "timestamp" = TIME /\
  rename_label pm4py_names "resource" = "org:resource" /\
  (forall l, ~ In l ["case_id"; "activity"; "timestamp"; "resource"] ->
     rename_label pm4py_names l = l) /\
  Forall (fun row => exists c a,
            lookup CASE (columns out) row = Some (CStr c) /\
            lookup ACTIVITY (columns out) row = Some (CStr a)) (rows out) /\
  StronglySorted (event_le (columns out)) (rows out) /\
  (exists sorted,
     Permutation sorted
       (map (cast sample_str sample_missing
               (map (rename_label pm4py_names) (columns sample_events)))
            (rows sample_events)) /\
     Forall2 (fun row o => forall l, l <> DURATION -> l <> SEQUENCE ->
                lookup l (columns out) o =
                lookup l (map (rename_label pm4py_names) (columns sample_events)) row)
             sorted (rows out)).
Proof.
  split; [exact sample_events_ok |].
  exact (preprocess_data_renames_casts_sorts sample_str sample_missing sample_seconds
           sample_events sample_events_ok).
Defined.

(** The frame returned for [sample_events]: order 10 before order 7 (the
    case identifiers are ordered as strings), the event without a timestamp
    last in its case. *)
Example preprocess_sample_events :
  preprocess_data sample_str sample_missing sample_seconds sample_events =
    {| columns := [ CASE; ACTIVITY; TIME; "org:resource"; "order_value";
                    DURATION; SEQUENCE ];
       rows :=
         [ [ CStr "10"; CStr "Aprovacao"; CTime 2000000000; CStr "rui"; CInt 80;
             CNum 0; CInt 1 ];
           [ CStr "10"; CStr "Pedido"; CNaT; CStr "rui"; CInt 80; CNum 0; CInt 2 ];
           [ CStr "7"; CStr "Pedido"; CTime 2000000000; CStr "ana"; CInt 120;
             CNum 0; CInt 1 ];
           [ CStr "7"; CStr "Aprovacao"; CTime 2000000000; CStr "ana"; CInt 120;
             CNum 0; CInt 2 ];
           [ CStr "7"; CStr "Faturamento"; CTime 5000000000; CStr "ana"; CInt 120;
             CNum 3; CInt 3 ] ] |}.
Proof. reflexivity. Qed.

Lemma preprocess_data_durations_witness :
  event_frame sample_events /\
  let out := preprocess_data sample_str sample_missing sample_seconds sample_events in
  let first_of_7 :=
    [ CStr "7"; CStr "Pedido"; CTime 2000000000; CStr "ana"; CInt 120; CNum 0; CInt 1 ] in
  let last_of_7 :=
    [ CStr "7"; CStr "Faturamento"; CTime 5000000000; CStr "ana"; CInt 120;
      CNum 3; CInt 3 ] in
  duration_of out first_of_7 = Some (CNum 0) /\
  duration_of out last_of_7 =
    Some (elapsed_seconds sample_seconds (CTime 2000000000) (CTime 5000000000)).
Proof.
  split; [exact sample_events_ok |].
  intros out first_of_7 last_of_7.
  pose proof (preprocess_data_durations sample_str sample_missing sample_seconds sample_events sample_events_ok)
    as Hspec.
  split.
  - refine (proj1 (Hspec (firstn 2 (rows out)) first_of_7 (skipn 3 (rows out)) eq_refl) _).
    repeat constructor; discriminate.
  - refine (proj2 (proj2 (Hspec (firstn 4 (rows out)) last_of_7 [] eq_refl)
                     (firstn 3 (rows out)) (nth 3 (rows out) []) [] eq_refl eq_refl
                     (Forall_nil _))).
Defined.

Lemma preprocess_data_sequences_witness :
  event_frame sample_events /\
  let out := preprocess_data sample_str sample_missing sample_seconds sample_events in
  let events := filter (in_case (columns out) "7") (rows out) in
  map (sequence_of out) events =
    map (fun i => Some (CInt (Z.of_nat i))) (seq 1 (length events)).
Proof.
  split; [exact sample_events_ok |].
  exact (preprocess_data_sequences sample_str sample_missing sample_seconds sample_events sample_events_ok "7").
Defined.

Lemma preprocess_data_keeps_rows_witness :
  event_frame sample_events /\
  ~ In DURATION (columns sample_events) /\ ~ In SEQUENCE (columns sample_events) /\
  let out := preprocess_data sample_str sample_missing sample_seconds sample_events in
  let labels := map (rename_label pm4py_names) (columns sample_events) in
  columns out = labels ++ [DURATION; SEQUENCE] /\
  length (rows out) = length (rows sample_events) /\
  Permutation (map (firstn (length (columns sample_events))) (rows out))
              (map (cast sample_str sample_missing labels) (rows sample_events)) /\
  (forall row l,
     lookup l labels (cast sample_str sample_missing labels row) =
       if String.eqb l CASE || String.eqb l ACTIVITY
       then option_map (astype_str_cell sample_str sample_missing) (lookup l labels row)
       else lookup l labels row) /\
  (forall s, astype_str_cell sample_str sample_missing (CStr s) = CStr s).
Proof.
  assert (Hd : ~ In DURATION (columns sample_events)) by (simpl; intuition discriminate).
  assert (Hs : ~ In SEQUENCE (columns sample_events)) by (simpl; intuition discriminate).
  split; [exact sample_events_ok |]. split; [exact Hd |]. split; [exact Hs |].
  exact (preprocess_data_keeps_rows sample_str sample_missing sample_seconds sample_events sample_events_ok Hd Hs).
Defined.

(** ** Inputs on which a step raises

    [preprocess_data] catches every exception and returns its input. *)

(** Events whose timestamps are epoch milliseconds, not converted to
    datetimes: the [.dt] accessor raises. *)
Definition epoch_events : frame :=
  {| columns := ["case_id"; "activity"; "timestamp"; "resource"];
     rows := [ [CInt 9; CStr "Pedido"; CInt 1704078000000; CStr "ana"];
               [CInt 10; CStr "Pedido"; CInt 1704067200000; CStr "rui"] ] |}.

(** C1 as stated fails: this frame is not empty and has the four columns, and
    it comes back as it was, the labels not renamed, the case identifiers
    still integers and the rows not in the order of the case strings ("10"
    sorts before "9"). *)
Lemma preprocess_data_epoch_unchanged :
  df_empty epoch_events = false /\
  incl ["case_id"; "activity"; "timestamp"; "resource"] (columns epoch_events) /\
  preprocess_data_try sample_str sample_missing sample_seconds epoch_events = Raise AttributeError /\
  preprocess_data sample_str sample_missing sample_seconds epoch_events = epoch_events /\
  ~ In CASE (columns (preprocess_data sample_str sample_missing sample_seconds epoch_events)) /\
  hd_error (rows (preprocess_data sample_str sample_missing sample_seconds epoch_events)) =
    Some [CInt 9; CStr "Pedido"; CInt 1704078000000; CStr "ana"].
Proof.
  split; [reflexivity |]. split; [apply incl_refl |].
  split; [reflexivity |]. split; [reflexivity |]. split; [| reflexivity].
  simpl. intuition discriminate.
Qed.

(** Events whose timestamps are still text, as in a log read back from a CSV
    file: the subtraction of [diff] raises. *)
Definition text_events : frame :=
  {| columns := ["case_id"; "activity"; "timestamp"; "resource"];
     rows := [ [CStr "7"; CStr "Pedido"; CStr "2024-01-01 00:00:00"; CStr "ana"];
               [CStr "7"; CStr "Faturamento"; CStr "2024-01-01 03:00:00"; CStr "ana"] ] |}.

(** C2 as stated fails: this frame is not empty, and the frame returned for
    it has no [duration_seconds] at all, neither 0 for the first event of the
    case nor the three hours of the second. *)
Lemma preprocess_data_text_no_duration :
  df_empty text_events = false /\
  preprocess_data_try sample_str sample_missing sample_seconds text_events = Raise TypeError /\
  preprocess_data sample_str sample_missing sample_seconds text_events = text_events /\
  map (duration_of (preprocess_data sample_str sample_missing sample_seconds text_events))
      (rows (preprocess_data sample_str sample_missing sample_seconds text_events)) = [None; None].
Proof. repeat split. Qed.

(** A processed log read back from a CSV file: the PM4Py labels are there,
    the timestamps are text. *)
Definition reloaded_log : frame :=
  {| columns := [CASE; ACTIVITY; TIME; "org:resource"];
     rows := [ [CStr "7"; CStr "Pedido"; CStr "2024-01-01 00:00:00"; CStr "ana"];
               [CStr "7"; CStr "Faturamento"; CStr "2024-01-01 03:00:00"; CStr "ana"] ] |}.

(** C3 as stated fails: this frame is not empty, the frame returned for it
    holds the two events of case 7, and their [activity_sequence] values are
    not 1 and 2: there are none. *)
Lemma preprocess_data_reloaded_no_sequence :
  df_empty reloaded_log = false /\
  let out := preprocess_data sample_str sample_missing sample_seconds reloaded_log in
  let events := filter (in_case (columns out) "7") (rows out) in
  length events = 2%nat /\
  map (sequence_of out) events = [None; None] /\
  map (sequence_of out) events <>
    map (fun i => Some (CInt (Z.of_nat i))) (seq 1 (length events)).
Proof.
  split; [reflexivity |]. split; [reflexivity |]. split; [reflexivity | discriminate].
Qed.

(** C10 as stated fails: [sample_events] is an event frame whose case
    identifiers are integers; the rows returned, cut to the width of the
    input, are not a reordering of the input rows, since the case cell of
    each of them is a string. *)
Lemma preprocess_data_changes_case_cells :
  event_frame sample_events /\
  let out := preprocess_data sample_str sample_missing sample_seconds sample_events in
  In [CStr "10"; CStr "Aprovacao"; CTime 2000000000; CStr "rui"; CInt 80]
     (map (firstn (length (columns sample_events))) (rows out)) /\
  ~ In [CStr "10"; CStr "Aprovacao"; CTime 2000000000; CStr "rui"; CInt 80]
       (rows sample_events) /\
  ~ Permutation (map (firstn (length (columns sample_events))) (rows out))
                (rows sample_events).
Proof.
  split; [exact sample_events_ok |]. intros out.
  assert (Hin : In [CStr "10"; CStr "Aprovacao"; CTime 2000000000; CStr "rui"; CInt 80]
                   (map (firstn (length (columns sample_events))) (rows out)))
    by (left; reflexivity).
  assert (Hout : ~ In [CStr "10"; CStr "Aprovacao"; CTime 2000000000; CStr "rui"; CInt 80]
                      (rows sample_events))
    by (simpl; intuition discriminate).
  split; [exact Hin |]. split; [exact Hout |].
  intros Hperm. apply Hout. eapply Permutation_in; eassumption.
Qed.

(** * Further properties *)

(** ** The query *)

(** The reply that answers a query, and the value [execute_query] returns for
    it: the "responseBody" entry, an empty dict when there is none. *)
Definition query_answered (net : option response) (body : json) : Prop :=
  exists resp entries,
    net = Some resp /\ status_code resp = 200 /\
    json_body resp = Some (JObj entries) /\
    dict_get "status" entries = Some (JStr "1") /\
    body = match dict_get "responseBody" entries with Some v => v | None => JObj [] end.

Lemma execute_query_answered (net : option response) (body : json) :
  query_answered net body -> execute_query net = body.
Proof.
  intros (resp & entries & -> & Hcode & Hbody & Hstatus & ->).
  unfold execute_query, execute_query_try, requests_post, response_json. simpl.
  rewrite Hcode, Hbody. simpl. rewrite Hstatus. simpl.
  destruct (dict_get "responseBody" entries); reflexivity.
Qed.

Lemma execute_query_inv (net : option response) :
  execute_query net <> JNull -> query_answered net (execute_query net).
Proof.
  unfold execute_query.
  destruct (execute_query_try net) as [r |] eqn:Htry; [| congruence].
  intros Hr. unfold execute_query_try in Htry.
  apply bind_ok in Htry as (resp & Hpost & Htry).
  destruct net as [r0 |]; simpl in Hpost; [injection Hpost as -> | discriminate].
  destruct (status_code resp =? 200) eqn:Hcode; [| congruence].
  apply Z.eqb_eq in Hcode.
  apply bind_ok in Htry as (res & Hjson & Htry).
  apply bind_ok in Htry as (status & Hstatus & Htry).
  destruct (is_status_ok status) eqn:Hok; [| congruence].
  apply is_status_ok_true in Hok. subst status.
  unfold response_json in Hjson.
  destruct (json_body resp) as [j |] eqn:Hj; [injection Hjson as -> | discriminate].
  apply py_get_ok in Hstatus as (entries & -> & Hstatus).
  apply py_get_ok in Htry as (entries' & Heq & Hbody). injection Heq as <-.
  exists resp, entries. repeat split; try assumption.
  destruct (dict_get "status" entries); congruence.
Qed.

(** X1: [execute_query] never raises.  It returns the "responseBody" of the
    reply (an empty dict when the reply has none) when the status code is 200
    and the body is a JSON object whose "status" is "1", and [None] on every
    other outcome of the request. *)
Theorem execute_query_spec (net : option response) :
  (forall body, query_answered net body -> execute_query net = body) /\
  ((forall body, ~ query_answered net body) -> execute_query net = JNull) /\
  (execute_query net <> JNull -> query_answered net (execute_query net)).
Proof.
  split; [apply execute_query_answered |]. split; [| apply execute_query_inv].
  intros Hno. destruct (execute_query net) eqn:Hres; try reflexivity;
    exfalso; apply (Hno (execute_query net)); apply execute_query_inv;
    rewrite Hres; discriminate.
Qed.

(** ** Preprocessing on any frame *)

Lemma group_counts_length (seen keys : list cell) :
  length (group_counts seen keys) = length keys.
Proof.
  revert seen. induction keys as [| k ks IH]; intros seen; simpl; [| rewrite IH];
    reflexivity.
Qed.

Lemma group_cumcount_length (seen keys : list cell) :
  length (group_cumcount seen keys) = length keys.
Proof.
  unfold group_cumcount. apply zip_with_length. symmetry. apply group_counts_length.
Qed.

Lemma sequence_numbers_length (counts : list (option Z)) :
  length (sequence_numbers counts) = length counts.
Proof.
  unfold sequence_numbers. destruct (forallb is_some counts); apply length_map.
Qed.

Lemma In_set_label_new (label : string) (labels : list string) :
  In label (set_label label labels).
Proof.
  unfold set_label. destruct (existsb (String.eqb label) labels) eqn:E.
  - apply existsb_eqb_In. exact E.
  - apply in_or_app. right. left. reflexivity.
Qed.

Lemma mapM_length {A B : Type} (f : A -> result B) (l : list A) (l' : list B) :
  mapM f l = Ok l' -> length l' = length l.
Proof.
  intros H. apply mapM_ok_Forall2 in H. symmetry. exact (Forall2_length H).
Qed.

Section PreprocessAnyFrame.
Variable py_str : cell -> string.
Variable astype_missing : cell -> cell.
Variable seconds_of_ns : Z -> Q.

Lemma astype_str_ok (label : string) (df out : frame) :
  astype_str py_str astype_missing label df = Ok out ->
  columns out = columns df /\ length (rows out) = length (rows df).
Proof.
  unfold astype_str. destruct (has_column label df); [| discriminate].
  intros [= <-]. cbn [columns rows]. rewrite length_map. split; reflexivity.
Qed.

Lemma sort_values_ok (by_ : list string) (df out : frame) :
  sort_values by_ df = Ok out ->
  columns out = columns df /\ length (rows out) = length (rows df).
Proof.
  unfold sort_values. intros H.
  apply bind_ok in H as (u1 & _ & H). apply bind_ok in H as (u2 & _ & [= <-]).
  cbn [columns rows]. rewrite sort_length. split; reflexivity.
Qed.

Lemma groupby_diff_length (key value : string) (df : frame) (deltas : list (option Z)) :
  groupby_diff key value df = Ok deltas -> length deltas = length (rows df).
Proof.
  unfold groupby_diff, column. intros H.
  apply bind_ok in H as (keys & Hkeys & H). apply bind_ok in H as (vals & Hvals & H).
  apply bind_ok in H as (times & Htimes & Hdeltas).
  destruct (has_column key df); [injection Hkeys as <- | discriminate].
  destruct (has_column value df); [injection Hvals as <- | discriminate].
  apply mapM_length in Htimes. rewrite length_map in Htimes.
  apply mapM_length in Hdeltas. rewrite Hdeltas, length_combine.
  rewrite group_prev_length; rewrite length_map; lia.
Qed.

Lemma groupby_cumcount_length (key : string) (df : frame) (counts : list (option Z)) :
  groupby_cumcount key df = Ok counts -> length counts = length (rows df).
Proof.
  unfold groupby_cumcount, column. intros H. apply bind_ok in H as (keys & Hkeys & [= <-]).
  destruct (has_column key df); [injection Hkeys as <- | discriminate].
  rewrite group_cumcount_length, length_map. reflexivity.
Qed.

Lemma setitem_length (label : string) (values : list cell) (df : frame) :
  length values = length (rows df) ->
  length (rows (setitem label values df)) = length (rows df).
Proof.
  intros H. unfold setitem. cbn [rows]. apply zip_with_length. congruence.
Qed.

(** What a run without exception returns. *)
Lemma preprocess_data_try_ok (df out : frame) :
  preprocess_data_try py_str astype_missing seconds_of_ns df = Ok out ->
  length (rows out) = length (rows df) /\
  In DURATION (columns out) /\ In SEQUENCE (columns out) /\
  In CASE (columns out) /\ In ACTIVITY (columns out) /\ In TIME (columns out).
Proof.
  unfold preprocess_data_try. intros H.
  apply bind_ok in H as (d2 & H2 & H). apply bind_ok in H as (d3 & H3 & H).
  apply bind_ok in H as (d4 & H4 & H). apply bind_ok in H as (deltas & Hd & H).
  apply bind_ok in H as (counts & Hc & [= <-]).
  assert (Hcase : In CASE (columns d2)).
  { unfold astype_str in H2. destruct (has_column CASE (rename pm4py_names df)) eqn:E;
      [| discriminate]. injection H2 as <-. apply has_column_In in E. exact E. }
  assert (Hact : In ACTIVITY (columns d3)).
  { unfold astype_str in H3. destruct (has_column ACTIVITY d2) eqn:E; [| discriminate].
    injection H3 as <-. apply has_column_In in E. exact E. }
  assert (Htime : In TIME (columns d4)).
  { unfold groupby_diff, column in Hd. apply bind_ok in Hd as (keys & _ & Hd).
    apply bind_ok in Hd as (vals & Hvals & _).
    destruct (has_column TIME d4) eqn:E; [| discriminate].
    apply has_column_In in E. exact E. }
  apply astype_str_ok in H2 as (C2 & L2). apply astype_str_ok in H3 as (C3 & L3).
  apply sort_values_ok in H4 as (C4 & L4).
  apply groupby_diff_length in Hd. apply groupby_cumcount_length in Hc.
  split; [| repeat split].
  - rewrite setitem_length.
    + rewrite setitem_length; [| rewrite length_map; exact Hd].
      rewrite L4, L3, L2. reflexivity.
    + rewrite sequence_numbers_length. exact Hc.
  - unfold setitem. cbn [columns]. apply In_set_label, In_set_label_new.
  - unfold setitem. cbn [columns]. apply In_set_label_new.
  - unfold setitem. cbn [columns]. do 2 apply In_set_label.
    rewrite C4, C3. exact Hcase.
  - unfold setitem. cbn [columns]. do 2 apply In_set_label. rewrite C4. exact Hact.
  - unfold setitem. cbn [columns]. do 2 apply In_set_label. exact Htime.
Qed.

(** X2: whatever the frame, [preprocess_data] returns as many rows as it is
    given: rows are never dropped nor added, whether the steps succeed or an
    exception makes it return its input. *)
Theorem preprocess_data_row_count (df : frame) :
  length (rows (preprocess_data py_str astype_missing seconds_of_ns df)) = length (rows df).
Proof.
  unfold preprocess_data. destruct (df_empty df); [reflexivity |].
  destruct (preprocess_data_try py_str astype_missing seconds_of_ns df) as [out | e] eqn:H; [| reflexivity].
  apply (preprocess_data_try_ok df out H).
Qed.

(** X3: [preprocess_data] either returns its input as it was (the frame is
    empty or a step raised) or a frame that has the columns
    "case:concept:name", "concept:name", "time:timestamp", "duration_seconds"
    and "activity_sequence": a caller can tell a fallback from a processed
    log by its labels. *)
Theorem preprocess_data_processed_or_unchanged (df : frame) :
  preprocess_data py_str astype_missing seconds_of_ns df = df \/
  incl [CASE; ACTIVITY; TIME; DURATION; SEQUENCE] (columns (preprocess_data py_str astype_missing seconds_of_ns df)).
Proof.
  unfold preprocess_data. destruct (df_empty df); [left; reflexivity |].
  destruct (preprocess_data_try py_str astype_missing seconds_of_ns df) as [out | e] eqn:H; [| left; reflexivity].
  right. destruct (preprocess_data_try_ok df out H) as (_ & Hd & Hs & Hc & Ha & Ht).
  intros l [<- | [<- | [<- | [<- | [<- | []]]]]]; assumption.
Qed.
End PreprocessAnyFrame.

(** ** Preprocessing: durations are never negative *)

Section DurationSign.
Variable py_str : cell -> string.
Variable astype_missing : cell -> cell.
Variable seconds_of_ns : Z -> Q.

(** Division by 10^9 in float64 keeps the sign. *)
Hypothesis seconds_nonneg : forall ns, 0 <= ns -> (0 <= seconds_of_ns ns)%Q.

Lemma find_key_seen (labels : list string) (key : cell) (seen : list (list cell))
    (v : option Z) :
  find_key key (map (fun p => (case_key labels p, time_val labels p)) seen) = Some v ->
  exists p, In p seen /\ cell_eqb (case_key labels p) key = true /\ v = time_val labels p.
Proof.
  induction seen as [| p seen IH]; simpl; [discriminate |].
  destruct (cell_eqb (case_key labels p) key) eqn:E.
  - intros [= <-]. exists p. auto.
  - intros H. destruct (IH H) as (q & Hq & Hk & Hv). exists q. auto.
Qed.

Lemma elapsed_seconds_nonneg (a b : cell) :
  time_le a b -> exists q, elapsed_seconds seconds_of_ns a b = CNum q /\ (0 <= q)%Q.
Proof.
  destruct a, b; simpl; try contradiction; intros H;
    try (exists 0%Q; split; [reflexivity | apply Qle_refl]).
  eexists. split; [reflexivity |]. apply seconds_nonneg. lia.
Qed.

Lemma annotate_nonneg (L : list string) (S seen : list (list cell)) :
  Forall (good_row L) S ->
  StronglySorted (fun a b => rows_leb [CASE; TIME] L a b = true) S ->
  Forall (fun p => good_row L p /\
                   Forall (fun r => rows_leb [CASE; TIME] L p r = true) S) seen ->
  Forall (fun out => exists q,
            lookup DURATION (set_label SEQUENCE (set_label DURATION L)) out = Some (CNum q) /\
            (0 <= q)%Q)
         (annotate seconds_of_ns L seen S).
Proof.
  intros Hgood Hsorted. revert seen.
  induction Hsorted as [| row rest Hs IH Hrow]; intros seen Hseen; simpl; [constructor |].
  pose proof (Forall_inv Hgood) as Grow. pose proof (Forall_inv_tail Hgood) as Grest.
  constructor.
  - rewrite finish_duration by apply Grow.
    destruct (find_key (case_key L row)
                (map (fun p => (case_key L p, time_val L p)) seen)) as [v |] eqn:Hfind.
    + apply find_key_seen in Hfind as (p & Hp & Hk & ->).
      rewrite elapsed_of_timedelta.
      assert (Hle : time_le (cell_at TIME L p) (cell_at TIME L row)).
      { rewrite Forall_forall in Hseen. destruct (Hseen p Hp) as (Gp & Hle).
        apply Forall_inv in Hle.
        destruct (rows_leb_event L p row Gp Grow Hle) as (c1 & c2 & H1 & H2 & Hord).
        unfold case_key in Hk. rewrite H1, H2 in Hk. apply cell_eqb_str_l in Hk.
        injection Hk as ->.
        destruct Hord as [Hlt | [_ Ht]]; [| exact Ht].
        rewrite string_ltb_irrefl in Hlt. discriminate. }
      destruct (elapsed_seconds_nonneg _ _ Hle) as (q & -> & Hq). exists q. auto.
    + exists 0%Q. split; [| apply Qle_refl].
      destruct (time_val L row); reflexivity.
  - apply IH; [exact Grest |]. constructor.
    + split; [exact Grow | exact Hrow].
    + eapply Forall_impl; [| exact Hseen]. intros p (Gp & Hle).
      split; [exact Gp | apply (Forall_inv_tail Hle)].
Qed.

(** X4: in the frame returned for an event frame every row has a
    [duration_seconds] that is a number and is not negative, [total_seconds]
    giving no negative float for a number of nanoseconds that is not
    negative: the sort puts the previous event of a case at an earlier or
    equal timestamp. *)
Theorem preprocess_data_durations_nonnegative (df : frame) :
  event_frame df ->
  let out := preprocess_data py_str astype_missing seconds_of_ns df in
  Forall (fun row => exists q, duration_of out row = Some (CNum q) /\ (0 <= q)%Q) (rows out).
Proof.
  intros H out. subst out.
  rewrite (preprocess_data_event_frame py_str astype_missing seconds_of_ns df H).
  unfold duration_of. cbn [columns rows].
  apply annotate_nonneg;
    [apply (sorted_good py_str astype_missing df H) | apply sorted_rows_sorted | constructor].
Qed.
End DurationSign.

Lemma pow2_pos (e : Z) : 0 <= e -> 0 < 2 ^ e.
Proof. intros H. apply Z.pow_pos_nonneg; lia. Qed.

Lemma round_half_even_nonneg (p q : Z) : 0 <= p -> 0 < q -> 0 <= round_half_even p q.
Proof.
  intros Hp Hq. unfold round_half_even.
  pose proof (Z.div_pos p q Hp Hq) as Hdiv.
  destruct (2 * (p mod q) ?= q); [destruct (Z.even (p / q)) | |]; lia.
Qed.

(** Rounding to a float keeps the sign. *)
Lemma round64_nonneg (x : Q) : (0 <= x)%Q -> (0 <= round64 x)%Q.
Proof.
  destruct x as [n d]. intros Hn. unfold Qle in Hn. cbn [Qnum Qden] in Hn.
  rewrite Z.mul_1_r in Hn. cbn [Z.mul] in Hn.
  unfold round64. cbn [Qnum Qden].
  destruct (Z.abs n =? 0) eqn:E; [apply Qle_refl |].
  apply Z.eqb_neq in E.
  assert (Hsgn : Z.sgn n = 1) by (apply Z.sgn_pos; lia). rewrite Hsgn.
  rewrite Z.abs_eq by lia.
  set (e := if in_binade n (Z.pos d) (Z.log2 n - Z.log2 (Z.pos d) - 52) then _ else _).
  clearbody e. unfold scaled.
  destruct (Z.leb_spec 0 e) as [He | He].
  - assert (0 <= round_half_even n (Z.pos d * 2 ^ e)).
    { apply round_half_even_nonneg; [lia |]. pose proof (pow2_pos e He). nia. }
    unfold Qle. cbn [Qnum Qden inject_Z]. pose proof (pow2_pos e He). nia.
  - assert (0 <= round_half_even (n * 2 ^ (- e)) (Z.pos d)).
    { apply round_half_even_nonneg; [| lia]. pose proof (pow2_pos (- e) ltac:(lia)). nia. }
    rewrite Qred_correct. unfold Qle. cbn [Qnum Qden]. lia.
Qed.

Lemma sample_seconds_nonneg (ns : Z) : 0 <= ns -> (0 <= sample_seconds ns)%Q.
Proof.
  intros H. unfold sample_seconds. apply round64_nonneg.
  apply Qle_shift_div_l; [reflexivity |]. rewrite Qmult_0_l.
  apply round64_nonneg. unfold Qle. simpl. lia.
Qed.

Lemma preprocess_data_durations_nonnegative_witness :
  (forall ns, 0 <= ns -> (0 <= sample_seconds ns)%Q) /\
  event_frame sample_events /\
  let out := preprocess_data sample_str sample_missing sample_seconds sample_events in
  Forall (fun row => exists q, duration_of out row = Some (CNum q) /\ (0 <= q)%Q) (rows out).
Proof.
  split; [exact sample_seconds_nonneg |]. split; [exact sample_events_ok |].
  exact (preprocess_data_durations_nonnegative sample_str sample_missing sample_seconds
           sample_seconds_nonneg sample_events sample_events_ok).
Defined.

(** ** The configuration: POST *)

(** The value a key has after a dict was posted. *)
Definition posted (entries : list (string * json)) (k : config_key) (cfg : config) : json :=
  match dict_get (key_name k) entries with
  | Some v => v
  | None => config_get k cfg
  end.

Lemma config_ext (c1 c2 : config) :
  (forall k, config_get k c1 = config_get k c2) -> c1 = c2.
Proof.
  intros H. destruct c1, c2.
  pose proof (H KBaseUrl). pose proof (H KAppKey). pose proof (H KSankhyaId).
  pose proof (H KPassword). pose proof (H KToken). simpl in *. congruence.
Qed.

Lemma update_config_dict (entries : list (string * json)) (cfg : config) :
  snd (update_config config_keys (JObj entries) cfg) = None /\
  forall k, config_get k (fst (update_config config_keys (JObj entries) cfg)) =
            posted entries k cfg.
Proof.
  unfold posted, config_keys.
  cbn [update_config py_contains py_getitem key_name].
  destruct (dict_get "base_url" entries) eqn:E1, (dict_get "app_key" entries) eqn:E2,
    (dict_get "sankhya_id" entries) eqn:E3, (dict_get "password" entries) eqn:E4,
    (dict_get "token" entries) eqn:E5;
    (split; [reflexivity |
             intros k; destruct k; cbn [key_name]; rewrite ?E1, ?E2, ?E3, ?E4, ?E5;
             reflexivity]).
Qed.

Lemma update_config_other (keys : list config_key) (data : json) (cfg : config) :
  (forall entries, data <> JObj entries) ->
  fst (update_config keys data cfg) = cfg /\
  forall e, snd (update_config keys data cfg) = Some e -> e = TypeError.
Proof.
  intros Hdata. induction keys as [| k keys [IH1 IH2]]; [split; [reflexivity | discriminate] |].
  cbn [update_config].
  destruct (py_contains (key_name k) data) as [[|] | e] eqn:Hin.
  - destruct data; try discriminate; try (split; [reflexivity | intros e [= <-]; reflexivity]).
    destruct (Hdata _ eq_refl).
  - split; assumption.
  - destruct data; try discriminate; injection Hin as <-;
      (split; [reflexivity | intros e [= <-]; reflexivity]).
Qed.

Lemma sankhya_config_post_other (cfg : config) (config_data : json) :
  (forall entries, config_data <> JObj entries) ->
  fst (sankhya_config_post cfg config_data) = cfg /\
  forall e, snd (sankhya_config_post cfg config_data) = Some e -> e = TypeError.
Proof.
  intros Hdata. unfold sankhya_config_post. destruct (truthy config_data).
  - apply update_config_other. exact Hdata.
  - split; [reflexivity | discriminate].
Qed.

Lemma sankhya_config_post_dict (cfg : config) (entries : list (string * json)) :
  snd (sankhya_config_post cfg (JObj entries)) = None /\
  forall k, config_get k (fst (sankhya_config_post cfg (JObj entries))) =
            posted entries k cfg.
Proof.
  unfold sankhya_config_post. destruct entries as [| entry entries].
  - split; [reflexivity | intros k; reflexivity].
  - cbn [truthy]. apply update_config_dict.
Qed.

(** X5: a POST to /api/sankhya-config with a JSON object sets each of the
    five keys that the object has to the value given, leaves the other keys
    as they were and raises nothing; with any other body the configuration
    is left as it was, and the only exception the loop can raise is a
    TypeError. *)
Theorem sankhya_config_post_spec (cfg : config) (config_data : json) :
  (forall entries, config_data = JObj entries ->
     snd (sankhya_config_post cfg config_data) = None /\
     forall k, config_get k (fst (sankhya_config_post cfg config_data)) =
               posted entries k cfg) /\
  ((forall entries, config_data <> JObj entries) ->
     fst (sankhya_config_post cfg config_data) = cfg /\
     forall e, snd (sankhya_config_post cfg config_data) = Some e -> e = TypeError).
Proof.
  split.
  - intros entries ->. apply sankhya_config_post_dict.
  - apply sankhya_config_post_other.
Qed.

(** X6: posting the same body twice leaves the configuration that posting
    it once leaves. *)
Theorem sankhya_config_post_idempotent (cfg : config) (config_data : json) :
  fst (sankhya_config_post (fst (sankhya_config_post cfg config_data)) config_data) =
  fst (sankhya_config_post cfg config_data).
Proof.
  assert (Hcases : (exists entries, config_data = JObj entries) \/
                   (forall entries, config_data <> JObj entries)).
  { destruct config_data; try (right; discriminate). left. eauto. }
  destruct Hcases as [(entries & ->) | Hother].
  - apply config_ext. intros k.
    rewrite !(proj2 (sankhya_config_post_dict _ _)). unfold posted.
    destruct (dict_get (key_name k) entries) eqn:E; [reflexivity |].
    rewrite (proj2 (sankhya_config_post_dict _ _)). unfold posted.
    rewrite E. reflexivity.
  - rewrite !(proj1 (sankhya_config_post_other _ _ Hother)). reflexivity.
Qed.

(** ** The collector's base URL *)

(** [c * n] *)
Fixpoint repeat_char (c : ascii) (n : nat) : string :=
  match n with
  | O => EmptyString
  | S n' => String c (repeat_char c n')
  end.

(** [s[-1]], [None] for the empty string. *)
Fixpoint last_char (s : string) : option ascii :=
  match s with
  | EmptyString => None
  | String a EmptyString => Some a
  | String _ rest => last_char rest
  end.

Lemma rstrip_decompose (c : ascii) (s : string) :
  exists n, s = (rstrip c s ++ repeat_char c n)%string.
Proof.
  induction s as [| a rest [n IH]]; [exists O; reflexivity |].
  cbn [rstrip]. destruct (rstrip c rest) as [| b kept].
  - destruct (Ascii.eqb_spec a c) as [-> | Hne].
    + exists (S n). simpl in *. congruence.
    + exists n. simpl in *. congruence.
  - exists n. simpl in *. congruence.
Qed.

Lemma rstrip_last_char (c : ascii) (s : string) : last_char (rstrip c s) <> Some c.
Proof.
  induction s as [| a rest IH]; [discriminate |].
  cbn [rstrip]. destruct (rstrip c rest) as [| b kept].
  - destruct (Ascii.eqb_spec a c) as [-> | Hne]; simpl; congruence.
  - exact IH.
Qed.

Lemma rstrip_repeat_char (c : ascii) (n : nat) : rstrip c (repeat_char c n) = EmptyString.
Proof.
  induction n as [| n IH]; [reflexivity |].
  cbn [repeat_char rstrip]. rewrite IH, Ascii.eqb_refl. reflexivity.
Qed.

Lemma rstrip_app_repeat (c : ascii) (s : string) (n : nat) :
  rstrip c (s ++ repeat_char c n) = rstrip c s.
Proof.
  induction s as [| a rest IH]; [apply rstrip_repeat_char |].
  cbn [append rstrip]. rewrite IH. reflexivity.
Qed.

(** X7: the collector stores the base URL without its trailing slashes: the
    URL given is the stored one followed by slashes only, and the stored one
    does not end with a slash. *)
Theorem new_collector_base_url (url key user secret : string) (access_token : option string) :
  let self := new_collector url key user secret access_token in
  (exists n, url = (base_url self ++ repeat_char "/" n)%string) /\
  last_char (base_url self) <> Some "/"%char.
Proof.
  cbv zeta. unfold new_collector. cbn [base_url].
  split; [apply rstrip_decompose | apply rstrip_last_char].
Qed.

(** X8: trailing slashes of the base URL do not change the URLs that
    [authenticate] and [execute_query] post to. *)
Theorem service_urls_ignore_trailing_slashes
    (url key user secret : string) (access_token : option string) (n : nat) :
  let plain := new_collector url key user secret access_token in
  let slashed :=
    new_collector (url ++ repeat_char "/" n) key user secret access_token in
  auth_url slashed = auth_url plain /\ query_url slashed = query_url plain.
Proof.
  cbv zeta. unfold auth_url, query_url, new_collector. cbn [base_url].
  rewrite rstrip_app_repeat. split; reflexivity.
Qed.

(** ** From [preprocess_data] to [load_and_convert_log] *)

Lemma In_set_label_inv (label l : string) (labels : list string) :
  In l (set_label label labels) -> l = label \/ In l labels.
Proof.
  unfold set_label. destruct (existsb (String.eqb label) labels); [auto |].
  intros H. apply in_app_or in H as [H | [<- | []]]; auto.
Qed.

Lemma pm4py_names_no_timestamp (l : string) : rename_label pm4py_names l <> "timestamp".
Proof.
  unfold rename_label, pm4py_names.
  repeat match goal with
         | |- context [String.eqb ?a l] => destruct (String.eqb_spec a l); [discriminate |]
         end.
  congruence.
Qed.

Lemma existsb_eqb_absent (label : string) (labels : list string) :
  ~ In label labels -> existsb (String.eqb label) labels = false.
Proof.
  intros H. destruct (existsb (String.eqb label) labels) eqn:E; [| reflexivity].
  apply existsb_eqb_In in E. contradiction.
Qed.

Section ProcessedLog.
Variable py_str : cell -> string.
Variable astype_missing : cell -> cell.
Variable seconds_of_ns : Z -> Q.

Lemma preprocess_data_try_columns (df out : frame) :
  preprocess_data_try py_str astype_missing seconds_of_ns df = Ok out ->
  columns out = set_label SEQUENCE (set_label DURATION (renamed df)).
Proof.
  unfold preprocess_data_try. intros H.
  apply bind_ok in H as (d2 & H2 & H). apply bind_ok in H as (d3 & H3 & H).
  apply bind_ok in H as (d4 & H4 & H). apply bind_ok in H as (deltas & Hd & H).
  apply bind_ok in H as (counts & Hc & [= <-]).
  apply astype_str_ok in H2 as (C2 & _). apply astype_str_ok in H3 as (C3 & _).
  apply sort_values_ok in H4 as (C4 & _).
  unfold setitem. cbn [columns]. rewrite C4, C3, C2. reflexivity.
Qed.

Lemma processed_header_not_loaded (df out : frame) :
  preprocess_data_try py_str astype_missing seconds_of_ns df = Ok out ->
  load_and_convert_header (csv_header out) = Raise ValueError.
Proof.
  intros H. unfold load_and_convert_header, csv_header.
  rewrite (preprocess_data_try_columns df out H).
  rewrite existsb_eqb_absent; [reflexivity |].
  intros Hin. apply In_set_label_inv in Hin as [Hin | Hin]; [discriminate |].
  apply In_set_label_inv in Hin as [Hin | Hin]; [discriminate |].
  unfold renamed in Hin. apply in_map_iff in Hin as (l & Hl & _).
  exact (pm4py_names_no_timestamp l Hl).
Qed.

(** X9: whenever [preprocess_data] does not fall back to its input, the
    header of the file written from its result has no "timestamp" column, so
    [load_and_convert_log], which asks [read_csv] to parse that column,
    raises a ValueError. *)
Theorem processed_log_is_not_loaded (df : frame) :
  preprocess_data py_str astype_missing seconds_of_ns df = df \/
  load_and_convert_header (csv_header (preprocess_data py_str astype_missing seconds_of_ns df)) = Raise ValueError.
Proof.
  unfold preprocess_data. destruct (df_empty df); [left; reflexivity |].
  destruct (preprocess_data_try py_str astype_missing seconds_of_ns df) as [out | e] eqn:H; [| left; reflexivity].
  right. exact (processed_header_not_loaded df out H).
Qed.

(** X10: the header of an event frame as it was collected passes
    [read_csv], and the frame handed on has "case_id", "activity" and
    "timestamp" renamed; the header of the same frame once preprocessed makes
    [read_csv] raise a ValueError. *)
Theorem event_frame_loaded_only_unprocessed (df : frame) :
  event_frame df ->
  load_and_convert_header (csv_header df) =
    Ok (map (rename_label analyzer_names) (columns df)) /\
  load_and_convert_header (csv_header (preprocess_data py_str astype_missing seconds_of_ns df)) = Raise ValueError.
Proof.
  intros H. split.
  - unfold load_and_convert_header, csv_header.
    rewrite (proj2 (existsb_eqb_In "timestamp" (columns df))) by apply (ef_timestamp df H).
    reflexivity.
  - apply (processed_header_not_loaded df).
    rewrite (preprocess_data_event_frame py_str astype_missing seconds_of_ns df H).
    apply (preprocess_shape py_str astype_missing seconds_of_ns df H).
Qed.
End ProcessedLog.

Lemma event_frame_loaded_only_unprocessed_witness :
  event_frame sample_events /\
  load_and_convert_header (csv_header sample_events) =
    Ok (map (rename_label analyzer_names) (columns sample_events)) /\
  load_and_convert_header (csv_header (preprocess_data sample_str sample_missing sample_seconds sample_events)) =
    Raise ValueError.
Proof.
  split; [exact sample_events_ok |].
  exact (event_frame_loaded_only_unprocessed sample_str sample_missing sample_seconds sample_events sample_events_ok).
Defined.

(** ** From [collect_process_events] to [preprocess_data] *)

Lemma zip_with_Forall {A B C : Type} (f : A -> B -> C) (P : C -> Prop)
    (xs : list A) (ys : list B) :
  (forall x y, In x xs -> In y ys -> P (f x y)) -> Forall P (zip_with f xs ys).
Proof.
  revert ys. induction xs as [| x xs IH]; intros [| y ys] H; simpl; constructor.
  - apply H; left; reflexivity.
  - apply IH. intros x' y' Hx Hy. apply H; right; assumption.
Qed.

Lemma same_width_rows (first : list cell) (rest : list (list cell)) :
  same_width (first :: rest) = true ->
  Forall (fun row => length row = length first) (first :: rest).
Proof.
  simpl. intros H. constructor; [reflexivity |].
  apply Forall_forall. intros row Hrow.
  rewrite forallb_forall in H. apply Nat.eqb_eq. exact (H row Hrow).
Qed.

Lemma table_of_json_same_width (data : json) (table : list (list cell)) :
  table_of_json data = Some table -> same_width table = true.
Proof.
  unfold table_of_json. destruct data; try discriminate.
  destruct (all_some (map row_of_json items)) as [t |]; [| discriminate].
  destruct (same_width t) eqn:E; [| discriminate]. intros [= <-]. exact E.
Qed.

Lemma all_some_Forall2 {A B : Type} (f : A -> option B) (l : list A) (l' : list B) :
  all_some (map f l) = Some l' -> Forall2 (fun x y => f x = Some y) l l'.
Proof.
  revert l'. induction l as [| x l IH]; intros l'; simpl.
  - intros [= <-]. constructor.
  - destruct (f x) as [y |] eqn:E; [| discriminate].
    destruct (all_some (map f l)) as [ys |]; [| discriminate].
    intros [= <-]. constructor; [exact E | apply IH; reflexivity].
Qed.

(** Type inference keeps the width of a row. *)
Lemma infer_row_length (table : list (list cell)) (j : nat) (row row' : list cell) :
  infer_row table j row = Some row' -> length row' = length row.
Proof.
  revert j row'. induction row as [| c rest IH]; intros j row'; simpl.
  - intros [= <-]. reflexivity.
  - destruct (if float_column (column_of j table) then to_float64 c else Some c);
      [| discriminate].
    destruct (infer_row table (S j) rest) as [rest' |] eqn:E; [| discriminate].
    intros [= <-]. simpl. f_equal. exact (IH _ _ E).
Qed.

(** The frame that [DataFrame] builds from rows of equal width has one cell
    per column in every row. *)
Lemma DataFrame_rectangular (table : list (list cell)) (labels : list string)
    (df : frame) :
  same_width table = true -> DataFrame table labels = Some (Ok df) ->
  columns df = labels /\ rectangular df.
Proof.
  unfold DataFrame, rectangular. intros Hwidth H.
  destruct table as [| first rest].
  - injection H as <-. split; [reflexivity | constructor].
  - destruct (Nat.eqb_spec (length first) (length labels)) as [E |]; [| discriminate].
    destruct (infer_dtypes (first :: rest)) as [data |] eqn:Hdata; [| discriminate].
    injection H as <-. split; [reflexivity |]. cbn [columns rows].
    apply all_some_Forall2 in Hdata.
    pose proof (same_width_rows first rest Hwidth) as Hrows.
    rewrite <- E. revert Hrows. generalize (length first).
    induction Hdata as [| row row' rows rows' Hrow _ IH]; intros n Hrows;
      [constructor |].
    apply Forall_cons_iff in Hrows as (Hlen & Hrows).
    constructor; [| exact (IH n Hrows)].
    rewrite (infer_row_length _ _ _ _ Hrow). exact Hlen.
Qed.

Section CollectedFrames.
Variable parse_date : list cell -> cell -> result (option Z).
Variable py_str : cell -> string.
Variable astype_missing : cell -> cell.
Variable seconds_of_ns : Z -> Q.

Lemma to_datetime_column_datetimes (col times : list cell) :
  to_datetime_column parse_date col = Ok times ->
  Forall (fun d => is_datetime d = true) times.
Proof.
  unfold to_datetime_column. destruct (forallb is_datetime col) eqn:E.
  - intros [= <-]. apply Forall_forall. rewrite forallb_forall in E. exact E.
  - intros H. apply mapM_ok_Forall2 in H.
    induction H as [| c d cs ds Hd _ IH]; constructor; [| exact IH].
    apply bind_ok in Hd as ([t |] & _ & [= <-]); reflexivity.
Qed.

(** A frame that is collected and is not empty was built with one cell per
    column in every row, its "timestamp" column converted when there is
    one, and has a "case_id" column. *)
Lemma collect_process_events_inv (net : option response) (df : frame) :
  collect_process_events parse_date net = Some df -> df_empty df = false ->
  exists d1,
    rectangular d1 /\
    (if has_column "timestamp" d1
     then times <- to_datetime parse_date "timestamp" d1 ;;
          Ok (setitem "timestamp" times d1)
     else Ok d1) = Ok df /\
    has_column "case_id" df = true.
Proof.
  unfold collect_process_events. intros H Hne.
  assert (Hempty : Some empty_frame = Some df -> False).
  { intros [= <-]. discriminate. }
  destruct (if truthy (execute_query net) then py_contains "rows" (execute_query net)
            else Ok false) as [[|] | e]; try (destruct (Hempty H)).
  destruct (frame_of_result parse_date (execute_query net)) as [[d | e] |] eqn:F;
    try discriminate; try (destruct (Hempty H)).
  injection H as ->. unfold frame_of_result, build_frame in F.
  destruct (names <- column_names (execute_query net) ;;
            table <- py_getitem (execute_query net) "rows" ;; Ok (names, table))
    as [[names data] | e]; [| discriminate].
  destruct (all_some (map label_of_json names)) as [labels |]; [| discriminate].
  destruct (table_of_json data) as [table |] eqn:T; [| discriminate].
  destruct (DataFrame table labels) as [[d1 | e] |] eqn:D; try discriminate.
  injection F as F. cbn [bind] in F.
  apply bind_ok in F as (d2 & H2 & F).
  apply bind_ok in F as (col & Hcol & [= <-]).
  exists d1. repeat split; try assumption.
  - apply (DataFrame_rectangular table labels d1
             (table_of_json_same_width data table T) D).
  - unfold column in Hcol. destruct (has_column "case_id" d2); [reflexivity | discriminate].
Qed.

(** X11: a frame returned by [collect_process_events] that is not empty, has
    an "activity" and a "timestamp" column, whose labels stay distinct once
    renamed, in which no case or activity is missing and whose timestamps lie
    within 2^63 ns of each other is an event frame: it has a "case_id"
    column, its rows have one cell per column and its timestamps are
    datetimes, so [preprocess_data] processes it without falling back. *)
Theorem collected_frame_is_event_frame (net : option response) (df : frame) :
  collect_process_events parse_date net = Some df ->
  df_empty df = false ->
  In "activity" (columns df) -> In "timestamp" (columns df) ->
  NoDup (map (rename_label pm4py_names) (columns df)) ->
  Forall (fun row => is_null (cell_at "case_id" (columns df) row) = false /\
                     is_null (cell_at "activity" (columns df) row) = false) (rows df) ->
  within_span (map (cell_at "timestamp" (columns df)) (rows df)) ->
  event_frame df /\
  preprocess_data py_str astype_missing seconds_of_ns df =
    {| columns := set_label SEQUENCE (set_label DURATION (renamed df));
       rows := annotate seconds_of_ns (renamed df) []
                 (sorted_rows py_str astype_missing df) |}.
Proof.
  intros Hcollect Hne Hact Htime Hdistinct Hkeys Hspan.
  assert (Hef : event_frame df); [| split; [exact Hef |
    exact (preprocess_data_event_frame py_str astype_missing seconds_of_ns df Hef)]].
  destruct (collect_process_events_inv net df Hcollect Hne)
    as ([labels table] & Hrect & H2 & Hcase).
  apply has_column_In in Hcase. unfold rectangular in Hrect. cbn [columns rows] in Hrect.
  destruct (has_column "timestamp" {| columns := labels; rows := table |}) eqn:Hts.
  - apply bind_ok in H2 as (times & Htimes & [= <-]).
    unfold to_datetime in Htimes. cbn [columns rows] in Htimes.
    destruct (count_label "timestamp" labels) as [| [| n]]; try discriminate.
    pose proof (to_datetime_column_datetimes _ _ Htimes) as Hdt.
    rewrite Forall_forall in Hrect, Hdt.
    constructor; try assumption; unfold rectangular, setitem; cbn [columns rows].
    + apply zip_with_Forall. intros row v Hrow _. apply set_cell_length. auto.
    + apply zip_with_Forall. intros row v Hrow Hv. unfold cell_at.
      rewrite lookup_set_cell_same by auto. auto.
  - injection H2 as <-. apply has_column_false in Hts. contradiction.
Qed.
End CollectedFrames.

Lemma collected_frame_is_event_frame_witness :
  let df := {| columns := ["case_id"; "activity"; "timestamp"];
               rows := [ [CInt 7; CStr "Pedido"; CTime 1704067200000000000];
                         [CInt 7; CStr "Faturamento"; CTime 1704078000000000000] ] |} in
  collect_process_events sample_dates sample_reply = Some df /\
  df_empty df = false /\
  event_frame df /\
  preprocess_data sample_str sample_missing sample_seconds df =
    {| columns := set_label SEQUENCE (set_label DURATION (renamed df));
       rows := annotate sample_seconds (renamed df) []
                 (sorted_rows sample_str sample_missing df) |}.
Proof.
  intros df.
  assert (Hcollect : collect_process_events sample_dates sample_reply = Some df)
    by reflexivity.
  split; [exact Hcollect |]. split; [reflexivity |].
  apply (collected_frame_is_event_frame sample_dates sample_str sample_missing
           sample_seconds sample_reply df Hcollect eq_refl).
  - simpl; auto.
  - simpl; auto.
  - repeat constructor; simpl; intuition discriminate.
  - repeat constructor.
  - apply within_spanb_ok. reflexivity.
Defined.

(** ** What [collect_process_events] returns *)

Lemma all_some_map {A B : Type} (f : A -> option B) (g : B -> A) (l : list B) :
  (forall b, f (g b) = Some b) -> all_some (map f (map g l)) = Some l.
Proof.
  intros H. induction l as [| b l IH]; [reflexivity |].
  simpl. rewrite H, IH. reflexivity.
Qed.

Lemma zip_with_Forall2 {A B C : Type} (f : A -> B -> C) (xs : list A) (ys : list B) :
  length ys = length xs ->
  Forall2 (fun x out => exists y, In y ys /\ out = f x y) xs (zip_with f xs ys).
Proof.
  revert ys. induction xs as [| x xs IH]; intros [| y ys] H; simpl in *;
    try discriminate; constructor.
  - exists y. split; [left; reflexivity | reflexivity].
  - assert (Hlen : length ys = length xs) by lia.
    eapply Forall2_impl; [| exact (IH ys Hlen)].
    intros a out (y' & Hy & ->). exists y'. split; [right; exact Hy | reflexivity].
Qed.

Lemma DataFrame_ok (table : list (list cell)) (labels : list string) (df : frame) :
  DataFrame table labels = Some (Ok df) ->
  exists data, infer_dtypes table = Some data /\ df = {| columns := labels; rows := data |}.
Proof.
  unfold DataFrame. destruct table as [| first rest].
  - intros [= <-]. exists []. split; reflexivity.
  - destruct (Nat.eqb (length first) (length labels)); [| discriminate].
    destruct (infer_dtypes (first :: rest)) as [data |]; [| discriminate].
    intros [= <-]. exists data. split; reflexivity.
Qed.

Section CollectedShape.
Variable parse_date : list cell -> cell -> result (option Z).

Lemma to_datetime_column_length (col times : list cell) :
  to_datetime_column parse_date col = Ok times -> length times = length col.
Proof.
  unfold to_datetime_column. destruct (forallb is_datetime col).
  - intros [= <-]. reflexivity.
  - apply mapM_length.
Qed.

(** On a result that is a table the frame is built from its field names
    and its rows. *)
Lemma build_frame_table (res : json) (labels : list string) (table : list (list cell)) :
  query_table res labels table ->
  truthy res = true /\ py_contains "rows" res = Ok true /\
  same_width table = true /\
  build_frame parse_date res =
    match DataFrame table labels with
    | Some built =>
        Some (df <- built ;;
              if has_column "timestamp" df
              then times <- to_datetime parse_date "timestamp" df ;;
                   Ok (setitem "timestamp" times df)
              else Ok df)
    | None => None
    end.
Proof.
  intros (entries & data & fields & -> & Hrows & Htable & Hfields & Hnames).
  split; [| split; [| split]].
  - destruct entries; [discriminate | reflexivity].
  - simpl. rewrite Hrows. reflexivity.
  - exact (table_of_json_same_width data table Htable).
  - unfold build_frame, column_names, py_get, py_getitem at 2.
    assert (Hf : (match dict_get "fields" entries with
                  | Some v => Ok v
                  | None => Ok (JArr [])
                  end) = Ok (JArr fields)).
    { destruct (dict_get "fields" entries); simpl in Hfields; congruence. }
    rewrite Hf. simpl.
    assert (Hm : mapM (fun field => py_getitem field "name") fields =
                 Ok (map JStr labels)).
    { apply mapM_ok_Forall2. clear -Hnames.
      induction Hnames as [| f l fs ls (e & -> & Hname) _ IH]; simpl; constructor.
      - simpl. rewrite Hname. reflexivity.
      - exact IH. }
    rewrite Hm. simpl. rewrite Hrows. simpl.
    rewrite (all_some_map label_of_json JStr labels (fun b => eq_refl)).
    rewrite Htable. reflexivity.
Qed.

(** X17: [collect_process_events] returns the empty frame whenever the
    query yields no dict with a "rows" entry: the request failed or raised
    ([execute_query] then returns [None]), or the result has no such key. *)
Theorem collect_process_events_without_rows (net : option response) :
  (forall entries, execute_query net = JObj entries -> dict_get "rows" entries = None) ->
  collect_process_events parse_date net = Some empty_frame.
Proof.
  intros Hno. unfold collect_process_events.
  destruct (execute_query net) as [| b | z | q | s | items | entries] eqn:Hres; simpl.
  - reflexivity.
  - destruct b; reflexivity.
  - destruct (negb (z =? 0)); reflexivity.
  - destruct (negb (Qeq_bool q 0)); reflexivity.
  - destruct (negb (String.eqb s "")); [| reflexivity].
    destruct (String.index 0 "rows" s); reflexivity.
  - destruct items as [| i items]; [reflexivity |].
    destruct (existsb _ (i :: items)); reflexivity.
  - rewrite (Hno entries eq_refl). destruct entries; reflexivity.
Qed.

(** X18: when the result of the query is a table and the frame returned is
    not empty, its columns are the field names of the result, in order,
    "case_id" among them, and its rows are the rows of the result, in order,
    with the types pandas gives their columns: every cell outside the column
    "timestamp" is the cell of the result, and the cells of the column
    "timestamp", when there is one, are datetimes. *)
Theorem collected_frame_shape (net : option response) (labels : list string)
    (table : list (list cell)) (df : frame) :
  query_table (execute_query net) labels table ->
  collect_process_events parse_date net = Some df ->
  df_empty df = false ->
  columns df = labels /\
  In "case_id" labels /\
  (exists data,
     infer_dtypes table = Some data /\
     Forall2 (fun row out =>
                length out = length labels /\
                forall l, l <> "timestamp" -> lookup l labels out = lookup l labels row)
             data (rows df)) /\
  (In "timestamp" labels ->
   Forall (fun out => is_datetime (cell_at "timestamp" labels out) = true) (rows df)).
Proof.
  intros Htable Hcollect Hne.
  destruct (build_frame_table _ _ _ Htable) as (Htruthy & Hcontains & Hwidth & Hbuild).
  unfold collect_process_events, frame_of_result in Hcollect.
  rewrite Htruthy, Hcontains, Hbuild in Hcollect. clear Hbuild.
  assert (Hempty : Some empty_frame = Some df -> False).
  { intros [= <-]. discriminate. }
  destruct (DataFrame table labels) as [[d1 | e] |] eqn:D;
    [| destruct (Hempty Hcollect) | discriminate].
  destruct (DataFrame_rectangular table labels d1 Hwidth D) as (_ & Hrect).
  destruct (DataFrame_ok table labels d1 D) as (data & Hdata & ->).
  unfold rectangular in Hrect. cbn [columns rows bind] in *.
  destruct (has_column "timestamp" {| columns := labels; rows := data |}) eqn:Hts.
  - destruct (to_datetime parse_date "timestamp" {| columns := labels; rows := data |})
      as [times | e] eqn:Htimes; [| destruct (Hempty Hcollect)].
    cbn [bind] in Hcollect.
    destruct (column "case_id" (setitem "timestamp" times
                                  {| columns := labels; rows := data |})) eqn:Hcase;
      [| destruct (Hempty Hcollect)].
    cbn [bind] in Hcollect. injection Hcollect as <-.
    unfold to_datetime in Htimes. cbn [columns rows] in Htimes.
    destruct (count_label "timestamp" labels) as [| [| n]]; try discriminate.
    pose proof (to_datetime_column_length _ _ Htimes) as Hlen. rewrite length_map in Hlen.
    pose proof (to_datetime_column_datetimes parse_date _ _ Htimes) as Hdt.
    assert (Hlabels : set_label "timestamp" labels = labels).
    { unfold set_label. unfold has_column in Hts. cbn [columns] in Hts.
      rewrite Hts. reflexivity. }
    pose proof (zip_with_Forall2 (set_cell "timestamp" labels) data times Hlen) as Hrows.
    assert (Hid : In "case_id" labels).
    { unfold column in Hcase.
      destruct (has_column "case_id" _) eqn:Hc; [| discriminate].
      apply has_column_In in Hc. unfold setitem in Hc. cbn [columns] in Hc.
      rewrite Hlabels in Hc. exact Hc. }
    unfold setitem. cbn [columns rows]. rewrite Hlabels.
    rewrite Forall_forall in Hdt.
    split; [reflexivity |]. split; [exact Hid |]. split.
    + exists data. split; [exact Hdata |].
      clear -Hrows Hrect Hlabels.
      induction Hrows as [| row out rows outs (v & _ & ->) _ IH]; constructor.
      * pose proof (Forall_inv Hrect) as Hrow. split.
        -- rewrite (set_cell_length "timestamp" labels row v Hrow), Hlabels. reflexivity.
        -- intros l Hl. rewrite <- Hlabels at 1.
           apply lookup_set_cell_other; assumption.
      * apply IH. exact (Forall_inv_tail Hrect).
    + intros _. clear -Hrows Hrect Hlabels Hdt.
      induction Hrows as [| row out rows outs (v & Hv & ->) _ IH]; constructor.
      * pose proof (Forall_inv Hrect) as Hrow. unfold cell_at.
        rewrite <- Hlabels at 1.
        rewrite (lookup_set_cell_same "timestamp" labels row v Hrow). exact (Hdt v Hv).
      * apply IH. exact (Forall_inv_tail Hrect).
  - cbn [bind] in Hcollect.
    destruct (column "case_id" {| columns := labels; rows := data |}) eqn:Hcase;
      [| destruct (Hempty Hcollect)].
    cbn [bind] in Hcollect. injection Hcollect as <-. cbn [columns rows].
    assert (Hid : In "case_id" labels).
    { unfold column in Hcase.
      destruct (has_column "case_id" _) eqn:Hc; [| discriminate].
      apply has_column_In in Hc. exact Hc. }
    split; [reflexivity |]. split; [exact Hid |]. split.
    + exists data. split; [exact Hdata |].
      clear -Hrect. induction data as [| row data IH]; constructor.
      * split; [exact (Forall_inv Hrect) | reflexivity].
      * apply IH. exact (Forall_inv_tail Hrect).
    + intros Hin. apply has_column_false in Hts. contradiction.
Qed.
End CollectedShape.

Lemma collect_process_events_without_rows_witness :
  execute_query None = JNull /\
  collect_process_events sample_dates None = Some empty_frame.
Proof.
  split; [reflexivity |].
  apply (collect_process_events_without_rows sample_dates None).
  intros entries H. discriminate H.
Defined.

Lemma collected_frame_shape_witness :
  let labels := ["case_id"; "activity"; "timestamp"] in
  let table := [ [CInt 7; CStr "Pedido"; CStr "2024-01-01 00:00:00"];
                 [CInt 7; CStr "Faturamento"; CStr "2024-01-01 03:00:00"] ] in
  let df := {| columns := labels;
               rows := [ [CInt 7; CStr "Pedido"; CTime 1704067200000000000];
                         [CInt 7; CStr "Faturamento"; CTime 1704078000000000000] ] |} in
  query_table (execute_query sample_reply) labels table /\
  collect_process_events sample_dates sample_reply = Some df /\
  columns df = labels /\
  In "case_id" labels /\
  (exists data,
     infer_dtypes table = Some data /\
     Forall2 (fun row out =>
                length out = length labels /\
                forall l, l <> "timestamp" -> lookup l labels out = lookup l labels row)
             data (rows df)) /\
  (In "timestamp" labels ->
   Forall (fun out => is_datetime (cell_at "timestamp" labels out) = true) (rows df)).
Proof.
  intros labels table df.
  assert (Htable : query_table (execute_query sample_reply) labels table).
  { eexists _, _, _. repeat split; try reflexivity.
    repeat constructor; eexists; split; reflexivity. }
  assert (Hcollect : collect_process_events sample_dates sample_reply = Some df)
    by reflexivity.
  split; [exact Htable |]. split; [exact Hcollect |].
  exact (collected_frame_shape sample_dates sample_reply labels table df
           Htable Hcollect eq_refl).
Defined.

(** ** The most frequent value of a column *)

Lemma cell_eqb_refl (c : cell) : is_null c = false -> cell_eqb c c = true.
Proof.
  destruct c; simpl; try discriminate; intros _.
  - apply String.eqb_refl.
  - apply Z.eqb_refl.
  - apply Qeq_bool_iff. reflexivity.
  - apply Z.eqb_refl.
Qed.

Lemma cell_eqb_not_null (a b : cell) :
  cell_eqb a b = true -> is_null a = false /\ is_null b = false.
Proof. destruct a, b; simpl; try discriminate; auto. Qed.

Lemma cell_eqb_sym (a b : cell) : cell_eqb a b = cell_eqb b a.
Proof.
  destruct a, b; simpl; try reflexivity.
  - apply String.eqb_sym.
  - apply Z.eqb_sym.
  - apply eq_true_iff_eq. rewrite !Qeq_bool_iff. split; intros H; symmetry; exact H.
  - apply eq_true_iff_eq. rewrite !Qeq_bool_iff. split; intros H; symmetry; exact H.
  - apply eq_true_iff_eq. rewrite !Qeq_bool_iff. split; intros H; symmetry; exact H.
  - apply Z.eqb_sym.
Qed.

Lemma inject_Z_eqb (x y : Z) : Qeq_bool (inject_Z x) (inject_Z y) = (x =? y).
Proof.
  apply eq_true_iff_eq. rewrite Qeq_bool_iff, Z.eqb_eq. split.
  - intros H. apply inject_Z_injective. exact H.
  - intros ->. reflexivity.
Qed.

Lemma cell_eqb_trans (a b c : cell) :
  cell_eqb a b = true -> cell_eqb b c = true -> cell_eqb a c = true.
Proof.
  destruct a, b, c; simpl; try discriminate;
    rewrite <- ?inject_Z_eqb; rewrite ?Qeq_bool_iff, ?String.eqb_eq, ?Z.eqb_eq;
    try congruence; intros H1 H2; rewrite H1; exact H2.
Qed.

Lemma occurrences_of_eqb (a b : cell) (col : list cell) :
  cell_eqb a b = true -> occurrences_of a col = occurrences_of b col.
Proof.
  intros H. unfold occurrences_of. f_equal. apply filter_ext. intros d.
  apply eq_true_iff_eq. split; intros Hd.
  - apply (cell_eqb_trans b a d); [rewrite cell_eqb_sym |]; assumption.
  - apply (cell_eqb_trans a b d); assumption.
Qed.

(** Every value present has a representative among the distinct values. *)
Lemma distinct_representative (d : cell) (col : list cell) :
  In d col -> is_null d = false ->
  exists e, In e (distinct col) /\ cell_eqb e d = true.
Proof.
  intros Hin Hd. induction col as [| c col IH]; [destruct Hin |].
  simpl. destruct Hin as [-> | Hin].
  - rewrite Hd. exists d. split; [left; reflexivity | apply cell_eqb_refl; exact Hd].
  - destruct (IH Hin) as (e & He & Heq).
    destruct (is_null c) eqn:Hc; [eauto |].
    destruct (cell_eqb c e) eqn:Hce.
    + exists c. split; [left; reflexivity | apply (cell_eqb_trans c e d); assumption].
    + exists e. split; [| exact Heq]. right. apply filter_In. rewrite Hce. auto.
Qed.

Lemma occurrences_of_In (c : cell) (col : list cell) :
  In c col -> is_null c = false -> (0 < occurrences_of c col)%nat.
Proof.
  intros Hin Hc. unfold occurrences_of.
  assert (H : In c (filter (cell_eqb c) col)).
  { apply filter_In. split; [exact Hin | apply cell_eqb_refl; exact Hc]. }
  destruct (filter (cell_eqb c) col); [destruct H | simpl; lia].
Qed.

(** The first entry of [value_counts]: a value that is present, with the
    number of its occurrences, which no value exceeds. *)
Lemma value_counts_head (col : list cell) (v : cell) (n : nat)
    (rest : list (cell * nat)) :
  value_counts col = (v, n) :: rest ->
  is_null v = false /\ In v col /\ n = occurrences_of v col /\ (0 < n)%nat /\
  forall c, (occurrences_of c col <= n)%nat.
Proof.
  intros H.
  assert (Hv : In (v, n) (value_counts col)) by (rewrite H; left; reflexivity).
  apply value_counts_In in Hv as (Hv & Hn). apply distinct_In in Hv as (Hv & Hnull).
  repeat split; try assumption.
  - rewrite Hn. apply occurrences_of_In; assumption.
  - intros c. destruct (occurrences_of c col) as [| m] eqn:Hc; [lia |]. rewrite <- Hc.
    destruct (occurrences_positive c col ltac:(lia)) as (d & Hd & Hcd).
    destruct (distinct_representative d col Hd (proj2 (cell_eqb_not_null _ _ Hcd)))
      as (e & He & Hed).
    assert (Hce : cell_eqb c e = true).
    { apply (cell_eqb_trans c d e); [exact Hcd | rewrite cell_eqb_sym; exact Hed]. }
    rewrite (occurrences_of_eqb c e col Hce).
    assert (Hin : In (e, occurrences_of e col) (value_counts col)).
    { apply value_counts_In. auto. }
    assert (Htotal : forall a b : cell * nat,
               Nat.leb (snd b) (snd a) = true \/ Nat.leb (snd a) (snd b) = true).
    { intros a b. rewrite !Nat.leb_le. lia. }
    assert (Htrans : forall a b c : cell * nat,
               Nat.leb (snd b) (snd a) = true -> Nat.leb (snd c) (snd b) = true ->
               Nat.leb (snd c) (snd a) = true).
    { intros a b c'. rewrite !Nat.leb_le. lia. }
    pose proof (sort_sorted (fun a b : cell * nat => Nat.leb (snd b) (snd a))
                  Htotal Htrans
                  (map (fun value => (value, occurrences_of value col)) (distinct col)))
      as Hsorted.
    fold (value_counts col) in Hsorted. rewrite H in Hsorted, Hin.
    apply StronglySorted_inv in Hsorted as [_ Hhead].
    destruct Hin as [[= -> ->] | Hin]; [lia |].
    rewrite Forall_forall in Hhead. apply Hhead in Hin. simpl in Hin.
    apply Nat.leb_le in Hin. exact Hin.
Qed.

(** The suggestions computed from the data, as opposed to the fixed
    messages. *)
Definition is_finding (x : suggestion) : bool :=
  match x with
  | NoDataMessage | DefaultMonitoring | DefaultDashboards | DefaultTargets
  | ErrorMessage _ => false
  | _ => true
  end.

Section SuggestionFindings.
Variable parse_date : list cell -> cell -> result (option Z).
Variable py_sum : list json -> json.
Variable py_truediv : json -> Z -> result Q.
Variable series_mean : list cell -> Q.

(** A finding in the list returned was appended by one of the six analyses. *)
Lemma finding_fired (df : frame) (aligned_traces : list json) (x : suggestion) :
  is_finding x = true ->
  In x (generate_sankhya_suggestions parse_date py_sum py_truediv series_mean df aligned_traces) ->
  exists s1 s2 s3 s4 s5 s6,
    activity_suggestion df = Ok s1 /\ duration_suggestion series_mean df = Ok s2 /\
    conformance_suggestion py_sum py_truediv aligned_traces = Ok s3 /\
    category_suggestions df = Ok s4 /\ resource_suggestion df = Ok s5 /\
    peak_hour_suggestion parse_date df = Ok s6 /\
    In x (s1 ++ s2 ++ s3 ++ s4 ++ s5 ++ s6).
Proof.
  intros Hx. unfold generate_sankhya_suggestions.
  destruct (df_empty df).
  { intros [<- | []]. discriminate. }
  destruct (heuristics parse_date py_sum py_truediv series_mean df aligned_traces) as [fired | e] eqn:H.
  - destruct (heuristics_ok parse_date py_sum py_truediv series_mean df aligned_traces fired H)
      as (s1 & s2 & s3 & s4 & s5 & s6 & H1 & H2 & H3 & H4 & H5 & H6 & ->).
    intros Hin. exists s1, s2, s3, s4, s5, s6. repeat split; try assumption.
    destruct (s1 ++ s2 ++ s3 ++ s4 ++ s5 ++ s6); [| exact Hin].
    simpl in Hin. destruct Hin as [<- | [<- | [<- | []]]]; discriminate.
  - intros [<- | []]. discriminate.
Qed.

(** X12: when the list returned names a most frequent activity, the frame
    has a "concept:name" column, the activity named is a value of that column
    that is truthy, the number given is the number of its occurrences, and no
    value occurs more often. *)
Theorem most_frequent_activity_spec (df : frame) (aligned_traces : list json)
    (activity : cell) (n : nat) :
  In (MostFrequentActivity activity n)
     (generate_sankhya_suggestions parse_date py_sum py_truediv series_mean df aligned_traces) ->
  let col := map (cell_at "concept:name" (columns df)) (rows df) in
  has_column "concept:name" df = true /\
  cell_truthy activity = true /\ In activity col /\
  n = occurrences_of activity col /\ (0 < n)%nat /\
  forall c, (occurrences_of c col <= n)%nat.
Proof.
  intros Hin. cbv zeta.
  destruct (finding_fired df aligned_traces (MostFrequentActivity activity n) eq_refl Hin)
    as (s1 & s2 & s3 & s4 & s5 & s6 & H1 & H2 & H3 & H4 & H5 & H6 & Happ).
  pose proof (duration_kind _ _ _ H2) as K2. pose proof (conformance_kind _ _ _ _ H3) as K3.
  pose proof (category_kind _ _ H4) as K4. pose proof (resource_kind _ _ H5) as K5.
  pose proof (peak_kind _ _ _ H6) as K6.
  rewrite Forall_forall in K2, K3, K4, K5, K6.
  repeat (apply in_app_or in Happ as [Happ | Happ]);
    try (apply K2 in Happ; discriminate); try (apply K3 in Happ; discriminate);
    try (apply K4 in Happ; discriminate); try (apply K5 in Happ; discriminate);
    try (apply K6 in Happ; discriminate).
  unfold activity_suggestion, column in H1.
  destruct (has_column "concept:name" df); [| injection H1 as <-; destruct Happ].
  cbn [bind] in H1.
  destruct (value_counts (map (cell_at "concept:name" (columns df)) (rows df)))
    as [| [v m] rest] eqn:Hcounts; [injection H1 as <-; destruct Happ |].
  destruct (cell_truthy v) eqn:Htruthy; injection H1 as <-; [| destruct Happ].
  destruct Happ as [[= <- <-] | []].
  destruct (value_counts_head _ _ _ _ Hcounts) as (_ & Hv & Hm & Hpos & Hmax).
  repeat split; assumption.
Qed.

(** X13: when the list returned names a busiest resource, the frame has an
    "org:resource" column, the resource named is a value of that column, the
    number given is the number of its occurrences, and no value occurs more
    often. *)
Theorem busiest_resource_spec (df : frame) (aligned_traces : list json)
    (resource : cell) (n : nat) :
  In (BusiestResource resource n)
     (generate_sankhya_suggestions parse_date py_sum py_truediv series_mean df aligned_traces) ->
  let col := map (cell_at "org:resource" (columns df)) (rows df) in
  has_column "org:resource" df = true /\
  is_null resource = false /\ In resource col /\
  n = occurrences_of resource col /\ (0 < n)%nat /\
  forall c, (occurrences_of c col <= n)%nat.
Proof.
  intros Hin. cbv zeta.
  destruct (finding_fired df aligned_traces (BusiestResource resource n) eq_refl Hin)
    as (s1 & s2 & s3 & s4 & s5 & s6 & H1 & H2 & H3 & H4 & H5 & H6 & Happ).
  pose proof (activity_kind _ _ H1) as K1.
  pose proof (duration_kind _ _ _ H2) as K2. pose proof (conformance_kind _ _ _ _ H3) as K3.
  pose proof (category_kind _ _ H4) as K4. pose proof (peak_kind _ _ _ H6) as K6.
  rewrite Forall_forall in K1, K2, K3, K4, K6.
  repeat (apply in_app_or in Happ as [Happ | Happ]);
    try (apply K1 in Happ; discriminate);
    try (apply K2 in Happ; discriminate); try (apply K3 in Happ; discriminate);
    try (apply K4 in Happ; discriminate); try (apply K6 in Happ; discriminate).
  unfold resource_suggestion, column in H5.
  destruct (has_column "org:resource" df); [| injection H5 as <-; destruct Happ].
  cbn [bind] in H5.
  destruct (value_counts (map (cell_at "org:resource" (columns df)) (rows df)))
    as [| [v m] rest] eqn:Hcounts; injection H5 as <-; [destruct Happ |].
  destruct Happ as [[= <- <-] | []].
  destruct (value_counts_head _ _ _ _ Hcounts) as (Hnull & Hv & Hm & Hpos & Hmax).
  repeat split; assumption.
Qed.
End SuggestionFindings.

Lemma most_frequent_activity_spec_witness :
  let df := preprocess_data sample_str sample_missing sample_seconds sample_events in
  let col := map (cell_at "concept:name" (columns df)) (rows df) in
  In (MostFrequentActivity (CStr "Aprovacao") 2)
     (generate_sankhya_suggestions sample_dates ieee_sum ieee_truediv ieee_mean df []) /\
  has_column "concept:name" df = true /\
  cell_truthy (CStr "Aprovacao") = true /\ In (CStr "Aprovacao") col /\
  2%nat = occurrences_of (CStr "Aprovacao") col /\ (0 < 2)%nat /\
  forall c, (occurrences_of c col <= 2)%nat.
Proof.
  intros df col.
  assert (Hin : In (MostFrequentActivity (CStr "Aprovacao") 2)
                   (generate_sankhya_suggestions sample_dates ieee_sum ieee_truediv ieee_mean df []))
    by (vm_compute; auto).
  split; [exact Hin |].
  exact (most_frequent_activity_spec sample_dates ieee_sum ieee_truediv ieee_mean df [] (CStr "Aprovacao") 2%nat Hin).
Defined.

Lemma busiest_resource_spec_witness :
  let df := preprocess_data sample_str sample_missing sample_seconds sample_events in
  let col := map (cell_at "org:resource" (columns df)) (rows df) in
  In (BusiestResource (CStr "ana") 3)
     (generate_sankhya_suggestions sample_dates ieee_sum ieee_truediv ieee_mean df []) /\
  has_column "org:resource" df = true /\
  is_null (CStr "ana") = false /\ In (CStr "ana") col /\
  3%nat = occurrences_of (CStr "ana") col /\ (0 < 3)%nat /\
  forall c, (occurrences_of c col <= 3)%nat.
Proof.
  intros df col.
  assert (Hin : In (BusiestResource (CStr "ana") 3)
                   (generate_sankhya_suggestions sample_dates ieee_sum ieee_truediv ieee_mean df []))
    by (vm_compute; auto).
  split; [exact Hin |].
  exact (busiest_resource_spec sample_dates ieee_sum ieee_truediv ieee_mean df [] (CStr "ana") 3%nat Hin).
Defined.

(** ** The peak hour *)

(** [first_max] returns the first of the entries with the largest count. *)
Lemma first_max_spec (counts : list (cell * nat)) (x : cell * nat) :
  first_max counts = Some x ->
  exists pre post,
    counts = pre ++ x :: post /\
    Forall (fun y => (snd y < snd x)%nat) pre /\
    Forall (fun y => (snd y <= snd x)%nat) post.
Proof.
  revert x. induction counts as [| a rest IH]; intros x; simpl; [discriminate |].
  destruct (first_max rest) as [y |] eqn:Hrest.
  - destruct (IH y eq_refl) as (pre & post & -> & Hpre & Hpost).
    destruct (Nat.ltb_spec (snd a) (snd y)) as [Hlt | Hge]; intros [= <-].
    + exists (a :: pre), post. repeat split; [constructor |]; assumption.
    + exists [], (pre ++ y :: post). repeat split; [constructor |].
      apply Forall_app. split; [| constructor].
      * eapply Forall_impl; [| exact Hpre]. simpl. intros; lia.
      * exact Hge.
      * eapply Forall_impl; [| exact Hpost]. simpl. intros; lia.
  - intros [= <-]. destruct rest as [| b rest]; [| simpl in Hrest].
    + exists [], []. repeat split; constructor.
    + destruct (first_max rest) as [y |]; [destruct (Nat.ltb (snd b) (snd y)) |];
        discriminate.
Qed.

Section HourColumn.
(** The cell that holds an hour: an integer cell, or a float cell in a column
    with a missing value. *)
Variable mk : Z -> cell.
Hypothesis mk_eqb : forall a b, cell_eqb (mk a) (mk b) = (a =? b).
Hypothesis mk_leb : forall a b, cell_leb (mk a) (mk b) = (a <=? b).
Hypothesis mk_present : forall a, is_null (mk a) = false.

Lemma mk_inj (a b : Z) : mk a = mk b -> a = b.
Proof.
  intros H. apply Z.eqb_eq. rewrite <- mk_eqb, H. apply cell_eqb_refl, mk_present.
Qed.

(** What [.dt.hour] leaves in a cell: an hour of the day, or nothing for a
    missing timestamp. *)
Definition hour_cell (c : cell) : Prop :=
  c = CNull \/ exists z, c = mk z /\ 0 <= z < 24.

Lemma hour_counted (hours : list cell) (z : Z) :
  Forall hour_cell hours -> (0 < occurrences_of (mk z) hours)%nat ->
  In (mk z, occurrences_of (mk z) hours) (value_counts hours).
Proof.
  intros Hhours Hpos. rewrite Forall_forall in Hhours.
  assert (Hcell : forall d, In d hours -> cell_eqb d (mk z) = true -> d = mk z).
  { intros d Hd Heq. destruct (Hhours d Hd) as [-> | (y & -> & _)]; [discriminate |].
    rewrite mk_eqb in Heq. apply Z.eqb_eq in Heq. congruence. }
  destruct (occurrences_positive _ _ Hpos) as (d & Hd & Heq).
  rewrite cell_eqb_sym in Heq. rewrite (Hcell d Hd Heq) in Hd.
  destruct (distinct_representative (mk z) hours Hd (mk_present z)) as (e & He & Hez).
  apply value_counts_In. split; [| reflexivity].
  rewrite <- (Hcell e (proj1 (distinct_In e hours He)) Hez). exact He.
Qed.

(** The label [idxmax] finds in the hourly counts sorted by hour: the
    earliest of the hours with the most timestamps. *)
Lemma idxmax_hours (hours : list cell) (peak : cell) :
  Forall hour_cell hours ->
  idxmax (sort_index (value_counts hours)) = Ok peak ->
  exists z,
    peak = mk z /\ 0 <= z < 24 /\ In (mk z) hours /\
    (forall z', (occurrences_of (mk z') hours <= occurrences_of (mk z) hours)%nat) /\
    (forall z', z' < z ->
       (occurrences_of (mk z') hours < occurrences_of (mk z) hours)%nat).
Proof.
  intros Hhours. unfold idxmax.
  destruct (first_max (sort_index (value_counts hours))) as [[label n] |] eqn:Hmax;
    [| discriminate].
  intros [= <-].
  destruct (first_max_spec _ _ Hmax) as (pre & post & Hsplit & Hpre & Hpost).
  assert (Hmem : forall e, In e (sort_index (value_counts hours)) <->
                           In e (value_counts hours)).
  { intros e. unfold sort_index. apply sort_In. }
  assert (Hlabel : In (label, n) (value_counts hours)).
  { apply Hmem. rewrite Hsplit. apply in_or_app. right. left. reflexivity. }
  apply value_counts_In in Hlabel as (Hdistinct & Hn).
  apply distinct_In in Hdistinct as (Hin & Hnull).
  pose proof Hhours as Hall. rewrite Forall_forall in Hall.
  destruct (Hall label Hin) as [-> | (z & -> & Hz)]; [discriminate |].
  assert (Hpos : (0 < n)%nat) by (rewrite Hn; apply occurrences_of_In; assumption).
  pose proof (sort_sorted (fun a b : cell * nat => cell_leb (fst a) (fst b))
                (fun a b => cell_leb_total (fst a) (fst b))
                (fun a b c => cell_leb_trans (fst a) (fst b) (fst c))
                (value_counts hours)) as Hsorted.
  fold (sort_index (value_counts hours)) in Hsorted. rewrite Hsplit in Hsorted.
  apply StronglySorted_app_r, StronglySorted_inv in Hsorted as [_ Hafter].
  rewrite Forall_forall in Hpre, Hpost, Hafter. simpl in Hpre, Hpost.
  assert (Hcases : forall z', (0 < occurrences_of (mk z') hours)%nat ->
            In (mk z', occurrences_of (mk z') hours) pre \/ z' = z \/
            In (mk z', occurrences_of (mk z') hours) post).
  { intros z' Hz'. pose proof (hour_counted hours z' Hhours Hz') as Hc.
    apply Hmem in Hc. rewrite Hsplit in Hc.
    apply in_app_or in Hc as [Hc | [Hc | Hc]]; auto.
    injection Hc as Hc _. rewrite <- (mk_inj _ _ Hc). auto. }
  exists z. repeat split; try assumption; try lia; rewrite <- Hn.
  - intros z'. destruct (occurrences_of (mk z') hours) as [| m] eqn:Hocc; [lia |].
    rewrite <- Hocc.
    destruct (Hcases z' ltac:(lia)) as [Hc | [-> | Hc]].
    + apply Hpre in Hc. simpl in Hc. lia.
    + lia.
    + apply Hpost in Hc. exact Hc.
  - intros z' Hlt. destruct (occurrences_of (mk z') hours) as [| m] eqn:Hocc; [lia |].
    rewrite <- Hocc.
    destruct (Hcases z' ltac:(lia)) as [Hc | [-> | Hc]].
    + apply Hpre in Hc. exact Hc.
    + lia.
    + apply Hafter in Hc. simpl in Hc. rewrite mk_leb in Hc. apply Z.leb_le in Hc. lia.
Qed.

End HourColumn.

Lemma dt_hour_cells (times : list cell) :
  Forall (hour_cell (if existsb is_null times
                     then fun z => CNum (inject_Z z) else CInt))
         (dt_hour times).
Proof.
  unfold dt_hour. destruct (existsb is_null times);
    apply Forall_map, Forall_forall; intros c _;
    (destruct c; simpl; try (left; reflexivity));
    right; eexists; (split; [reflexivity | apply Z.mod_pos_bound; lia]).
Qed.

Lemma float_hour_leb (a b : Z) :
  cell_leb (CNum (inject_Z a)) (CNum (inject_Z b)) = (a <=? b).
Proof. simpl. rewrite <- Zleb_Qle_bool. reflexivity. Qed.

Section PeakHour.
Variable parse_date : list cell -> cell -> result (option Z).
Variable py_sum : list json -> json.
Variable py_truediv : json -> Z -> result Q.
Variable series_mean : list cell -> Q.

(** X14: when the list returned names a peak hour, the "time:timestamp"
    column converts to datetimes and the hour named is an hour from 0 to 23,
    an integer, or a float when a timestamp is missing ([.dt.hour] is then a
    float column); it is the hour of one of the timestamps, no hour has more
    timestamps, and every earlier hour has fewer. *)
Theorem peak_hour_spec (df : frame) (aligned_traces : list json) (peak : cell) :
  In (PeakHour peak)
     (generate_sankhya_suggestions parse_date py_sum py_truediv series_mean
        df aligned_traces) ->
  exists times z,
    to_datetime parse_date "time:timestamp" df = Ok times /\
    let hour := if existsb is_null times
                then fun h => CNum (inject_Z h) else CInt in
    let hours := dt_hour times in
    peak = hour z /\ 0 <= z < 24 /\
    In (hour z) hours /\
    (forall z', (occurrences_of (hour z') hours <= occurrences_of (hour z) hours)%nat) /\
    (forall z', z' < z ->
       (occurrences_of (hour z') hours < occurrences_of (hour z) hours)%nat).
Proof.
  intros Hin.
  destruct (finding_fired parse_date py_sum py_truediv series_mean df aligned_traces
              (PeakHour peak) eq_refl Hin)
    as (s1 & s2 & s3 & s4 & s5 & s6 & H1 & H2 & H3 & H4 & H5 & H6 & Happ).
  pose proof (activity_kind _ _ H1) as K1.
  pose proof (duration_kind _ _ _ H2) as K2.
  pose proof (conformance_kind _ _ _ _ H3) as K3.
  pose proof (category_kind _ _ H4) as K4. pose proof (resource_kind _ _ H5) as K5.
  rewrite Forall_forall in K1, K2, K3, K4, K5.
  repeat (apply in_app_or in Happ as [Happ | Happ]);
    try (apply K1 in Happ; discriminate);
    try (apply K2 in Happ; discriminate); try (apply K3 in Happ; discriminate);
    try (apply K4 in Happ; discriminate); try (apply K5 in Happ; discriminate).
  unfold peak_hour_suggestion in H6.
  destruct (has_column "time:timestamp" df); [| injection H6 as <-; destruct Happ].
  apply bind_ok in H6 as (times & Htimes & H6).
  apply bind_ok in H6 as (h & Hmax & [= <-]).
  destruct Happ as [[= <-] | []].
  exists times. cbv zeta.
  pose proof (dt_hour_cells times) as Hcells.
  destruct (existsb is_null times).
  - destruct (idxmax_hours (fun z => CNum (inject_Z z))
                (fun a b => inject_Z_eqb a b) float_hour_leb (fun a => eq_refl)
                (dt_hour times) h Hcells Hmax) as (z & -> & Hz & Hrest).
    exists z. repeat split; try assumption; try lia; apply Hrest.
  - destruct (idxmax_hours CInt (fun a b => eq_refl) (fun a b => eq_refl)
                (fun a => eq_refl) (dt_hour times) h Hcells Hmax)
      as (z & -> & Hz & Hrest).
    exists z. repeat split; try assumption; try lia; apply Hrest.
Qed.
End PeakHour.

Lemma peak_hour_spec_witness :
  let df := preprocess_data sample_str sample_missing sample_seconds sample_events in
  In (PeakHour (CNum 0))
     (generate_sankhya_suggestions sample_dates ieee_sum ieee_truediv ieee_mean df []) /\
  exists times z,
    to_datetime sample_dates "time:timestamp" df = Ok times /\
    let hour := if existsb is_null times
                then fun h => CNum (inject_Z h) else CInt in
    let hours := dt_hour times in
    CNum 0 = hour z /\ 0 <= z < 24 /\
    In (hour z) hours /\
    (forall z', (occurrences_of (hour z') hours <= occurrences_of (hour z) hours)%nat) /\
    (forall z', z' < z ->
       (occurrences_of (hour z') hours < occurrences_of (hour z) hours)%nat).
Proof.
  intros df.
  assert (Hin : In (PeakHour (CNum 0))
                   (generate_sankhya_suggestions sample_dates ieee_sum ieee_truediv
                      ieee_mean df []))
    by (vm_compute; auto).
  split; [exact Hin |].
  exact (peak_hour_spec sample_dates ieee_sum ieee_truediv ieee_mean df [] (CNum 0) Hin).
Defined.

(** ** The fitness figures and the conformance suggestion *)

Lemma filter_all {A : Type} (f : A -> bool) (l : list A) :
  length (filter f l) = length l -> Forall (fun x => f x = true) l.
Proof.
  induction l as [| x l IH]; simpl; [constructor |].
  pose proof (filter_length_le f l) as Hle.
  destruct (f x) eqn:E; simpl; intros H; [| lia].
  constructor; [exact E | apply IH; lia].
Qed.

Lemma has_fitness_values (aligned_traces values : list json) :
  Forall2 has_fitness aligned_traces values ->
  mapM fitness_of aligned_traces = Ok values /\
  exists numbers, mapM as_number values = Ok numbers.
Proof.
  induction 1 as [| t v ts vs (entries & number & -> & Hget & Hnum) _ (IH1 & ns & IH2)].
  - split; [reflexivity | exists []; reflexivity].
  - split.
    + cbn [mapM]. unfold fitness_of at 1, py_getitem. rewrite Hget. cbn [bind].
      rewrite IH1. reflexivity.
    + exists (number :: ns). cbn [mapM]. rewrite Hnum. cbn [bind]. rewrite IH2.
      reflexivity.
Qed.

Section FiguresAndSuggestion.
Variable py_sum : list json -> json.
Variable py_truediv : json -> Z -> result Q.

(** Two facts of Python's arithmetic: a sum of at most 2^53 numbers that all
    equal 1 is their number, exactly; a number divided by an int that
    equals it, 2^53 at most, gives 1. *)
Hypothesis sum_of_ones :
  forall values,
    Forall (fun v => perfect_value v = true) values ->
    Z.of_nat (length values) <= 2 ^ 53 ->
    exists total, as_number (py_sum values) = Ok total /\
                  (total == inject_Z (Z.of_nat (length values)))%Q.
Hypothesis quotient_of_equals :
  forall x n total quotient,
    as_number x = Ok total -> (total == inject_Z n)%Q -> 0 < n <= 2 ^ 53 ->
    py_truediv x n = Ok quotient -> (quotient == 1)%Q.

(** X15: when the analysis yields its two fitness figures, the number of
    perfect traces lies between 0 and the number of traces; when there are
    traces (no more than 2^53) and all are perfect the average is 1, given
    the two facts of Python's arithmetic above; and the conformance
    suggestion is computed without exception from that same average: low
    conformance below the float 0.8, high conformance above the float 0.95,
    none in between. *)
Theorem fitness_figures_and_suggestion (aligned_traces : list json) (perfect : Z)
    (average : Q) :
  fitness_figures py_sum py_truediv aligned_traces = Ok (perfect, average) ->
  0 <= perfect <= Z.of_nat (length aligned_traces) /\
  (aligned_traces <> [] -> Z.of_nat (length aligned_traces) <= 2 ^ 53 ->
   perfect = Z.of_nat (length aligned_traces) -> (average == 1)%Q) /\
  (aligned_traces <> [] ->
   conformance_suggestion py_sum py_truediv aligned_traces =
     Ok (if Qlt_le_dec average float_0_8 then [LowConformance average]
         else if Qlt_le_dec float_0_95 average then [HighConformance average]
         else [])).
Proof.
  intros H. apply fitness_figures_inv in H as (values & Hfit & -> & Havg).
  pose proof (Forall2_length Hfit) as Hlen.
  pose proof (filter_length_le perfect_value values) as Hle.
  split; [rewrite Hlen; lia |].
  destruct aligned_traces as [| t ts]; [split; congruence |].
  split.
  - intros _ Hbound Hall. rewrite Hlen in Hall, Hbound, Havg.
    assert (Hones : Forall (fun v => perfect_value v = true) values)
      by (apply filter_all; lia).
    destruct (sum_of_ones values Hones Hbound) as (total & Htotal & Heq).
    apply (quotient_of_equals _ _ total average Htotal Heq); [| exact Havg].
    split; [rewrite <- Hlen; cbn [length]; lia | exact Hbound].
  - intros _. cbn [conformance_suggestion].
    destruct (has_fitness_values _ _ Hfit) as (Hvalues & numbers & Hnumbers).
    rewrite Hvalues. cbn [bind]. rewrite Hnumbers. cbn [bind].
    rewrite <- Hlen, Havg. cbn [bind].
    destruct (Qlt_le_dec average float_0_8); [reflexivity |].
    destruct (Qlt_le_dec float_0_95 average); reflexivity.
Qed.
End FiguresAndSuggestion.

(** *** The two facts in IEEE 754 arithmetic *)

Lemma pow2_add (a b : Z) : 0 <= a -> 0 <= b -> 2 ^ (a + b) = 2 ^ a * 2 ^ b.
Proof. intros Ha Hb. apply Z.pow_add_r; assumption. Qed.

(** The binade of a positive integer [k] given as the fraction
    [k * d / d]: its exponent is [log2 k - 52], and not the next one. *)
Lemma in_binade_exact (k d : Z) :
  0 < k -> 0 < d -> in_binade (k * d) d (Z.log2 k - 52) = true.
Proof.
  intros Hk Hd. unfold in_binade, scaled.
  destruct (Z.log2_spec k Hk) as (Hlo & Hhi).
  pose proof (Z.log2_nonneg k) as Hl.
  destruct (Z.leb_spec 0 (Z.log2 k - 52)) as [He | He].
  - apply andb_true_intro. split; [apply Z.leb_le | apply Z.ltb_lt].
    + replace (2 ^ 52 * (d * 2 ^ (Z.log2 k - 52))) with (d * 2 ^ Z.log2 k).
      * nia.
      * replace (Z.log2 k) with (52 + (Z.log2 k - 52)) at 1 by lia.
        rewrite pow2_add by lia. ring.
    + replace (2 ^ 53 * (d * 2 ^ (Z.log2 k - 52))) with (d * 2 ^ Z.succ (Z.log2 k)).
      * nia.
      * replace (Z.succ (Z.log2 k)) with (53 + (Z.log2 k - 52)) by lia.
        rewrite pow2_add by lia. ring.
  - apply andb_true_intro. split; [apply Z.leb_le | apply Z.ltb_lt].
    + assert (H : 2 ^ 52 = 2 ^ Z.log2 k * 2 ^ (- (Z.log2 k - 52))).
      { rewrite <- pow2_add by lia. f_equal. lia. }
      pose proof (pow2_pos (- (Z.log2 k - 52)) ltac:(lia)).
      rewrite H. nia.
    + assert (H : 2 ^ 53 = 2 ^ Z.succ (Z.log2 k) * 2 ^ (- (Z.log2 k - 52))).
      { rewrite <- pow2_add by lia. f_equal. lia. }
      pose proof (pow2_pos (- (Z.log2 k - 52)) ltac:(lia)).
      rewrite H. nia.
Qed.

Lemma in_binade_above (k d : Z) :
  0 < k -> 0 < d -> in_binade (k * d) d (Z.log2 k - 52 + 1) = false.
Proof.
  intros Hk Hd. unfold in_binade, scaled.
  destruct (Z.log2_spec k Hk) as (Hlo & Hhi).
  pose proof (Z.log2_nonneg k) as Hl.
  destruct (Z.leb_spec 0 (Z.log2 k - 52 + 1)) as [He | He].
  - apply andb_false_intro1. apply Z.leb_gt.
    replace (2 ^ 52 * (d * 2 ^ (Z.log2 k - 52 + 1))) with (d * 2 ^ Z.succ (Z.log2 k)).
    + nia.
    + replace (Z.succ (Z.log2 k)) with (52 + (Z.log2 k - 52 + 1)) by lia.
      rewrite pow2_add by lia. ring.
  - apply andb_false_intro1. apply Z.leb_gt.
    assert (H : 2 ^ 52 = 2 ^ Z.succ (Z.log2 k) * 2 ^ (- (Z.log2 k - 52 + 1))).
    { rewrite <- pow2_add by lia. f_equal. lia. }
    pose proof (pow2_pos (- (Z.log2 k - 52 + 1)) ltac:(lia)).
    rewrite H. nia.
Qed.

Lemma round_half_even_exact (m q : Z) : 0 < q -> round_half_even (m * q) q = m.
Proof.
  intros Hq. unfold round_half_even.
  rewrite Z.mod_mul by lia. rewrite Z.div_mul by lia.
  cbn [Z.mul]. destruct (Z.compare_spec 0 q); lia.
Qed.

(** A float holds every integer up to 2^53: rounding leaves it as it is. *)
Lemma round64_int (x : Q) (k : Z) :
  (x == inject_Z k)%Q -> 0 <= k <= 2 ^ 53 -> (round64 x == inject_Z k)%Q.
Proof.
  intros Hx Hk. destruct x as [n d]. unfold Qeq in Hx. cbn [Qnum Qden inject_Z] in Hx.
  rewrite Z.mul_1_r in Hx. subst n.
  unfold round64. cbn [Qnum Qden].
  assert (Hd : 0 < Z.pos d) by lia.
  destruct (Z.eq_dec k 0) as [-> | Hne].
  { reflexivity. }
  assert (Hpos : 0 < k) by lia.
  rewrite Z.abs_eq by nia.
  destruct (Z.eqb_spec (k * Z.pos d) 0) as [E | _]; [nia |].
  assert (Hsgn : Z.sgn (k * Z.pos d) = 1) by (apply Z.sgn_pos; nia).
  rewrite Hsgn.
  set (L := Z.log2 k).
  assert (He : (if in_binade (k * Z.pos d) (Z.pos d)
                     (Z.log2 (k * Z.pos d) - Z.log2 (Z.pos d) - 52)
                then Z.log2 (k * Z.pos d) - Z.log2 (Z.pos d) - 52
                else if in_binade (k * Z.pos d) (Z.pos d)
                          (Z.log2 (k * Z.pos d) - Z.log2 (Z.pos d) - 52 - 1)
                     then Z.log2 (k * Z.pos d) - Z.log2 (Z.pos d) - 52 - 1
                     else Z.log2 (k * Z.pos d) - Z.log2 (Z.pos d) - 52 + 1) = L - 52).
  { pose proof (Z.log2_mul_below k (Z.pos d) Hpos Hd) as Hlo.
    pose proof (Z.log2_mul_above k (Z.pos d) ltac:(lia) ltac:(lia)) as Hhi.
    assert (Hcase : Z.log2 (k * Z.pos d) - Z.log2 (Z.pos d) - 52 = L - 52 \/
                    Z.log2 (k * Z.pos d) - Z.log2 (Z.pos d) - 52 = L - 52 + 1)
      by (unfold L; lia).
    destruct Hcase as [-> | ->].
    - unfold L. rewrite in_binade_exact by assumption. reflexivity.
    - unfold L. rewrite in_binade_above by assumption.
      replace (Z.log2 k - 52 + 1 - 1) with (Z.log2 k - 52) by lia.
      rewrite in_binade_exact by assumption. reflexivity. }
  rewrite He. clear He.
  assert (HL : 0 <= L <= 53).
  { unfold L. split; [apply Z.log2_nonneg |].
    pose proof (Z.log2_le_mono k (2 ^ 53) ltac:(lia)) as Hmono.
    rewrite Z.log2_pow2 in Hmono by lia. exact Hmono. }
  unfold scaled.
  destruct (Z.leb_spec 0 (L - 52)) as [Hge | Hlt].
  - (* the exponent is 0 or 1 *)
    assert (Hdiv : exists m, k = m * 2 ^ (L - 52)).
    { assert (Hc : L = 52 \/ L = 53) by lia. destruct Hc as [Hc | Hc]; rewrite Hc.
      - exists k. simpl. lia.
      - assert (k = 2 ^ 53).
        { destruct (Z.log2_spec k Hpos) as (Hlo & _). fold L in Hlo. rewrite Hc in Hlo. lia. }
        exists (2 ^ 52). subst k. reflexivity. }
    destruct Hdiv as (m & Hm).
    assert (Hkd : k * Z.pos d = m * (Z.pos d * 2 ^ (L - 52))) by (rewrite Hm; ring).
    rewrite Hkd.
    rewrite round_half_even_exact by (pose proof (pow2_pos (L - 52) Hge); nia).
    rewrite Z.mul_1_l, <- Hm. reflexivity.
  - replace (k * Z.pos d * 2 ^ (- (L - 52))) with ((k * 2 ^ (- (L - 52))) * Z.pos d) by ring.
    rewrite round_half_even_exact by lia.
    rewrite Z.mul_1_l. rewrite Qred_correct.
    pose proof (pow2_pos (- (L - 52)) ltac:(lia)) as Hp.
    unfold Qeq. cbn [Qnum Qden inject_Z].
    rewrite Z2Pos.id by assumption. ring.
Qed.

(** What a partial sum of ones holds: the number [j], and the int itself as
    long as no float took part. *)
Definition holds (acc : json) (j : Z) : Prop :=
  exists a, as_number acc = Ok a /\ (a == inject_Z j)%Q /\
            (is_float acc = false -> a = inject_Z j).

Lemma perfect_value_one (v : json) :
  perfect_value v = true -> holds v 1.
Proof.
  unfold perfect_value, holds.
  destruct v as [| b | z | q | s | items | entries]; simpl; try discriminate.
  - destruct b; [| discriminate]. intros _. exists 1%Q. repeat split; reflexivity.
  - intros H. apply Qeq_bool_iff in H. exists (inject_Z z).
    assert (z = 1) by (apply inject_Z_injective; exact H). subst z.
    repeat split; reflexivity.
  - intros H. apply Qeq_bool_iff in H. exists q. repeat split; [exact H | discriminate].
Qed.

Lemma ieee_add_one (acc v : json) (j : Z) :
  holds acc j -> perfect_value v = true -> 0 <= j -> j + 1 <= 2 ^ 53 ->
  holds (ieee_add acc v) (j + 1).
Proof.
  intros (a & Ha & Haj & Hint) Hv Hj Hbound.
  destruct (perfect_value_one v Hv) as (b & Hb & Hb1 & Hbint).
  unfold ieee_add, number_value. rewrite Ha, Hb.
  destruct (is_float acc || is_float v)%bool eqn:Hfloat.
  - eexists. split; [reflexivity |]. split; [| discriminate].
    apply round64_int; [| lia].
    rewrite (round64_int a j Haj) by lia. rewrite (round64_int b 1 Hb1) by lia.
    rewrite inject_Z_plus. reflexivity.
  - apply orb_false_elim in Hfloat as (Hfa & Hfv).
    rewrite (Hint Hfa), (Hbint Hfv). cbn [Qnum inject_Z].
    eexists. split; [reflexivity |]. split; [reflexivity | reflexivity].
Qed.

Lemma ieee_fold_ones (values : list json) (acc : json) (j : Z) :
  holds acc j -> Forall (fun v => perfect_value v = true) values ->
  0 <= j -> j + Z.of_nat (length values) <= 2 ^ 53 ->
  holds (fold_left ieee_add values acc) (j + Z.of_nat (length values)).
Proof.
  intros Hacc Hall. revert acc j Hacc.
  induction Hall as [| v values Hv _ IH]; intros acc j Hacc Hj Hbound.
  - simpl. rewrite Z.add_0_r. exact Hacc.
  - cbn [fold_left length] in *. rewrite Nat2Z.inj_succ in *.
    replace (j + Z.succ (Z.of_nat (length values)))
      with (j + 1 + Z.of_nat (length values)) by lia.
    apply IH; [| lia | lia].
    apply ieee_add_one; [assumption | assumption | lia | lia].
Qed.

(** Adding ones from left to right is exact up to 2^53. *)
Lemma ieee_sum_of_ones (values : list json) :
  Forall (fun v => perfect_value v = true) values ->
  Z.of_nat (length values) <= 2 ^ 53 ->
  exists total, as_number (ieee_sum values) = Ok total /\
                (total == inject_Z (Z.of_nat (length values)))%Q.
Proof.
  intros Hall Hbound.
  destruct (ieee_fold_ones values (JInt 0) 0) as (total & Htotal & Heq & _);
    try assumption; try lia.
  - exists 0%Q. repeat split; reflexivity.
  - exists total. split; assumption.
Qed.

Lemma ieee_quotient_of_equals (x : json) (n : Z) (total quotient : Q) :
  as_number x = Ok total -> (total == inject_Z n)%Q -> 0 < n <= 2 ^ 53 ->
  ieee_truediv x n = Ok quotient -> (quotient == 1)%Q.
Proof.
  intros Hx Heq Hn. unfold ieee_truediv, number_value. rewrite Hx.
  assert (Hnz : ~ (inject_Z n == 0)%Q).
  { intros H. apply (proj1 (inject_Z_injective n 0)) in H. lia. }
  destruct (is_float x); intros [= <-]; apply (round64_int _ 1); try lia.
  - rewrite (round64_int (inject_Z n) n) by (reflexivity || lia).
    rewrite Heq. apply Qmult_inv_r. exact Hnz.
  - rewrite Heq. apply Qmult_inv_r. exact Hnz.
Qed.

Lemma fitness_figures_and_suggestion_witness :
  let traces := [JObj [("fitness", JNum 1)]; JObj [("fitness", JInt 1)]] in
  fitness_figures ieee_sum ieee_truediv traces = Ok (2, 1%Q) /\
  0 <= 2 <= Z.of_nat (length traces) /\
  (traces <> [] -> Z.of_nat (length traces) <= 2 ^ 53 ->
   2 = Z.of_nat (length traces) -> (1 == 1)%Q) /\
  (traces <> [] ->
   conformance_suggestion ieee_sum ieee_truediv traces =
     Ok (if Qlt_le_dec 1 float_0_8 then [LowConformance 1]
         else if Qlt_le_dec float_0_95 1 then [HighConformance 1]
         else [])).
Proof.
  intros traces.
  assert (Hfig : fitness_figures ieee_sum ieee_truediv traces = Ok (2, 1%Q))
    by (vm_compute; reflexivity).
  split; [exact Hfig |].
  exact (fitness_figures_and_suggestion ieee_sum ieee_truediv
           ieee_sum_of_ones ieee_quotient_of_equals traces 2 1%Q Hfig).
Defined.

(** ** At most one category covers more than half of the events *)

(** The distinct values of a column are pairwise different, also up to the
    equality of a number with its float. *)
Lemma distinct_separated (col : list cell) (a b : cell) :
  In a (distinct col) -> In b (distinct col) -> cell_eqb a b = true -> a = b.
Proof.
  induction col as [| c col IH]; simpl; [tauto |].
  destruct (is_null c) eqn:Hc; [exact IH |].
  intros [<- | Ha] [<- | Hb] Heq; try reflexivity.
  - apply filter_In in Hb as [_ Hb]. rewrite Heq in Hb. discriminate.
  - apply filter_In in Ha as [_ Ha]. rewrite cell_eqb_sym, Heq in Ha. discriminate.
  - apply filter_In in Ha as [Ha _]. apply filter_In in Hb as [Hb _]. auto.
Qed.

(** Two values that differ share no occurrence. *)
Lemma occurrences_disjoint (a b : cell) (col : list cell) :
  cell_eqb a b = false ->
  (occurrences_of a col + occurrences_of b col <= length col)%nat.
Proof.
  intros Hab. unfold occurrences_of. induction col as [| d col IH]; simpl; [lia |].
  destruct (cell_eqb a d) eqn:Had, (cell_eqb b d) eqn:Hbd; simpl; try lia.
  rewrite cell_eqb_sym in Hbd. rewrite (cell_eqb_trans a d b Had Hbd) in Hab.
  discriminate.
Qed.

Section CategoryFocus.
Variable parse_date : list cell -> cell -> result (option Z).
Variable py_sum : list json -> json.
Variable py_truediv : json -> Z -> result Q.
Variable series_mean : list cell -> Q.

(** X16: the list returned holds at most one category-focus suggestion: two
    categories cannot each cover more than half of the rows. *)
Theorem category_focus_unique (df : frame) (aligned_traces : list json)
    (c1 c2 : cell) (n1 n2 t1 t2 : nat) :
  let out := generate_sankhya_suggestions parse_date py_sum py_truediv series_mean df aligned_traces in
  In (CategoryFocus c1 n1 t1) out -> In (CategoryFocus c2 n2 t2) out ->
  CategoryFocus c1 n1 t1 = CategoryFocus c2 n2 t2.
Proof.
  cbv zeta. intros Hin1 Hin2.
  destruct (finding_fired parse_date py_sum py_truediv series_mean df aligned_traces (CategoryFocus c1 n1 t1)
              eq_refl Hin1)
    as (s1 & s2 & s3 & s4 & s5 & s6 & H1 & H2 & H3 & H4 & H5 & H6 & Happ1).
  destruct (finding_fired parse_date py_sum py_truediv series_mean df aligned_traces (CategoryFocus c2 n2 t2)
              eq_refl Hin2)
    as (r1 & r2 & r3 & r4 & r5 & r6 & G1 & G2 & G3 & G4 & G5 & G6 & Happ2).
  assert (r1 = s1) by congruence. assert (r2 = s2) by congruence.
  assert (r3 = s3) by congruence. assert (r4 = s4) by congruence.
  assert (r5 = s5) by congruence. assert (r6 = s6) by congruence. subst.
  pose proof (activity_kind _ _ H1) as K1.
  pose proof (duration_kind _ _ _ H2) as K2. pose proof (conformance_kind _ _ _ _ H3) as K3.
  pose proof (resource_kind _ _ H5) as K5. pose proof (peak_kind _ _ _ H6) as K6.
  rewrite Forall_forall in K1, K2, K3, K5, K6.
  assert (Hs4 : forall c n t, In (CategoryFocus c n t) (s1 ++ s2 ++ s3 ++ s4 ++ s5 ++ s6) ->
                              In (CategoryFocus c n t) s4).
  { intros c n t Happ.
    repeat (apply in_app_or in Happ as [Happ | Happ]); try assumption;
      try (apply K1 in Happ; discriminate);
      try (apply K2 in Happ; discriminate); try (apply K3 in Happ; discriminate);
      try (apply K5 in Happ; discriminate); try (apply K6 in Happ; discriminate). }
  apply Hs4 in Happ1, Happ2.
  apply (category_spec _ _ H4) in Happ1 as (a & n & [= -> -> ->] & _ & Ha & Hhalf1).
  apply (category_spec _ _ H4) in Happ2 as (b & m & [= -> -> ->] & _ & Hb & Hhalf2).
  apply value_counts_In in Ha as (Ha & ->). apply value_counts_In in Hb as (Hb & ->).
  destruct (cell_eqb a b) eqn:Hab.
  - rewrite (distinct_separated _ a b Ha Hb Hab). reflexivity.
  - pose proof (occurrences_disjoint a b
                  (map (cell_at "process_category" (columns df)) (rows df)) Hab) as Hle.
    rewrite length_map in Hle. lia.
Qed.
End CategoryFocus.

(** Three events, two of them of one category. *)
Definition category_log : frame :=
  {| columns := ["process_category"];
     rows := [ [CStr "Vendas"]; [CStr "Compras"]; [CStr "Vendas"] ] |}.

Lemma category_focus_unique_witness :
  let out := generate_sankhya_suggestions sample_dates ieee_sum ieee_truediv ieee_mean
               category_log [] in
  out = [CategoryFocus (CStr "Vendas") 2 3] /\
  CategoryFocus (CStr "Vendas") 2 3 = CategoryFocus (CStr "Vendas") 2 3.
Proof.
  intros out.
  assert (Hout : out = [CategoryFocus (CStr "Vendas") 2 3]) by reflexivity.
  split; [exact Hout |].
  apply (category_focus_unique sample_dates ieee_sum ieee_truediv ieee_mean
           category_log []);
    fold out; rewrite Hout; left; reflexivity.
Defined.
